(** * trifinger_cameras: calibration script and log viewer

    A shallow embedding of [scripts/calibrate_cameras.py] and
    [scripts/tricamera_log_viewer.py], and the properties of the camera
    calibration pipeline that are stated about them.

    Python values are embedded as follows.
    - A Python [float] is a binary64 number: Rocq's primitive [float].  The
      parts of the calibration code that only move numbers around are
      written over an arbitrary scalar type [F] (class [Scalar]), with
      binary64 as the executable instance and the real numbers as the exact
      one.
    - A raised exception is the [Raise] outcome; a call that waits for a
      key that never comes is [Blocked].
    - A [dict] with string keys is a [gmap string _]; what [yaml.safe_load]
      returns is a [yaml] value.
    - A numpy array is its shape and its row-major buffer. *)

From Stdlib Require Import ZArith List Lia Floats Reals Lra RNsatz.
From stdpp Require Import base gmap strings list.

Local Set Warnings "-register-all".
Local Open Scope Z_scope.

(** ** Outcomes of a Python call *)

(** The exceptions that the two scripts and the library calls they make can
    raise.  [External] is an error of a collaborator that is not part of the
    scripts (the Charuco board handler, OpenCV); [Unsupported] marks a value
    outside the fragment of numpy that is embedded here. *)
Inductive exn : Type :=
| IndexError
| KeyError (key : string)
| TypeError
| ValueError
| ZeroDivisionError
| OverflowError
| FileNotFoundError (path : string)
| OSError (path : string)
| External (what : string)
| Unsupported (what : string).

Inductive outcome (A : Type) : Type :=
| Ret (a : A)
| Raise (e : exn)
| Blocked.
Arguments Ret {A} a.
Arguments Raise {A} e.
Arguments Blocked {A}.

#[export] Instance outcome_ret : MRet outcome := @Ret.
#[export] Instance outcome_bind : MBind outcome := fun A B f m =>
  match m with
  | Ret a => f a
  | Raise e => Raise e
  | Blocked => Blocked
  end.

(** Stateful code: the state that was reached is kept when an exception
    is raised. *)
Definition M (S A : Type) : Type := S -> outcome A * S.

Definition ret {S A} (a : A) : M S A := fun s => (Ret a, s).
Definition bind {S A B} (m : M S A) (f : A -> M S B) : M S B := fun s =>
  match m s with
  | (Ret a, s') => f a s'
  | (Raise e, s') => (Raise e, s')
  | (Blocked, s') => (Blocked, s')
  end.
Definition lift {S A} (o : outcome A) : M S A := fun s => (o, s).
Definition modify {S} (f : S -> S) : M S unit := fun s => (Ret tt, f s).
Definition gets {S A} (f : S -> A) : M S A := fun s => (Ret (f s), s).

#[export] Instance M_ret {S} : MRet (M S) := fun A a => ret a.
#[export] Instance M_bind {S} : MBind (M S) := fun A B f m => bind m f.

(** ** Python sequences *)

(** [l[i]]: a negative index counts from the end. *)
Definition py_getitem {A} (l : list A) (i : Z) : outcome A :=
  let n := Z.of_nat (length l) in
  let k := if i <? 0 then i + n else i in
  if (0 <=? k) && (k <? n) then
    match l !! Z.to_nat k with
    | Some a => Ret a
    | None => Raise IndexError
    end
  else Raise IndexError.

(** The index that [i] denotes on an axis of length [n]. *)
Definition normalize_index (n i : Z) : outcome Z :=
  let k := if i <? 0 then i + n else i in
  if (0 <=? k) && (k <? n) then Ret k else Raise IndexError.

(** The bound of a slice [lo:hi] on an axis of length [n], clamped as Python
    does. *)
Definition clamp_slice (n i : Z) : Z :=
  let k := if i <? 0 then i + n else i in
  Z.max 0 (Z.min n k).

(** ** Scalars *)

Class Scalar (F : Type) : Type := {
  of_int : Z -> F;
  of_float : float -> F;
  add : F -> F -> F;
  mul : F -> F -> F
}.

(** Conversion of a Python [int] to binary64, rounding to nearest even. *)
Definition float_of_Z (z : Z) : float :=
  SF2Prim (binary_normalize prec emax z 0 false).

#[export] Instance float_scalar : Scalar float := {
  of_int := float_of_Z;
  of_float := fun x => x;
  add := PrimFloat.add;
  mul := PrimFloat.mul
}.

(** The real number that a finite binary64 number stands for. *)
Definition float_to_R (x : float) : R :=
  match Prim2SF x with
  | S754_finite s m e => (IZR (cond_Zopp s (Zpos m)) * powerRZ 2 e)%R
  | _ => 0%R
  end.

#[export] Instance R_scalar : Scalar R := {
  of_int := IZR;
  of_float := float_to_R;
  add := Rplus;
  mul := Rmult
}.

(** ** numpy arrays *)

Record ndarray (F : Type) : Type := mk_ndarray {
  shape : list Z;
  buf : list F
}.
Arguments mk_ndarray {F} shape buf.
Arguments shape {F} _.
Arguments buf {F} _.

Definition size_of (s : list Z) : Z := fold_right Z.mul 1 s.

(** What every numpy array satisfies: no negative dimension, and as many
    elements as the shape says. *)
Definition wf_ndarray {F} (a : ndarray F) : Prop :=
  Forall (fun d => 0 <= d) (shape a) /\
  size_of (shape a) = Z.of_nat (length (buf a)).

Section Numpy.
Context {F : Type}.

(** [a.flatten()]: a one-dimensional copy, row-major. *)
Definition flatten (a : ndarray F) : ndarray F :=
  mk_ndarray [Z.of_nat (length (buf a))] (buf a).

(** [a.reshape(r, c)].  A negative dimension is the unknown one (written
    -1) and is inferred from the size; at most one may be unknown.  numpy
    raises [ValueError] when the size does not fit.  The limit that numpy
    puts on the dimensions of an array, which an empty array with a
    dimension of some 2^62 exceeds, is not embedded. *)
Definition reshape (a : ndarray F) (r c : Z) : outcome (ndarray F) :=
  let n := Z.of_nat (length (buf a)) in
  if (0 <=? r) && (0 <=? c) then
    if r * c =? n then Ret (mk_ndarray [r; c] (buf a)) else Raise ValueError
  else if (r <? 0) && (c <? 0) then Raise ValueError
  else
    let known := if r <? 0 then c else r in
    if (known =? 0) || negb (n mod known =? 0) then Raise ValueError
    else Ret (mk_ndarray (if r <? 0 then [n / known; c] else [r; n / known])
                (buf a)).

(** [a[i, j]] on a two-dimensional array. *)
Definition getitem2 (a : ndarray F) (i j : Z) : outcome F :=
  match shape a with
  | [r; c] =>
      i' ← normalize_index r i;
      j' ← normalize_index c j;
      match buf a !! Z.to_nat (i' * c + j') with
      | Some x => Ret x
      | None => Raise IndexError
      end
  | _ => Raise IndexError
  end.

(** [a[i, j] = x] on a two-dimensional array. *)
Definition setitem2 (a : ndarray F) (i j : Z) (x : F) : outcome (ndarray F) :=
  match shape a with
  | [r; c] =>
      i' ← normalize_index r i;
      j' ← normalize_index c j;
      Ret (mk_ndarray (shape a) (<[Z.to_nat (i' * c + j') := x]> (buf a)))
  | _ => Raise IndexError
  end.

(** [a[:, j]]: column [j] of a two-dimensional array, as a one-dimensional
    array. *)
Definition getitem_col (a : ndarray F) (j : Z) : outcome (ndarray F) :=
  match shape a with
  | [r; c] =>
      j' ← normalize_index c j;
      Ret (mk_ndarray [r]
             (omap (fun i => buf a !! (i * Z.to_nat c + Z.to_nat j')%nat)
                   (seq 0 (Z.to_nat r))))
  | _ => Raise IndexError
  end.

(** The writes of [a[lo:lo+length xs, j] = xs], one row after the other. *)
Fixpoint write_col (b : list F) (c j : nat) (row : nat) (xs : list F)
  : list F :=
  match xs with
  | [] => b
  | x :: xs' => write_col (<[(row * c + j)%nat := x]> b) c j (S row) xs'
  end.

(** [a[lo:hi, j] = v] for a one-dimensional [v]: the value is broadcast when
    it has one element, and must otherwise have as many elements as the
    slice has rows. *)
Definition setitem_rows_col (a : ndarray F) (lo hi j : Z) (v : ndarray F)
  : outcome (ndarray F) :=
  match shape a, shape v with
  | [r; c], [n] =>
      j' ← normalize_index c j;
      let lo' := clamp_slice r lo in
      let hi' := clamp_slice r hi in
      let rows := Z.max 0 (hi' - lo') in
      if n =? rows then
        Ret (mk_ndarray (shape a)
               (write_col (buf a) (Z.to_nat c) (Z.to_nat j') (Z.to_nat lo')
                  (buf v)))
      else if n =? 1 then
        match buf v with
        | [x] =>
            Ret (mk_ndarray (shape a)
                   (write_col (buf a) (Z.to_nat c) (Z.to_nat j')
                      (Z.to_nat lo') (replicate (Z.to_nat rows) x)))
        | _ => Raise ValueError
        end
      else Raise ValueError
  | [_; _], _ => Raise (Unsupported "setitem: value is not one-dimensional")
  | _, _ => Raise IndexError
  end.
End Numpy.

(** ** YAML documents *)

(** The values that [yaml.safe_load] returns and [yaml.dump] accepts. *)
Inductive yaml (F : Type) : Type :=
| YNone
| YInt (z : Z)
| YFloat (x : F)
| YStr (s : string)
| YList (l : list (yaml F))
| YDict (d : gmap string (yaml F)).
Arguments YNone {F}.
Arguments YInt {F} z.
Arguments YFloat {F} x.
Arguments YStr {F} s.
Arguments YList {F} l.
Arguments YDict {F} d.

Section Dicts.
Context {F : Type} `{Scalar F}.

(** [d[k]] *)
Definition dict_getitem (d : yaml F) (k : string) : outcome (yaml F) :=
  match d with
  | YDict m =>
      match m !! k with
      | Some v => Ret v
      | None => Raise (KeyError k)
      end
  | _ => Raise TypeError
  end.

(** [d[k] = v] *)
Definition dict_setitem (d : yaml F) (k : string) (v : yaml F)
  : outcome (yaml F) :=
  match d with
  | YDict m => Ret (YDict (<[k := v]> m))
  | _ => Raise TypeError
  end.

(** [d[k1][k2] = v]: the inner dict is the object stored under [k1], so
    the update is seen through [d]. *)
Definition dict_setitem_in (d : yaml F) (k1 k2 : string) (v : yaml F)
  : outcome (yaml F) :=
  inner ← dict_getitem d k1;
  inner' ← dict_setitem inner k2 v;
  dict_setitem d k1 inner'.

(** A number of a YAML document as an array element. *)
Definition as_scalar (v : yaml F) : outcome F :=
  match v with
  | YFloat x => Ret x
  | YInt z => Ret (of_int z)
  | _ => Raise (Unsupported "np.array: element is not a number")
  end.

Fixpoint as_scalars (l : list (yaml F)) : outcome (list F) :=
  match l with
  | [] => Ret []
  | v :: l' =>
      x ← as_scalar v;
      xs ← as_scalars l';
      Ret (x :: xs)
  end.

(** [np.array(v)] for a number or a flat list of numbers, which is what
    the blocks written by the calibration hold.  The element type (dtype)
    is not tracked: integers are represented by the scalars of the same
    value, rounded when the scalars are binary64 and the integer is beyond
    2^53.  For the other values that numpy accepts (nested lists, strings,
    [None]) the result is not embedded: [Unsupported] stands for it, and
    is not an exception of the script. *)
Definition np_array (v : yaml F) : outcome (ndarray F) :=
  match v with
  | YList l =>
      xs ← as_scalars l;
      Ret (mk_ndarray [Z.of_nat (length l)] xs)
  | YInt _ | YFloat _ =>
      x ← as_scalar v;
      Ret (mk_ndarray [] [x])
  | _ => Raise (Unsupported "np.array: not a list of numbers")
  end.

(** [a.tolist()] of a one-dimensional array of floats. *)
Definition tolist (a : ndarray F) : yaml F := YList (YFloat <$> buf a).

(** An argument that numpy takes as a dimension. *)
Definition as_dimension (v : yaml F) : outcome Z :=
  match v with
  | YInt z => Ret z
  | _ => Raise TypeError
  end.

(** [config_matrix], local to [calibrate_extrinsic_parameters]:
    [np.array(data["data"]).reshape(data["rows"], data["cols"])]. *)
Definition config_matrix (data : yaml F) : outcome (ndarray F) :=
  d ← dict_getitem data "data";
  a ← np_array d;
  r ← dict_getitem data "rows";
  c ← dict_getitem data "cols";
  r' ← as_dimension r;
  c' ← as_dimension c;
  reshape a r' c'.

(** The block that the calibration functions store for a matrix [m]:
    an empty dict in which ["rows"], ["cols"] and ["data"] are set, in
    this order, the shape being written out as two literals. *)
Definition matrix_block (rows cols : Z) (m : ndarray F) : yaml F :=
  YDict (<["data" := tolist (flatten m)]>
           (<["cols" := YInt cols]> (<["rows" := YInt rows]> ∅))).
End Dicts.

(** ** The collaborators of the calibration script *)

(** A 3x3 matrix, row by row. *)
Definition mat3 (F : Type) : Type := (F * F * F) * (F * F * F) * (F * F * F).

(** [trifinger_cameras.charuco_board_handler.CharucoBoardHandler]: only its
    interface is used.  [handler_calibrate dir visualize] is
    [CharucoBoardHandler().calibrate(dir, visualize)], which returns the
    camera matrix, the distortion coefficients and the reprojection error;
    [handler_detect camera_matrix dist_coeffs file visualize] is
    [CharucoBoardHandler(camera_matrix, dist_coeffs).detect_board_in_image(
    file, visualize)], which returns [rvec] and [tvec]. *)
Class CharucoBoardHandler (F : Type) : Type := {
  handler_calibrate : string -> bool -> outcome (ndarray F * ndarray F * F);
  handler_detect :
    ndarray F -> ndarray F -> string -> bool -> outcome (ndarray F * ndarray F)
}.

(** The OpenCV functions that compute numbers.  [cv2_Rodrigues rvec] is the
    rotation matrix of the axis-angle vector [rvec]; [cv2_projectPoints] is
    the projection of object points to the image. *)
Class Rodrigues (F : Type) : Type :=
  cv2_Rodrigues : ndarray F -> outcome (mat3 F).

Class ProjectPoints (F : Type) : Type :=
  cv2_projectPoints :
    ndarray F -> ndarray F -> ndarray F -> ndarray F -> ndarray F ->
    outcome (list (F * F)).

(** ** The world of the calibration script *)

(** A coordinate of a point that is handed to OpenCV: a Python int, or a
    scalar taken out of a numpy array. *)
Inductive coordinate (F : Type) : Type :=
| PyInt (z : Z)
| NpScalar (x : F).
Arguments PyInt {F} z.
Arguments NpScalar {F} x.

(** A line drawn by [cv2.line], between two pixels. *)
Record stroke : Type := mk_stroke {
  stroke_from : Z * Z;
  stroke_to : Z * Z;
  stroke_color : list Z;
  stroke_thickness : Z
}.

(** An image read from a file, and what was drawn on it since. *)
Record picture : Type := mk_picture {
  picture_file : string;
  picture_strokes : list stroke
}.

(** The files hold YAML documents ([yaml.dump] and [yaml.safe_load] are
    taken to be inverse to each other); [locked] are the paths that cannot
    be opened for writing, [pictures] the files that [cv2.imread] decodes.
    [keys] is what the next calls of [cv2.waitKey] return, -1 for a call that
    times out; no key is pressed after the last one.  [shown] are the calls
    of [cv2.imshow], oldest first.  [printed] is what has been written to
    the standard output and to the log; the calibration script has no
    statement that writes there. *)
Record world (F : Type) : Type := mk_world {
  files : gmap string (yaml F);
  locked : gset string;
  pictures : gset string;
  keys : list Z;
  shown : list (string * picture);
  printed : list string
}.
Arguments mk_world {F} _ _ _ _ _ _.
Arguments files {F} _.
Arguments locked {F} _.
Arguments pictures {F} _.
Arguments keys {F} _.
Arguments shown {F} _.
Arguments printed {F} _.

Section Files.
Context {F : Type}.

Definition set_files (f : gmap string (yaml F)) (w : world F) : world F :=
  mk_world f (locked w) (pictures w) (keys w) (shown w) (printed w).
Definition set_keys (k : list Z) (w : world F) : world F :=
  mk_world (files w) (locked w) (pictures w) k (shown w) (printed w).
Definition add_shown (e : string * picture) (w : world F) : world F :=
  mk_world (files w) (locked w) (pictures w) (keys w) (shown w ++ [e])
    (printed w).

(** [with open(path) as file: yaml.safe_load(file)] *)
Definition yaml_safe_load_file (path : string) : M (world F) (yaml F) :=
  fun w =>
    match files w !! path with
    | Some v => (Ret v, w)
    | None => (Raise (FileNotFoundError path), w)
    end.

(** [open(path, "w")]: the file is created or emptied. *)
Definition open_w (path : string) : M (world F) unit := fun w =>
  if decide (path ∈ locked w) then (Raise (OSError path), w)
  else (Ret tt, set_files (<[path := YNone]> (files w)) w).

(** [with open(path, "w") as outfile: yaml.dump(v, outfile, ...)] *)
Definition yaml_dump_file (v : yaml F) (path : string) : M (world F) unit :=
  _ ← open_w path;
  modify (fun w => set_files (<[path := v]> (files w)) w).

(** [cv2.imread(path)]: [None] when the file cannot be read. *)
Definition cv2_imread (path : string) : M (world F) (option picture) :=
  gets (fun w => if decide (path ∈ pictures w)
                 then Some (mk_picture path []) else None).

(** A point as an argument of the OpenCV call [what]: the binding takes a
    pair of Python ints, and fails on a pair of numpy float scalars, which
    it does not convert. *)
Definition cv2_point (what : string) (p : coordinate F * coordinate F)
  : outcome (Z * Z) :=
  match p with
  | (PyInt x, PyInt y) => Ret (x, y)
  | _ => Raise (External what)
  end.

(** [cv2.line(img, pt1, pt2, color, thickness=t)] draws on [img] and
    returns it; on [None] there is nothing to draw on, and [None] is
    returned. *)
Definition cv2_line (img : option picture)
    (pt1 pt2 : coordinate F * coordinate F) (color : list Z) (t : Z)
  : outcome (option picture) :=
  a ← cv2_point "cv2.line" pt1;
  b ← cv2_point "cv2.line" pt2;
  Ret (match img with
       | Some pic =>
           Some (mk_picture (picture_file pic)
                   (picture_strokes pic ++ [mk_stroke a b color t]))
       | None => None
       end).

(** [cv2.imshow(title, img)] *)
Definition cv2_imshow (title : string) (img : option picture)
  : M (world F) unit :=
  match img with
  | Some pic => modify (add_shown (title, pic))
  | None => lift (Raise (External "cv2.imshow"))
  end.

(** [while cv2.waitKey(10) == -1: pass] on the keys that are to come:
    what is left of them when a key is pressed. *)
Fixpoint until_key (ks : list Z) : outcome (list Z) :=
  match ks with
  | [] => Blocked
  | k :: ks' => if k =? -1 then until_key ks' else Ret ks'
  end.

Definition wait_for_key : M (world F) unit := fun w =>
  match until_key (keys w) with
  | Ret ks => (Ret tt, set_keys ks w)
  | Raise e => (Raise e, w)
  | Blocked => (Blocked, set_keys [] w)
  end.
End Files.

(** ** The reference shape of the overlay *)

(** The corners listed in [calibrate_extrinsic_parameters]. *)
Definition cube_corners : list (list Z) :=
  [ [0; 0; 0]; [0; 1; 0]; [1; 0; 0]; [1; 1; 0];
    [0; 0; 1]; [0; 1; 1]; [1; 0; 1]; [1; 1; 1] ].

Definition point_pairs : list (Z * Z) :=
  [ (0, 4); (1, 5); (2, 6); (3, 7); (0, 1); (0, 2);
    (1, 3); (2, 3); (4, 5); (4, 6); (5, 7); (6, 7) ].

(** Single precision: a float32 is kept as the binary64 number of the same
    value.  [to_float32] rounds to single precision, [float32_mul] is the
    product of two float32 numbers, rounded once. *)
Definition to_float32 (x : float) : float :=
  match Prim2SF x with
  | S754_finite s m e =>
      SF2Prim (binary_normalize 24 128 (cond_Zopp s (Zpos m)) e s)
  | _ => x
  end.

Definition float32_mul (x y : float) : float :=
  SF2Prim (SFmul 24 128 (Prim2SF x) (Prim2SF y)).

(** The factor [0.04] of the corners: the binary64 number that the literal
    denotes.  It is the size of one square of the Charuco board. *)
Definition square_size : float := 0x1.47ae147ae147bp-5%float.

(** [np.array(corners, dtype=np.float32) * 0.04]: the product of a float32
    array and a Python float is computed in single precision. *)
Definition scaled_corners : list float :=
  (fun z => float32_mul (to_float32 (float_of_Z z)) (to_float32 square_size))
    <$> concat cube_corners.

(** ** scripts/calibrate_cameras.py *)

Section CalibrateCameras.
Context {F : Type} {scalar : Scalar F} {handler : CharucoBoardHandler F}
        {rodrigues : Rodrigues F} {project : ProjectPoints F}.

(** Modelled from the spec: [trifinger_cameras.utils.rodrigues_to_matrix]
    is not among the sources.  It is the axis-angle-to-matrix conversion of
    section 4.3, step 3; its caller writes column 3 and entry (3, 3) of the
    result and stores the result as the 4x4 block, so the result is the
    4x4 array that has the rotation matrix in rows 0-2, columns 0-2, and
    zeros elsewhere. *)
Definition rodrigues_to_matrix (rvec : ndarray F) : outcome (ndarray F) :=
  '(r0, r1, r2) ← cv2_Rodrigues rvec;
  let '(r00, r01, r02) := r0 in
  let '(r10, r11, r12) := r1 in
  let '(r20, r21, r22) := r2 in
  let o := of_int 0 in
  Ret (mk_ndarray [4; 4]
         [ r00; r01; r02; o;
           r10; r11; r12; o;
           r20; r21; r22; o;
           o; o; o; o ]).

(** Lines 86-88 of [calibrate_extrinsic_parameters]:
    [projection_matrix = utils.rodrigues_to_matrix(rvec)],
    [projection_matrix[0:3, 3] = tvec[:, 0]],
    [projection_matrix[3, 3] = 1]. *)
Definition assemble_projection_matrix (rvec tvec : ndarray F)
  : outcome (ndarray F) :=
  projection_matrix ← rodrigues_to_matrix rvec;
  column ← getitem_col tvec 0;
  projection_matrix ← setitem_rows_col projection_matrix 0 3 3 column;
  setitem2 projection_matrix 3 3 (of_int 1).

(** Lines 87 and 88 on their own: the two item assignments, on whatever
    array stands in the place of the result of [rodrigues_to_matrix]. *)
Definition write_translation (projection_matrix tvec : ndarray F)
  : outcome (ndarray F) :=
  column ← getitem_col tvec 0;
  projection_matrix ← setitem_rows_col projection_matrix 0 3 3 column;
  setitem2 projection_matrix 3 3 (of_int 1).

(** The record that [calibrate_intrinsic_parameters] builds. *)
Definition intrinsic_camera_info (camera_matrix dist_coeffs : ndarray F)
  : outcome (yaml F) :=
  let camera_info := YDict ∅ in
  camera_info ← dict_setitem camera_info "camera_matrix" (YDict ∅);
  camera_info ← dict_setitem_in camera_info "camera_matrix" "rows" (YInt 3);
  camera_info ← dict_setitem_in camera_info "camera_matrix" "cols" (YInt 3);
  camera_info ← dict_setitem_in camera_info "camera_matrix" "data"
                  (tolist (flatten camera_matrix));
  camera_info ← dict_setitem camera_info "distortion_coefficients" (YDict ∅);
  camera_info ← dict_setitem_in camera_info "distortion_coefficients" "rows"
                  (YInt 1);
  camera_info ← dict_setitem_in camera_info "distortion_coefficients" "cols"
                  (YInt 5);
  dict_setitem_in camera_info "distortion_coefficients" "data"
    (tolist (flatten dist_coeffs)).

Definition calibrate_intrinsic_parameters
    (calibration_data calibration_results_file : string)
  : M (world F) unit :=
  '(camera_matrix, dist_coeffs, error) ←
     lift (handler_calibrate calibration_data false);
  camera_info ← lift (intrinsic_camera_info camera_matrix dist_coeffs);
  yaml_dump_file camera_info calibration_results_file.

(** The projection block is attached to the loaded record. *)
Definition attach_projection_matrix (calibration_data : yaml F)
    (projection_matrix : ndarray F) : outcome (yaml F) :=
  calibration_data ←
    dict_setitem calibration_data "projection_matrix" (YDict ∅);
  calibration_data ←
    dict_setitem_in calibration_data "projection_matrix" "rows" (YInt 4);
  calibration_data ←
    dict_setitem_in calibration_data "projection_matrix" "cols" (YInt 4);
  dict_setitem_in calibration_data "projection_matrix" "data"
    (tolist (flatten projection_matrix)).

Definition new_object_points : ndarray F :=
  mk_ndarray [8; 3] (of_float <$> scaled_corners).

(** [tuple(imgpoints[p, 0])]: the two scalars of a projected point, as
    they are in the array. *)
Definition point_tuple (p : F * F) : coordinate F * coordinate F :=
  (NpScalar p.1, NpScalar p.2).

(** The loop over [point_pairs] that draws the edges. *)
Fixpoint draw_pairs (img : option picture) (imgpoints : list (F * F))
    (pairs : list (Z * Z)) {struct pairs} : outcome (option picture) :=
  match pairs with
  | [] => Ret img
  | (p1, p2) :: pairs' =>
      a ← py_getitem imgpoints p1;
      b ← py_getitem imgpoints p2;
      img ← cv2_line img (point_tuple a) (point_tuple b) [200; 200; 0] 2;
      draw_pairs img imgpoints pairs'
  end.

(** The body of [if impose_cube:]. *)
Definition impose_cube_on_image (image_filename : string)
    (rvec tvec camera_matrix dist_coeffs : ndarray F) : M (world F) unit :=
  img ← cv2_imread image_filename;
  imgpoints ← lift (cv2_projectPoints new_object_points rvec tvec
                      camera_matrix dist_coeffs);
  img ← lift (draw_pairs img imgpoints point_pairs);
  _ ← cv2_imshow "Imposed Cube" img;
  wait_for_key.

Definition calibrate_extrinsic_parameters
    (calibration_results_file charuco_centralized_image_filename
     extrinsic_calibration_filename : string) (impose_cube : bool)
  : M (world F) unit :=
  calibration_data ← yaml_safe_load_file calibration_results_file;
  block ← lift (dict_getitem calibration_data "camera_matrix");
  camera_matrix ← lift (config_matrix block);
  block ← lift (dict_getitem calibration_data "distortion_coefficients");
  dist_coeffs ← lift (config_matrix block);
  '(rvec, tvec) ←
     lift (handler_detect camera_matrix dist_coeffs
             charuco_centralized_image_filename false);
  projection_matrix ← lift (assemble_projection_matrix rvec tvec);
  calibration_data ←
    lift (attach_projection_matrix calibration_data projection_matrix);
  _ ← yaml_dump_file calibration_data extrinsic_calibration_filename;
  if impose_cube then
    impose_cube_on_image charuco_centralized_image_filename
      rvec tvec camera_matrix dist_coeffs
  else mret tt.
End CalibrateCameras.

(** ** Applying a matrix to a vector *)

Section MatVec.
Context {F : Type} `{Scalar F}.

Definition dot (u v : list F) : F :=
  fold_left (fun acc '(a, b) => add acc (mul a b)) (zip u v) (of_int 0).

(** Row [i] of a two-dimensional array with [c] columns. *)
Definition row_of (a : ndarray F) (c i : nat) : list F :=
  take c (drop (i * c) (buf a)).

(** The product of a two-dimensional array and a vector. *)
Definition matvec (a : ndarray F) (v : list F) : outcome (list F) :=
  match shape a with
  | [r; c] =>
      if c =? Z.of_nat (length v) then
        Ret ((fun i => dot (row_of a (Z.to_nat c) i) v)
               <$> seq 0 (Z.to_nat r))
      else Raise ValueError
  | _ => Raise ValueError
  end.
End MatVec.

(** ** The axis-angle formula, over the real numbers *)

Local Open Scope R_scope.

Definition mat3_id : mat3 R := ((1, 0, 0), (0, 1, 0), (0, 0, 1)).

Definition mat3_add (a b : mat3 R) : mat3 R :=
  let '((a00, a01, a02), (a10, a11, a12), (a20, a21, a22)) := a in
  let '((b00, b01, b02), (b10, b11, b12), (b20, b21, b22)) := b in
  ((a00 + b00, a01 + b01, a02 + b02),
   (a10 + b10, a11 + b11, a12 + b12),
   (a20 + b20, a21 + b21, a22 + b22)).

Definition mat3_scale (k : R) (a : mat3 R) : mat3 R :=
  let '((a00, a01, a02), (a10, a11, a12), (a20, a21, a22)) := a in
  ((k * a00, k * a01, k * a02),
   (k * a10, k * a11, k * a12),
   (k * a20, k * a21, k * a22)).

Definition mat3_mul (a b : mat3 R) : mat3 R :=
  let '((a00, a01, a02), (a10, a11, a12), (a20, a21, a22)) := a in
  let '((b00, b01, b02), (b10, b11, b12), (b20, b21, b22)) := b in
  ((a00 * b00 + a01 * b10 + a02 * b20,
    a00 * b01 + a01 * b11 + a02 * b21,
    a00 * b02 + a01 * b12 + a02 * b22),
   (a10 * b00 + a11 * b10 + a12 * b20,
    a10 * b01 + a11 * b11 + a12 * b21,
    a10 * b02 + a11 * b12 + a12 * b22),
   (a20 * b00 + a21 * b10 + a22 * b20,
    a20 * b01 + a21 * b11 + a22 * b21,
    a20 * b02 + a21 * b12 + a22 * b22)).

Definition mat3_transpose (a : mat3 R) : mat3 R :=
  let '((a00, a01, a02), (a10, a11, a12), (a20, a21, a22)) := a in
  ((a00, a10, a20), (a01, a11, a21), (a02, a12, a22)).

Definition mat3_det (a : mat3 R) : R :=
  let '((a00, a01, a02), (a10, a11, a12), (a20, a21, a22)) := a in
  a00 * (a11 * a22 - a12 * a21)
  - a01 * (a10 * a22 - a12 * a20)
  + a02 * (a10 * a21 - a11 * a20).

(** The cross-product matrix of a vector. *)
Definition skew (kx ky kz : R) : mat3 R :=
  ((0, - kz, ky), (kz, 0, - kx), (- ky, kx, 0)).

(** Modelled from the spec: the conversion that [rodrigues_to_matrix]
    performs (OpenCV's [Rodrigues]) is not among the sources.  Section 4.3,
    step 3: for the rotation vector of magnitude [theta] and unit axis [k],
    the matrix is [I + sin(theta) K + (1 - cos(theta)) K^2] with [K] the
    cross-product matrix of [k]; when [theta] is about zero, that is at most
    the tolerance [eps], it is [I].  The vector is given by its three
    components, whatever the shape of the array. *)
Definition rodrigues_formula (eps : R) (rvec : ndarray R)
  : outcome (mat3 R) :=
  match buf rvec with
  | [x; y; z] =>
      let theta := sqrt (x * x + y * y + z * z) in
      if Rle_dec theta eps then Ret mat3_id
      else
        let K := skew (x / theta) (y / theta) (z / theta) in
        Ret (mat3_add mat3_id
               (mat3_add (mat3_scale (sin theta) K)
                  (mat3_scale (1 - cos theta) (mat3_mul K K))))
  | _ => Raise (External "cv2.Rodrigues")
  end.

(** Rows 0-2, columns 0-2 of a 4x4 array. *)
Definition rotation_block {F} (a : ndarray F) : option (mat3 F) :=
  match shape a, buf a with
  | [4%Z; 4%Z],
    [ a00; a01; a02; _; a10; a11; a12; _; a20; a21; a22; _; _; _; _; _ ] =>
      Some ((a00, a01, a02), (a10, a11, a12), (a20, a21, a22))
  | _, _ => None
  end.

Local Close Scope R_scope.

(** ** scripts/tricamera_log_viewer.py *)

(** One camera's entry of a frame set: the image and the time stamp in
    seconds. *)
Record CameraObservation : Type := mk_CameraObservation {
  image : ndarray Z;
  timestamp : float
}.

(** A frame set: [cameras] has one entry per camera. *)
Record TriCameraObservation : Type := mk_TriCameraObservation {
  cameras : list CameraObservation
}.

(** [trifinger_cameras.tricamera.LogReader(filename).data] *)
Class LogReader : Type :=
  log_reader_data : string -> outcome (list TriCameraObservation).

(** What the operator gets to see, in the order in which it happens:
    the message printed with the frame count, the interval in milliseconds
    and the frame rate, and the images shown in the windows. *)
Inductive viewer_event : Type :=
| Printed (frames interval : Z) (fps : float)
| Shown (window : string) (img : ndarray Z).

Record viewer_world : Type := mk_viewer_world {
  viewer_keys : list Z;
  viewer_trace : list viewer_event
}.

Definition emit (e : viewer_event) : M viewer_world unit :=
  modify (fun w => mk_viewer_world (viewer_keys w) (viewer_trace w ++ [e])).

(** The first key that is pressed, and the keys to come after it. *)
Fixpoint next_key (ks : list Z) : outcome (Z * list Z) :=
  match ks with
  | [] => Blocked
  | k :: ks' => if k =? -1 then next_key ks' else Ret (k, ks')
  end.

(** The Python ints that fit a C [int]. *)
Definition c_int (z : Z) : bool :=
  (-2147483648 <=? z) && (z <=? 2147483647).

(** [cv2.waitKey(delay)]: OpenCV takes the delay as a C [int], and the call
    fails for a Python int that does not fit.  With a positive delay the
    call returns the key pressed in the meantime, or -1; otherwise it waits
    for a key. *)
Definition cv2_waitKey (delay : Z) : M viewer_world Z := fun w =>
  if negb (c_int delay) then (Raise (External "cv2.waitKey"), w)
  else if 0 <? delay then
    match viewer_keys w with
    | [] => (Ret (-1), w)
    | k :: ks => (Ret k, mk_viewer_world ks (viewer_trace w))
    end
  else
    match next_key (viewer_keys w) with
    | Ret (k, ks) => (Ret k, mk_viewer_world ks (viewer_trace w))
    | Raise e => (Raise e, w)
    | Blocked => (Blocked, mk_viewer_world [] (viewer_trace w))
    end.

(** [x / n] for a float [x] and an int [n]: the int is converted to a
    float first.  The conversion fails for an int beyond the range of
    binary64, which the length of a list is not. *)
Definition float_div_int (x : float) (n : Z) : outcome float :=
  if n =? 0 then Raise ZeroDivisionError
  else Ret (x / float_of_Z n)%float.

(** [int(x)] for a float [x]: truncation towards zero. *)
Definition py_int (x : float) : outcome Z :=
  match Prim2SF x with
  | S754_zero _ => Ret 0
  | S754_finite s m e => Ret (cond_Zopp s (Z.shiftl (Zpos m) e))
  | S754_infinity _ => Raise OverflowError
  | S754_nan => Raise ValueError
  end.

(** An integer as a mantissa with exponent 0. *)
Definition Z2SF (z : Z) : spec_float :=
  match z with
  | Z0 => S754_zero false
  | Zpos p => S754_finite false p 0
  | Zneg p => S754_finite true p 0
  end.

(** [a / b] for two ints: the quotient, rounded once. *)
Definition int_truediv (a b : Z) : outcome float :=
  if b =? 0 then Raise ZeroDivisionError
  else
    match SFdiv prec emax (Z2SF a) (Z2SF b) with
    | S754_infinity _ => Raise OverflowError
    | q => Ret (SF2Prim q)
    end.

Definition window_60 : string := "Image Stream camera60".
Definition window_180 : string := "Image Stream camera180".
Definition window_300 : string := "Image Stream camera300".

(** [cv2.imshow(title, np.array(observation.cameras[i].image, copy=False))] *)
Definition show_camera (title : string) (observation : TriCameraObservation)
    (i : Z) : M viewer_world unit :=
  camera ← lift (py_getitem (cameras observation) i);
  emit (Shown title (image camera)).

(** The loop [for observation in log_reader.data: ...]. *)
Fixpoint play (interval : Z) (data : list TriCameraObservation)
  : M viewer_world unit :=
  match data with
  | [] => mret tt
  | observation :: data' =>
      _ ← show_camera window_180 observation 0;
      _ ← show_camera window_300 observation 1;
      _ ← show_camera window_60 observation 2;
      key ← cv2_waitKey interval;
      if bool_decide (key ∈ [113; 27]) then mret tt
      else play interval data'
  end.

(** The time stamp of the first camera of frame set [i]:
    [log_reader.data[i].cameras[0].timestamp]. *)
Definition reference_timestamp (data : list TriCameraObservation) (i : Z)
  : outcome float :=
  observation ← py_getitem data i;
  camera ← py_getitem (cameras observation) 0;
  Ret (timestamp camera).

(** The average interval in seconds, lines 22 to 24 of [main]. *)
Definition interval_seconds (data : list TriCameraObservation)
  : outcome float :=
  start_time ← reference_timestamp data 0;
  end_time ← reference_timestamp data (-1);
  float_div_int (end_time - start_time)%float (Z.of_nat (length data)).

(** The interval converted to milliseconds, line 26 of [main]. *)
Definition interval_ms (data : list TriCameraObservation) : outcome Z :=
  interval ← interval_seconds data;
  py_int (interval * float_of_Z 1000)%float.

(** [main] of the log viewer. *)
Definition main {reader : LogReader} (filename : string)
  : M viewer_world unit :=
  data ← lift (log_reader_data filename);
  interval ← lift (interval_ms data);
  fps ← lift (int_truediv 1000 interval);
  _ ← emit (Printed (Z.of_nat (length data)) interval fps);
  play interval data.

(** The instance of the conversion over the real numbers. *)
Definition real_Rodrigues (eps : R) : Rodrigues R := rodrigues_formula eps.

(** ** Notions used to state the properties *)

(** The number of coordinates in which two points differ. *)
Definition differing_coordinates (p q : list Z) : nat :=
  length (filter (fun ab : Z * Z => ab.1 <> ab.2) (zip p q)).

(** The two corners that a pair of indices names, when it names two. *)
Definition corners_of (pair : Z * Z) : option (list Z * list Z) :=
  match py_getitem cube_corners pair.1, py_getitem cube_corners pair.2 with
  | Ret p, Ret q => Some (p, q)
  | _, _ => None
  end.

(** A pair of indices is an edge of the unit cube when it names two corners
    that differ in exactly one coordinate. *)
Definition is_cube_edge (pair : Z * Z) : bool :=
  match corners_of pair with
  | Some (p, q) => bool_decide (differing_coordinates p q = 1%nat)
  | None => false
  end.

(** A pair of indices, smaller index first. *)
Definition unordered (pair : Z * Z) : Z * Z :=
  (Z.min pair.1 pair.2, Z.max pair.1 pair.2).

(** The reprojection error is surfaced when the outcome of a successful
    run of the intrinsic calibration, that is what it returns and the world
    it leaves, determines the error that the board handler returned. *)
Definition surfaces_reprojection_error (F : Type) `{Scalar F} : Prop :=
  forall (h1 h2 : CharucoBoardHandler F) (calibration_data out : string)
         (w : world F) (cm dc : ndarray F) (e1 e2 : F),
    @handler_calibrate F h1 calibration_data false = Ret (cm, dc, e1) ->
    @handler_calibrate F h2 calibration_data false = Ret (cm, dc, e2) ->
    (calibrate_intrinsic_parameters (handler := h1) calibration_data out w).1
    = Ret tt ->
    calibrate_intrinsic_parameters (handler := h1) calibration_data out w
    = calibrate_intrinsic_parameters (handler := h2) calibration_data out w ->
    e1 = e2.

(** A number that is neither infinite nor NaN. *)
Definition finite_float (x : float) : bool :=
  match Prim2SF x with
  | S754_zero _ | S754_finite _ _ _ => true
  | _ => false
  end.

(** The first and the last reference time stamp of a log are less than one
    millisecond per frame set apart, as the real numbers that they stand
    for. *)
Definition sub_millisecond (data : list TriCameraObservation) : Prop :=
  exists t0 tN : float,
    reference_timestamp data 0 = Ret t0
    /\ reference_timestamp data (-1) = Ret tN
    /\ finite_float t0 = true /\ finite_float tN = true
    /\ (Rabs (float_to_R tN - float_to_R t0) * 1000 < INR (length data))%R.

(** A 3x3 matrix of numbers: no entry is infinite or NaN. *)
Definition mat3_finite (R : mat3 float) : bool :=
  let '((r00, r01, r02), (r10, r11, r12), (r20, r21, r22)) := R in
  finite_float r00 && finite_float r01 && finite_float r02
  && finite_float r10 && finite_float r11 && finite_float r12
  && finite_float r20 && finite_float r21 && finite_float r22.

(** Two binary64 numbers that are the same number: they are identical, or
    the first is the zero and the second the negative zero, which Python's
    [==] does not tell apart. *)
Definition same_number (x y : float) : Prop :=
  x = y \/ (x = 0%float /\ y = (-0)%float).

(** What the viewer shows for one frame set: the three images, each in its
    window. *)
Definition frame_events (observation : TriCameraObservation)
  : list viewer_event :=
  match cameras observation with
  | [c0; c1; c2] =>
      [ Shown window_180 (image c0); Shown window_300 (image c1);
        Shown window_60 (image c2) ]
  | _ => []
  end.

(** ** The command line of the calibration script *)

(** What [parser.parse_args()] returns: the action, which the parser takes
    from its two choices, and the four options, [None] when not given. *)
Record Namespace : Type := mk_Namespace {
  action : string;
  intrinsic_calibration_filename : option string;
  calibration_data : option string;
  extrinsic_calibration_filename : option string;
  image_view_filename : option string
}.

(** An option passes [if not args.option] when it is given and not the empty
    string. *)
Definition given (value : option string) : option string :=
  match value with
  | Some s => if bool_decide (s = "") then None else Some s
  | None => None
  end.

(** How [main] ends: with a [RuntimeError] of its own, or as the stage that
    it runs. *)
Inductive main_outcome : Type :=
| RuntimeError (message : string)
| Ran (o : outcome unit).

Section Main.
Context {F : Type} {scalar : Scalar F} {handler : CharucoBoardHandler F}
        {rodrigues : Rodrigues F} {project : ProjectPoints F}.

(** [main] of [calibrate_cameras.py], from the parsed arguments on. *)
Definition calibrate_cameras_main (args : Namespace)
  : world F -> main_outcome * world F := fun w =>
  if bool_decide (action args = "intrinsic_calibration") then
    match given (intrinsic_calibration_filename args),
          given (calibration_data args) with
    | None, _ =>
        (RuntimeError "intrinsic_calibration_filename not specified.", w)
    | Some _, None => (RuntimeError "calibration_data not specified.", w)
    | Some results_file, Some data =>
        let '(o, w') := calibrate_intrinsic_parameters data results_file w in
        (Ran o, w')
    end
  else if bool_decide (action args = "extrinsic_calibration") then
    match given (intrinsic_calibration_filename args),
          given (extrinsic_calibration_filename args),
          given (image_view_filename args) with
    | None, _, _ =>
        (RuntimeError "intrinsic_calibration_filename not specified.", w)
    | Some _, None, _ =>
        (RuntimeError "extrinsic_calibration_filename not specified.", w)
    | Some _, Some _, None =>
        (RuntimeError "image_view_filename not specified.", w)
    | Some results_file, Some extrinsic_file, Some image =>
        let '(o, w') :=
          calibrate_extrinsic_parameters results_file image extrinsic_file
            true w in
        (Ran o, w')
    end
  else (Ran (Ret tt), w).
End Main.

(** ** Further notions *)

(** The record that the intrinsic stage writes. *)
Definition intrinsic_record {F : Type} `{Scalar F} (cm dc : ndarray F) : gmap string (yaml F) :=
  <["distortion_coefficients" := matrix_block 1 5 dc]>
    (<["camera_matrix" := matrix_block 3 3 cm]> ∅).

(** A computation that leaves every file but [out] as it is, and changes
    neither what can be written or read nor what has been printed. *)
Definition touches_only {F A : Type} (out : string) (m : M (world F) A) : Prop :=
  forall w : world F,
    locked (m w).2 = locked w /\ pictures (m w).2 = pictures w
    /\ printed (m w).2 = printed w
    /\ forall p : string, p <> out -> files (m w).2 !! p = files w !! p.

(** ** Concrete inputs *)

Definition example_matrix : ndarray float :=
  mk_ndarray [2; 3] [1; 2; 3; 4; 5; 6]%float.

Definition example_camera_matrix : ndarray float :=
  mk_ndarray [3; 3] [600; 0; 320; 0; 600; 240; 0; 0; 1]%float.

Definition example_dist_coeffs : ndarray float :=
  mk_ndarray [1; 5] [0.5; 0.25; 0; 0; 0.125]%float.

Definition example_rvec : ndarray float := mk_ndarray [3; 1] [0; 0; 0]%float.
Definition example_tvec : ndarray float := mk_ndarray [3; 1] [1; 2; 3]%float.

Definition float_identity : mat3 float :=
  ((1, 0, 0), (0, 1, 0), (0, 0, 1))%float.

(** A board handler that succeeds, with the given reprojection error. *)
Definition example_handler (error : float) : CharucoBoardHandler float := {|
  handler_calibrate := fun _ _ =>
    Ret (example_camera_matrix, example_dist_coeffs, error);
  handler_detect := fun _ _ _ _ => Ret (example_rvec, example_tvec)
|}.

(** A board handler that finds no usable view. *)
Definition blind_handler : CharucoBoardHandler float := {|
  handler_calibrate := fun _ _ => Raise (External "InsufficientViews");
  handler_detect := fun _ _ _ _ => Raise (External "BoardNotDetected")
|}.

Definition example_Rodrigues : Rodrigues float :=
  fun _ => Ret float_identity.

Definition example_ProjectPoints : ProjectPoints float :=
  fun _ _ _ _ _ => Ret (replicate 8 (320, 240)%float).

Definition example_record : gmap string (yaml float) :=
  <["distortion_coefficients" := matrix_block 1 5 example_dist_coeffs]>
    (<["camera_matrix" := matrix_block 3 3 example_camera_matrix]> ∅).

Definition example_world : world float :=
  mk_world (<["intrinsic.yml" := YDict example_record]> ∅) ∅
    {["board.png"]} [-1; 32] [] [].

(** A block of shape 3x3 with 8 numbers. *)
Definition short_block : gmap string (yaml float) :=
  <["data" := YList (YFloat <$> [1; 2; 3; 4; 5; 6; 7; 8]%float)]>
    (<["cols" := YInt 3]> (<["rows" := YInt 3]> ∅)).

Definition real_rvec : ndarray R := mk_ndarray [3; 1] [0; 0; 0]%R.
Definition real_tvec : ndarray R := mk_ndarray [3; 1] [1; 2; 3]%R.
Definition real_identity_Rodrigues : Rodrigues R := fun _ => Ret mat3_id.

Definition example_camera (t : float) : CameraObservation :=
  mk_CameraObservation (mk_ndarray [0; 0] []) t.

Definition example_frame (t : float) : TriCameraObservation :=
  mk_TriCameraObservation
    [example_camera t; example_camera t; example_camera t].

(** Logs: three frame sets over one second; a single frame set; nine
    frame sets whose last time stamp is the binary64 number next to
    0.009. *)
Definition example_log : LogReader :=
  fun _ => Ret [example_frame 0; example_frame 0.5; example_frame 1]%float.

Definition single_frame_log : LogReader :=
  fun _ => Ret [example_frame 5]%float.

Definition nine_frame_log : LogReader :=
  fun _ => Ret (replicate 8 (example_frame 0)
                ++ [example_frame 0x1.26e978d4fdf3bp-7])%float.

Definition empty_log : LogReader := fun _ => Ret [].

Definition fresh_viewer : viewer_world := mk_viewer_world [] [].

(** A block that leaves the number of rows to numpy. *)
Definition inferred_block : gmap string (yaml float) :=
  <["data" := YList (YFloat <$> [1; 2; 3; 4; 5; 6; 7; 8]%float)]>
    (<["cols" := YInt 4]> (<["rows" := YInt (-1)]> ∅)).

(** The example world with a write-protected output, and with no image
    that can be read. *)
Definition locked_world : world float :=
  mk_world (files example_world) {["extrinsic.yml"]} (pictures example_world)
    (keys example_world) [] [].

Definition dark_world : world float :=
  mk_world (files example_world) ∅ ∅ (keys example_world) [] [].

(** A board handler whose distortion model has 8 coefficients. *)
Definition wide_handler : CharucoBoardHandler float := {|
  handler_calibrate := fun _ _ =>
    Ret (example_camera_matrix,
         mk_ndarray [1; 8] [0.5; 0.25; 0; 0; 0.125; 0; 0; 0]%float,
         0.5%float);
  handler_detect := fun _ _ _ _ => Ret (example_rvec, example_tvec)
|}.

Definition example_point : float * float := (320, 240)%float.

(** A log of two frame sets that are 10^10 seconds apart. *)
Definition far_apart_log : LogReader :=
  fun _ => Ret [example_frame 0; example_frame 10000000000]%float.

(** A translation whose first component is the negative zero. *)
Definition signed_zero_tvec : ndarray float :=
  mk_ndarray [3; 1] [-0; 2; 3]%float.

(** Logs whose time stamps run backwards, and start with a NaN. *)
Definition reversed_log : LogReader :=
  fun _ => Ret [example_frame 1; example_frame 0.5; example_frame 0]%float.

Definition nan_log : LogReader :=
  fun _ => Ret [example_frame nan; example_frame 1]%float.

(** * Properties *)

(** ** The matrix codec *)

Section Codec.
Context {F : Type} `{Scalar F}.

Lemma as_scalars_floats (xs : list F) : as_scalars (YFloat <$> xs) = Ret xs.
Proof.
  induction xs as [|x xs IH]; [reflexivity|].
  cbn. rewrite IH. reflexivity.
Qed.

Lemma np_array_floats (xs : list F) :
  np_array (YList (YFloat <$> xs))
  = Ret (mk_ndarray [Z.of_nat (length xs)] xs).
Proof.
  unfold np_array. rewrite as_scalars_floats, length_fmap. reflexivity.
Qed.

(** Decoding a dict that has the three entries of a block. *)
Lemma config_matrix_entries (d : gmap string (yaml F)) (rows cols : Z)
    (xs : list F) :
  d !! "rows" = Some (YInt rows) ->
  d !! "cols" = Some (YInt cols) ->
  d !! "data" = Some (YList (YFloat <$> xs)) ->
  config_matrix (YDict d)
  = reshape (mk_ndarray [Z.of_nat (length xs)] xs) rows cols.
Proof.
  intros Hr Hc Hd. unfold config_matrix, dict_getitem.
  rewrite Hd. cbn. rewrite as_scalars_floats, length_fmap. cbn.
  rewrite Hr, Hc. reflexivity.
Qed.

Lemma config_matrix_matrix_block (rows cols : Z) (m : ndarray F) :
  config_matrix (matrix_block rows cols m)
  = reshape (mk_ndarray [Z.of_nat (length (buf m))] (buf m)) rows cols.
Proof.
  unfold matrix_block, tolist, flatten. cbn [buf].
  apply config_matrix_entries; reflexivity.
Qed.

Lemma reshape_fits (a : ndarray F) (r c : Z) :
  0 <= r -> 0 <= c -> r * c = Z.of_nat (length (buf a)) ->
  reshape a r c = Ret (mk_ndarray [r; c] (buf a)).
Proof.
  intros Hr Hc Hn. unfold reshape.
  destruct (Z.leb_spec 0 r); [|lia]. destruct (Z.leb_spec 0 c); [|lia].
  cbn. rewrite (proj2 (Z.eqb_eq _ _) Hn). reflexivity.
Qed.

Lemma reshape_misfit (a : ndarray F) (r c : Z) :
  0 <= r -> 0 <= c -> r * c <> Z.of_nat (length (buf a)) ->
  reshape a r c = Raise ValueError.
Proof.
  intros Hr Hc Hn. unfold reshape.
  destruct (Z.leb_spec 0 r); [|lia]. destruct (Z.leb_spec 0 c); [|lia].
  cbn. rewrite (proj2 (Z.eqb_neq _ _) Hn). reflexivity.
Qed.

Lemma wf_shape2 (m : ndarray F) (r c : Z) :
  wf_ndarray m -> shape m = [r; c] ->
  0 <= r /\ 0 <= c /\ r * c = Z.of_nat (length (buf m)).
Proof.
  intros [Hpos Hsize] Hs. rewrite Hs in Hpos, Hsize.
  inversion Hpos as [|? ? Hr Hpos']; subst.
  inversion Hpos' as [|? ? Hc _]; subst.
  cbn in Hsize. lia.
Qed.

Lemma config_matrix_decodes (m : ndarray F) (r c : Z) :
  wf_ndarray m -> shape m = [r; c] ->
  config_matrix (matrix_block r c m) = Ret m.
Proof.
  intros Hwf Hs. destruct (wf_shape2 m r c Hwf Hs) as (Hr & Hc & Hn).
  rewrite config_matrix_matrix_block, reshape_fits by (cbn; assumption).
  destruct m as [sh b]. cbn in *. subst sh. reflexivity.
Qed.
End Codec.

(** ** What the calibration functions build *)

Section Blocks.
Context {F : Type} `{Scalar F}.

Lemma dict_setitem_in_inserted (d : gmap string (yaml F))
    (inner : gmap string (yaml F)) (k1 k2 : string) (v : yaml F) :
  d !! k1 = Some (YDict inner) ->
  dict_setitem_in (YDict d) k1 k2 v
  = Ret (YDict (<[k1 := YDict (<[k2 := v]> inner)]> d)).
Proof.
  intros Hk. unfold dict_setitem_in. cbn. rewrite Hk. reflexivity.
Qed.

(** A block is built by three assignments into a fresh dict; the dict it
    is stored in sees them. *)
Lemma build_block (d : gmap string (yaml F)) (k : string) (rows cols : Z)
    (m : ndarray F) :
  (d0 ← dict_setitem (YDict d) k (YDict ∅);
   d1 ← dict_setitem_in d0 k "rows" (YInt rows);
   d2 ← dict_setitem_in d1 k "cols" (YInt cols);
   dict_setitem_in d2 k "data" (tolist (flatten m)))
  = Ret (YDict (<[k := matrix_block rows cols m]> d)).
Proof.
  cbn [dict_setitem mbind outcome_bind].
  rewrite (dict_setitem_in_inserted _ ∅) by apply lookup_insert_eq.
  cbn [mbind outcome_bind].
  rewrite (dict_setitem_in_inserted _ (<["rows" := YInt rows]> ∅))
    by apply lookup_insert_eq.
  cbn [mbind outcome_bind].
  rewrite (dict_setitem_in_inserted _
             (<["cols" := YInt cols]> (<["rows" := YInt rows]> ∅)))
    by apply lookup_insert_eq.
  rewrite !insert_insert_eq. reflexivity.
Qed.

Lemma attach_projection_matrix_eq (d : gmap string (yaml F))
    (P : ndarray F) :
  attach_projection_matrix (YDict d) P
  = Ret (YDict (<["projection_matrix" := matrix_block 4 4 P]> d)).
Proof. apply build_block. Qed.

Lemma intrinsic_camera_info_eq (camera_matrix dist_coeffs : ndarray F) :
  intrinsic_camera_info camera_matrix dist_coeffs
  = Ret (YDict (<["distortion_coefficients" := matrix_block 1 5 dist_coeffs]>
                  (<["camera_matrix" := matrix_block 3 3 camera_matrix]> ∅))).
Proof.
  unfold intrinsic_camera_info.
  pose proof (build_block ∅ "camera_matrix" 3 3 camera_matrix) as H1.
  cbn [dict_setitem mbind outcome_bind] in H1 |- *.
  destruct (dict_setitem_in _ "camera_matrix" "rows" _) as [d1| |];
    cbn [mbind outcome_bind] in H1 |- *; try discriminate.
  destruct (dict_setitem_in d1 "camera_matrix" "cols" _) as [d2| |];
    cbn [mbind outcome_bind] in H1 |- *; try discriminate.
  rewrite H1. cbn [mbind outcome_bind].
  apply (build_block _ "distortion_coefficients" 1 5 dist_coeffs).
Qed.
End Blocks.

(** ** The projection matrix *)

Section Projection.
Context {F : Type} {scalar : Scalar F} {rodrigues : Rodrigues F}.

(** A well-formed 3x1 array has three elements. *)
Lemma column3_elements (tvec : ndarray F) :
  wf_ndarray tvec -> shape tvec = [3; 1] ->
  exists t0 t1 t2, buf tvec = [t0; t1; t2].
Proof.
  intros Hwf Hs. destruct (wf_shape2 tvec 3 1 Hwf Hs) as (_ & _ & Hn).
  destruct (buf tvec) as [|t0 [|t1 [|t2 [|t3 l]]]]; cbn in Hn; try lia.
  eauto.
Qed.

(** The assembled matrix, entry by entry. *)
Lemma assemble_projection_matrix_eq (rvec tvec : ndarray F)
    (r00 r01 r02 r10 r11 r12 r20 r21 r22 t0 t1 t2 : F) :
  cv2_Rodrigues rvec = Ret ((r00, r01, r02), (r10, r11, r12), (r20, r21, r22)) ->
  shape tvec = [3; 1] -> buf tvec = [t0; t1; t2] ->
  assemble_projection_matrix rvec tvec
  = Ret (mk_ndarray [4; 4]
           [ r00; r01; r02; t0;
             r10; r11; r12; t1;
             r20; r21; r22; t2;
             of_int 0; of_int 0; of_int 0; of_int 1 ]).
Proof.
  intros HR Hs Hb.
  unfold assemble_projection_matrix, rodrigues_to_matrix.
  rewrite HR. cbn [mbind outcome_bind].
  unfold getitem_col. rewrite Hs, Hb. reflexivity.
Qed.
End Projection.

Lemma normalize_index_in_range (n i : Z) :
  0 <= i < n -> normalize_index n i = Ret i.
Proof.
  intros Hi. unfold normalize_index.
  destruct (Z.ltb_spec i 0); [lia|].
  destruct (Z.leb_spec 0 i); [|lia]. destruct (Z.ltb_spec i n); [|lia].
  reflexivity.
Qed.

(** The element at row [i], column [j] is element [i * cols + j] of the
    buffer. *)
Lemma getitem2_row_major {F} (rows cols : Z) (xs : list F) (i j : Z) :
  Z.of_nat (length xs) = rows * cols ->
  0 <= i < rows -> 0 <= j < cols ->
  exists x, xs !! Z.to_nat (i * cols + j) = Some x /\
            getitem2 (mk_ndarray [rows; cols] xs) i j = Ret x.
Proof.
  intros Hn Hi Hj.
  assert (Hlt : (Z.to_nat (i * cols + j) < length xs)%nat) by nia.
  destruct (lookup_lt_is_Some_2 xs _ Hlt) as [x Hx].
  exists x. split; [assumption|].
  unfold getitem2. cbn [shape buf].
  rewrite !normalize_index_in_range by assumption.
  cbn [mbind outcome_bind]. rewrite Hx. reflexivity.
Qed.

(** C1.  Matrix codec round trip: for every matrix [m] of shape [(r, c)],
    whatever its values, [config_matrix] applied to the block
    [{rows: r, cols: c, data: m.flatten().tolist()}] returns [m], element
    for element.  In particular this holds for the three blocks that
    [calibrate_intrinsic_parameters] and [calibrate_extrinsic_parameters]
    build, when the matrix has the shape that is written into the block. *)
Theorem config_matrix_roundtrip {F : Type} `{Scalar F} (m : ndarray F)
    (r c : Z) :
  wf_ndarray m -> shape m = [r; c] ->
  config_matrix (matrix_block r c m) = Ret m
  /\ (forall dist_coeffs : ndarray F, r = 3 -> c = 3 ->
        (info ← intrinsic_camera_info m dist_coeffs;
         block ← dict_getitem info "camera_matrix";
         config_matrix block) = Ret m)
  /\ (forall camera_matrix : ndarray F, r = 1 -> c = 5 ->
        (info ← intrinsic_camera_info camera_matrix m;
         block ← dict_getitem info "distortion_coefficients";
         config_matrix block) = Ret m)
  /\ (forall d : gmap string (yaml F), r = 4 -> c = 4 ->
        (record ← attach_projection_matrix (YDict d) m;
         block ← dict_getitem record "projection_matrix";
         config_matrix block) = Ret m).
Proof.
  intros Hwf Hs. pose proof (config_matrix_decodes m r c Hwf Hs) as Hdec.
  split; [exact Hdec|]. repeat split; intros ? -> ->.
  - rewrite intrinsic_camera_info_eq. exact Hdec.
  - rewrite intrinsic_camera_info_eq. exact Hdec.
  - rewrite attach_projection_matrix_eq. cbn [mbind outcome_bind dict_getitem].
    rewrite lookup_insert_eq. exact Hdec.
Qed.

(** C4.  Decode shape check: a block whose data length differs from
    [rows * cols] is rejected by [config_matrix] with the error that numpy
    raises for a shape mismatch, [ValueError]; a block whose data length is
    [rows * cols] decodes to the [rows] by [cols] matrix that holds the
    data in row-major order.  The dimensions of a block are not negative. *)
Theorem config_matrix_shape_check {F : Type} `{Scalar F}
    (d : gmap string (yaml F)) (rows cols : Z) (xs : list F) :
  0 <= rows -> 0 <= cols ->
  d !! "rows" = Some (YInt rows) ->
  d !! "cols" = Some (YInt cols) ->
  d !! "data" = Some (YList (YFloat <$> xs)) ->
  (Z.of_nat (length xs) <> rows * cols ->
     config_matrix (YDict d) = Raise ValueError)
  /\ (Z.of_nat (length xs) = rows * cols ->
        config_matrix (YDict d) = Ret (mk_ndarray [rows; cols] xs)
        /\ forall i j : Z, 0 <= i < rows -> 0 <= j < cols ->
             exists x, xs !! Z.to_nat (i * cols + j) = Some x /\
                       getitem2 (mk_ndarray [rows; cols] xs) i j = Ret x).
Proof.
  intros Hr Hc Hrows Hcols Hdata.
  rewrite (config_matrix_entries d rows cols xs Hrows Hcols Hdata).
  split; intros Hn.
  - apply reshape_misfit; cbn; [assumption..|congruence].
  - split.
    + apply reshape_fits; cbn; [assumption..|congruence].
    + intros i j. apply getitem2_row_major. assumption.
Qed.

(** ** The two calibration stages *)

Section Stages.
Context {F : Type} {scalar : Scalar F} {handler : CharucoBoardHandler F}
        {rodrigues : Rodrigues F} {project : ProjectPoints F}.

Lemma bind_lift_ret {S A B} (a : A) (k : A -> M S B) (s : S) :
  (x ← lift (Ret a); k x) s = k a s.
Proof. reflexivity. Qed.

Lemma bind_lift_raise {S A B} (e : exn) (k : A -> M S B) (s : S) :
  (x ← lift (Raise e); k x) s = (Raise e, s).
Proof. reflexivity. Qed.

Lemma yaml_dump_file_writes (v : yaml F) (path : string) (w : world F) :
  path ∉ locked w ->
  yaml_dump_file v path w
  = (Ret tt, set_files (<[path := v]> (files w)) w).
Proof.
  intros Hfree. unfold yaml_dump_file, open_w, mbind, M_bind, bind, modify.
  destruct (decide (path ∈ locked w)) as [Hin|_]; [contradiction|].
  unfold set_files. cbn. rewrite insert_insert_eq. reflexivity.
Qed.

Lemma yaml_dump_file_locked (v : yaml F) (path : string) (w : world F) :
  path ∈ locked w ->
  yaml_dump_file v path w = (Raise (OSError path), w).
Proof.
  intros Hin. unfold yaml_dump_file, open_w, mbind, M_bind, bind.
  destruct (decide (path ∈ locked w)) as [_|Hout]; [reflexivity|contradiction].
Qed.

(** The overlay reads the image and the keyboard and shows a window: it
    leaves the files alone, however it ends. *)
Lemma impose_cube_on_image_files (image_filename : string)
    (rvec tvec camera_matrix dist_coeffs : ndarray F) (w : world F) :
  files (impose_cube_on_image image_filename rvec tvec camera_matrix
           dist_coeffs w).2 = files w.
Proof.
  unfold impose_cube_on_image, mbind, M_bind, bind, cv2_imread, gets, lift.
  destruct (cv2_projectPoints _ _ _ _ _) as [pts| |]; try reflexivity.
  destruct (draw_pairs _ pts point_pairs) as [img| |]; try reflexivity.
  unfold cv2_imshow. destruct img as [pic|]; [|reflexivity].
  unfold modify, wait_for_key. cbn.
  destruct (until_key (keys w)); reflexivity.
Qed.

(** The stage up to the point where the record has been written. *)
Lemma calibrate_extrinsic_parameters_run (w : world F)
    (intrinsic_path image_path output_path : string) (impose_cube : bool)
    (d : gmap string (yaml F)) (bcm bdc : yaml F)
    (cm dc rvec tvec P : ndarray F) :
  files w !! intrinsic_path = Some (YDict d) ->
  d !! "camera_matrix" = Some bcm -> config_matrix bcm = Ret cm ->
  d !! "distortion_coefficients" = Some bdc -> config_matrix bdc = Ret dc ->
  handler_detect cm dc image_path false = Ret (rvec, tvec) ->
  assemble_projection_matrix rvec tvec = Ret P ->
  output_path ∉ locked w ->
  calibrate_extrinsic_parameters intrinsic_path image_path output_path
    impose_cube w
  = let w' := set_files
                (<[output_path :=
                     YDict (<["projection_matrix" := matrix_block 4 4 P]> d)]>
                   (files w)) w in
    if impose_cube
    then impose_cube_on_image image_path rvec tvec cm dc w'
    else (Ret tt, w').
Proof.
  intros Hfile Hbcm Hcm Hbdc Hdc Hdet HP Hfree.
  unfold calibrate_extrinsic_parameters.
  unfold mbind at 1, M_bind at 1, bind at 1, yaml_safe_load_file at 1.
  rewrite Hfile.
  unfold dict_getitem. rewrite Hbcm, bind_lift_ret, Hcm, bind_lift_ret.
  rewrite Hbdc, bind_lift_ret, Hdc, bind_lift_ret.
  rewrite Hdet, bind_lift_ret, HP, bind_lift_ret.
  rewrite attach_projection_matrix_eq, bind_lift_ret.
  unfold mbind at 1, M_bind at 1, bind at 1.
  rewrite yaml_dump_file_writes by assumption.
  destruct impose_cube; reflexivity.
Qed.

(** C3.  Frame property of the extrinsic stage: when the file at the
    intrinsic path holds a record whose [camera_matrix] and
    [distortion_coefficients] blocks decode, the board is detected and the
    output can be written, the record that [calibrate_extrinsic_parameters]
    leaves at the output path has those two blocks unchanged, has a
    [projection_matrix] block, the 4x4 block of the assembled matrix, and
    agrees with the loaded record on every other field; no other file is
    changed.  This holds with and without the overlay. *)
Theorem extrinsic_stage_frame (w : world F)
    (intrinsic_path image_path output_path : string) (impose_cube : bool)
    (d : gmap string (yaml F)) (bcm bdc : yaml F)
    (cm dc rvec tvec : ndarray F) (R : mat3 F) :
  files w !! intrinsic_path = Some (YDict d) ->
  d !! "camera_matrix" = Some bcm -> config_matrix bcm = Ret cm ->
  d !! "distortion_coefficients" = Some bdc -> config_matrix bdc = Ret dc ->
  handler_detect cm dc image_path false = Ret (rvec, tvec) ->
  cv2_Rodrigues rvec = Ret R ->
  wf_ndarray tvec -> shape tvec = [3; 1] ->
  output_path ∉ locked w ->
  let w' := (calibrate_extrinsic_parameters intrinsic_path image_path
               output_path impose_cube w).2 in
  exists (P : ndarray F) (d' : gmap string (yaml F)),
    assemble_projection_matrix rvec tvec = Ret P
    /\ files w' !! output_path = Some (YDict d')
    /\ d' !! "camera_matrix" = Some bcm
    /\ d' !! "distortion_coefficients" = Some bdc
    /\ d' !! "projection_matrix" = Some (matrix_block 4 4 P)
    /\ (forall k : string, k <> "projection_matrix" -> d' !! k = d !! k)
    /\ (forall p : string, p <> output_path -> files w' !! p = files w !! p).
Proof.
  intros Hfile Hbcm Hcm Hbdc Hdc Hdet HR Hwf Hs Hfree w'.
  destruct (column3_elements tvec Hwf Hs) as (t0 & t1 & t2 & Hb).
  destruct R as [[[[r00 r01] r02] [[r10 r11] r12]] [[r20 r21] r22]].
  pose proof (assemble_projection_matrix_eq rvec tvec _ _ _ _ _ _ _ _ _
                t0 t1 t2 HR Hs Hb) as HP.
  set (P := mk_ndarray [4; 4] _) in HP.
  exists P, (<["projection_matrix" := matrix_block 4 4 P]> d).
  split; [exact HP|].
  assert (Hw' : files w'
                = <[output_path :=
                      YDict (<["projection_matrix" := matrix_block 4 4 P]> d)]>
                    (files w)).
  { subst w'.
    rewrite (calibrate_extrinsic_parameters_run w _ _ _ impose_cube d bcm bdc
               cm dc rvec tvec P Hfile Hbcm Hcm Hbdc Hdc Hdet HP Hfree).
    cbv zeta. destruct impose_cube; [|reflexivity].
    rewrite impose_cube_on_image_files. reflexivity. }
  rewrite Hw'. repeat split.
  - apply lookup_insert_eq.
  - rewrite lookup_insert_ne by discriminate. assumption.
  - rewrite lookup_insert_ne by discriminate. assumption.
  - apply lookup_insert_eq.
  - intros k Hk. apply lookup_insert_ne. congruence.
  - intros p Hp. apply lookup_insert_ne. congruence.
Qed.

Lemma calibrate_intrinsic_parameters_run (calibration_data out : string)
    (w : world F) (cm dc : ndarray F) (error : F) :
  handler_calibrate calibration_data false = Ret (cm, dc, error) ->
  calibrate_intrinsic_parameters calibration_data out w
  = yaml_dump_file
      (YDict (<["distortion_coefficients" := matrix_block 1 5 dc]>
                (<["camera_matrix" := matrix_block 3 3 cm]> ∅))) out w.
Proof.
  intros Hcal. unfold calibrate_intrinsic_parameters.
  rewrite Hcal, bind_lift_ret. cbv beta iota.
  rewrite intrinsic_camera_info_eq, bind_lift_ret. reflexivity.
Qed.

(** C5, as amended.  The reprojection error is discarded: a successful
    run of [calibrate_intrinsic_parameters] returns nothing and changes
    nothing but the output file, which gets the [camera_matrix] and
    [distortion_coefficients] blocks and nothing else; the error that the
    board handler returned appears nowhere in the result. *)
Theorem reprojection_error_discarded (calibration_data out : string)
    (w : world F) (cm dc : ndarray F) (error : F) :
  handler_calibrate calibration_data false = Ret (cm, dc, error) ->
  out ∉ locked w ->
  calibrate_intrinsic_parameters calibration_data out w
  = (Ret tt,
     set_files
       (<[out := YDict (<["distortion_coefficients" := matrix_block 1 5 dc]>
                          (<["camera_matrix" := matrix_block 3 3 cm]> ∅))]>
          (files w)) w).
Proof.
  intros Hcal Hfree.
  rewrite (calibrate_intrinsic_parameters_run _ _ _ cm dc error Hcal).
  apply yaml_dump_file_writes. assumption.
Qed.

(** C6.  Insufficient views: when the board handler fails on the image
    directory, as it does when no image gives a usable detection,
    [calibrate_intrinsic_parameters] fails with the handler's error and the
    world is as before: no calibration file is written. *)
Theorem insufficient_views_no_file (calibration_data out : string)
    (w : world F) (e : exn) :
  handler_calibrate calibration_data false = Raise e ->
  calibrate_intrinsic_parameters calibration_data out w = (Raise e, w).
Proof.
  intros Hcal. unfold calibrate_intrinsic_parameters.
  rewrite Hcal. apply bind_lift_raise.
Qed.
End Stages.

(** ** The rotation matrix of an axis-angle vector *)

Section Rotation.
Local Open Scope R_scope.

(** The formula gives a rotation for every unit axis and every angle. *)
Lemma rotation_of_unit_axis (kx ky kz s c : R) :
  kx * kx + ky * ky + kz * kz = 1 -> s * s + c * c = 1 ->
  let K := skew kx ky kz in
  let Rm := mat3_add mat3_id
              (mat3_add (mat3_scale s K) (mat3_scale (1 - c) (mat3_mul K K))) in
  mat3_mul (mat3_transpose Rm) Rm = mat3_id /\ mat3_det Rm = 1.
Proof.
  intros Hk Hsc K Rm. subst K Rm.
  unfold skew, mat3_mul, mat3_scale, mat3_add, mat3_id, mat3_transpose,
    mat3_det.
  split.
  - repeat apply f_equal2; nsatz.
  - nsatz.
Qed.

Lemma mat3_id_rotation :
  mat3_mul (mat3_transpose mat3_id) mat3_id = mat3_id /\ mat3_det mat3_id = 1.
Proof.
  unfold mat3_mul, mat3_transpose, mat3_det, mat3_id.
  split; [repeat apply f_equal2|]; ring.
Qed.

Lemma unit_axis (x y z : R) :
  let theta := sqrt (x * x + y * y + z * z) in
  theta <> 0 ->
  x / theta * (x / theta) + y / theta * (y / theta) + z / theta * (z / theta)
  = 1.
Proof.
  intros theta Hne.
  assert (Hsq : theta * theta = x * x + y * y + z * z).
  { apply sqrt_sqrt. nra. }
  transitivity ((x * x + y * y + z * z) / (theta * theta));
    [field; assumption|].
  rewrite <- Hsq. field. assumption.
Qed.
End Rotation.

(** C7.  Rotation validity of the axis-angle conversion, for the formula of
    the specification over the real numbers: for every rotation vector of
    three components, the rotation block [Rm] of
    [rodrigues_to_matrix rvec] is orthonormal, [Rm^T Rm = I], and has
    determinant 1; a rotation vector of magnitude 0, [0, 0, 0] in
    particular, gives the identity.  [eps] is the tolerance under which an
    angle counts as zero. *)
Theorem rodrigues_rotation_valid (eps : R) (rvec : ndarray R) (x y z : R) :
  (0 <= eps)%R -> buf rvec = [x; y; z] ->
  exists (P : ndarray R) (Rm : mat3 R),
    rodrigues_to_matrix (rodrigues := real_Rodrigues eps) rvec = Ret P
    /\ rotation_block P = Some Rm
    /\ mat3_mul (mat3_transpose Rm) Rm = mat3_id
    /\ mat3_det Rm = 1%R
    /\ (sqrt (x * x + y * y + z * z) = 0%R -> Rm = mat3_id)
    /\ (x = 0%R -> y = 0%R -> z = 0%R -> Rm = mat3_id).
Proof.
  intros Heps Hb.
  assert (Hrot : exists Rm : mat3 R,
             rodrigues_formula eps rvec = Ret Rm
             /\ mat3_mul (mat3_transpose Rm) Rm = mat3_id
             /\ mat3_det Rm = 1%R
             /\ (sqrt (x * x + y * y + z * z) = 0%R -> Rm = mat3_id)).
  { unfold rodrigues_formula. rewrite Hb.
    destruct (Rle_dec (sqrt (x * x + y * y + z * z)) eps) as [Hle|Hgt].
    - exists mat3_id. split; [reflexivity|].
      destruct mat3_id_rotation as [Ho Hd]. auto.
    - assert (Hne : sqrt (x * x + y * y + z * z) <> 0%R) by lra.
      eexists. split; [reflexivity|].
      pose proof (rotation_of_unit_axis _ _ _
                    (sin (sqrt (x * x + y * y + z * z)))
                    (cos (sqrt (x * x + y * y + z * z)))
                    (unit_axis x y z Hne)) as Hrot.
      cbv zeta in Hrot.
      destruct Hrot as [Ho Hd].
      { pose proof (sin2_cos2 (sqrt (x * x + y * y + z * z))) as Hsc.
        unfold Rsqr in Hsc. exact Hsc. }
      split; [exact Ho|]. split; [exact Hd|]. intros H0. contradiction. }
  destruct Hrot as (Rm & HRm & Ho & Hd & Hz).
  destruct Rm as [[[[r00 r01] r02] [[r10 r11] r12]] [[r20 r21] r22]].
  eexists _, _. split.
  { unfold rodrigues_to_matrix, cv2_Rodrigues, real_Rodrigues.
    rewrite HRm. reflexivity. }
  split; [reflexivity|]. split; [exact Ho|]. split; [exact Hd|].
  split; [exact Hz|].
  intros -> -> ->. apply Hz.
  replace (0 * 0 + 0 * 0 + 0 * 0)%R with 0%R by ring. apply sqrt_0.
Qed.

(** ** The reference shape *)

(** C9.  Reference shape: the overlay uses 8 points of three coordinates,
    the corners of the unit cube, each exactly once, scaled by the size of
    one board square, 0.04 in single precision; and 12 pairs of indices,
    each naming two corners that differ in exactly one coordinate, no edge
    twice, so that every edge of the cube is among them.  Both are closed
    constants: they are the same in every run. *)
Theorem reference_shape :
  length cube_corners = 8%nat
  /\ Forall (fun p : list Z =>
               length p = 3%nat /\ Forall (fun z => z = 0 \/ z = 1) p)
       cube_corners
  /\ NoDup cube_corners
  /\ @new_object_points float _
     = mk_ndarray [8; 3]
         ((fun z : Z => if z =? 0 then 0%float else to_float32 square_size)
            <$> concat cube_corners)
  /\ to_float32 square_size = 0x1.47ae14p-5%float
  /\ length point_pairs = 12%nat
  /\ Forall (fun pair : Z * Z => is_cube_edge pair = true) point_pairs
  /\ NoDup (unordered <$> point_pairs)
  /\ (forall i j : Z, 0 <= i < 8 -> 0 <= j < 8 ->
        is_cube_edge (i, j) = true ->
        unordered (i, j) ∈ unordered <$> point_pairs).
Proof.
  split; [reflexivity|].
  split; [apply (bool_decide_unpack _); vm_compute; reflexivity|].
  split; [apply (bool_decide_unpack _); vm_compute; reflexivity|].
  split; [vm_compute; reflexivity|].
  split; [vm_compute; reflexivity|].
  split; [reflexivity|].
  split; [repeat constructor|].
  split; [apply (bool_decide_unpack _); vm_compute; reflexivity|].
  intros i j Hi Hj.
  assert (Ei : i = 0 \/ i = 1 \/ i = 2 \/ i = 3 \/ i = 4 \/ i = 5 \/ i = 6
               \/ i = 7) by lia.
  assert (Ej : j = 0 \/ j = 1 \/ j = 2 \/ j = 3 \/ j = 4 \/ j = 5 \/ j = 6
               \/ j = 7) by lia.
  clear Hi Hj.
  repeat (destruct Ei as [->|Ei]); try subst i;
    repeat (destruct Ej as [->|Ej]); try subst j;
    intros Hedge; vm_compute in Hedge; try discriminate Hedge;
    apply (bool_decide_unpack _); vm_compute; reflexivity.
Qed.

(** ** Binary64: integers and small numbers *)

Lemma digits2_pos_bounds (p : positive) :
  2 ^ (Zpos (digits2_pos p) - 1) <= Zpos p < 2 ^ Zpos (digits2_pos p).
Proof.
  induction p as [p IH|p IH|]; cbn [digits2_pos].
  - rewrite Pos2Z.inj_succ.
    replace (Z.succ (Zpos (digits2_pos p)) - 1) with (Z.succ (Zpos (digits2_pos p) - 1)) by lia.
    rewrite !Z.pow_succ_r by lia. lia.
  - rewrite Pos2Z.inj_succ.
    replace (Z.succ (Zpos (digits2_pos p)) - 1) with (Z.succ (Zpos (digits2_pos p) - 1)) by lia.
    rewrite !Z.pow_succ_r by lia. lia.
  - cbn. lia.
Qed.

Lemma digits2_pos_unique (p : positive) (k : Z) :
  2 ^ (k - 1) <= Zpos p < 2 ^ k -> Zpos (digits2_pos p) = k.
Proof.
  intros [Hlo Hhi]. pose proof (digits2_pos_bounds p) as [Blo Bhi].
  assert (0 < k).
  { destruct (Z.ltb_spec 0 k); [assumption|].
    assert (2 ^ k <= 2 ^ 0) by (apply Z.pow_le_mono_r; lia).
    cbn in *. lia. }
  destruct (Z.lt_trichotomy (Zpos (digits2_pos p)) k) as [Hlt|[Heq|Hgt]];
    [|assumption|].
  - assert (2 ^ Zpos (digits2_pos p) <= 2 ^ (k - 1))
      by (apply Z.pow_le_mono_r; lia). lia.
  - assert (2 ^ k <= 2 ^ (Zpos (digits2_pos p) - 1))
      by (apply Z.pow_le_mono_r; lia). lia.
Qed.

Lemma shr_1_half (r : shr_record) :
  0 <= shr_m r -> shr_m (shr_1 r) = shr_m r / 2.
Proof.
  destruct r as [m r s]. cbn [shr_m]. intros Hm.
  rewrite <- Z.div2_div.
  destruct m as [|[p|p|]|p]; try reflexivity. lia.
Qed.

Lemma iter_shr_1 (n : positive) : forall r : shr_record,
  0 <= shr_m r ->
  shr_m (SpecFloat.iter_pos shr_1 n r) = shr_m r / 2 ^ Zpos n.
Proof.
  induction n as [n IH|n IH|]; intros r Hr; cbn [SpecFloat.iter_pos].
  - assert (H1 : 0 <= shr_m (shr_1 r)).
    { rewrite shr_1_half by assumption. apply Z.div_pos; lia. }
    assert (H2 : 0 <= shr_m (SpecFloat.iter_pos shr_1 n (shr_1 r))).
    { rewrite IH by assumption. apply Z.div_pos; [assumption|]. apply Z.pow_pos_nonneg; lia. }
    rewrite IH, IH, shr_1_half by assumption.
    rewrite !Z.div_div by (try apply Z.pow_pos_nonneg; lia).
    f_equal. change (Zpos n~1) with (2 * Zpos n + 1).
    replace (2 * Zpos n + 1) with (1 + Zpos n + Zpos n) by lia.
    rewrite !Z.pow_add_r by lia. lia.
  - assert (H2 : 0 <= shr_m (SpecFloat.iter_pos shr_1 n r)).
    { rewrite IH by assumption. apply Z.div_pos; [assumption|]. apply Z.pow_pos_nonneg; lia. }
    rewrite IH, IH by assumption.
    rewrite !Z.div_div by (try apply Z.pow_pos_nonneg; lia).
    f_equal. change (Zpos n~0) with (2 * Zpos n).
    replace (2 * Zpos n) with (Zpos n + Zpos n) by lia.
    rewrite !Z.pow_add_r by lia. lia.
  - rewrite shr_1_half by assumption. reflexivity.
Qed.

Lemma iter_xO (k : positive) (p : positive) :
  Zpos (Pos.iter xO p k) = Zpos p * 2 ^ Zpos k.
Proof.
  revert p. induction k as [|k IH] using Pos.peano_ind; intros p.
  - cbn. lia.
  - rewrite Pos.iter_succ, Pos2Z.inj_xO, IH, Pos2Z.inj_succ, Z.pow_succ_r by lia.
    lia.
Qed.

Lemma fexp_normal (e : Z) : -1074 <= e -> fexp prec emax (53 + e) = e.
Proof. intros He. unfold fexp, emin. change prec with 53. change emax with 1024. lia. Qed.

Lemma valid_normal (s : bool) (m : positive) (e : Z) :
  Zpos (digits2_pos m) = 53 -> -1074 <= e <= 971 ->
  valid_binary (S754_finite s m e) = true.
Proof.
  intros Hd He. unfold valid_binary, SpecFloat.valid_binary, SpecFloat.bounded,
    canonical_mantissa.
  rewrite Hd, fexp_normal by lia. change prec with 53. change emax with 1024.
  rewrite Z.eqb_refl. cbn. apply Z.leb_le. lia.
Qed.

(** The second rounding step leaves a 53-bit mantissa. *)
Lemma shr_fexp_rounded (q : positive) (e : Z) :
  2 ^ 52 <= Zpos q <= 2 ^ 53 -> -1074 <= e ->
  exists (mrs : shr_record) (m : positive) (e' : Z),
    shr_fexp prec emax (Zpos q) e loc_Exact = (mrs, e')
    /\ shr_m mrs = Zpos m /\ Zpos (digits2_pos m) = 53 /\ e <= e'.
Proof.
  intros [Hlo Hhi] He.
  destruct (Z.eq_dec (Zpos q) (2 ^ 53)) as [Heq|Hne].
  - assert (q = 9007199254740992%positive) by (apply Pos2Z.inj; exact Heq).
    subst q. exists (Build_shr_record (2 ^ 52) false false), (4503599627370496%positive), (e + 1).
    split; [|split; [reflexivity|split; [reflexivity|lia]]].
    unfold shr_fexp, Zdigits2. change (Zpos (digits2_pos 9007199254740992)) with 54.
    replace (54 + e) with (53 + (e + 1)) by lia. rewrite fexp_normal by lia.
    replace (e + 1 - e) with 1 by lia. reflexivity.
  - exists (Build_shr_record (Zpos q) false false), q, e.
    assert (Hd : Zpos (digits2_pos q) = 53)
      by (apply digits2_pos_unique; change (53 - 1) with 52; lia).
    split; [|split; [reflexivity|split; [assumption|lia]]].
    unfold shr_fexp, Zdigits2. rewrite Hd, fexp_normal by lia.
    rewrite Z.sub_diag. reflexivity.
Qed.

Lemma round_nearest_even_bounds (m : Z) (l : location) :
  m <= round_nearest_even m l <= m + 1.
Proof.
  unfold round_nearest_even. destruct l as [|[| |]]; try lia.
  destruct (Z.even m); lia.
Qed.

(** Rounding a mantissa that the first step brought to 53 bits. *)
Lemma binary_round_aux_normal (s : bool) (mx ex : Z) (lx : location)
    (mrs : shr_record) (e1 : Z) :
  shr_fexp prec emax mx ex lx = (mrs, e1) ->
  2 ^ 52 <= shr_m mrs < 2 ^ 53 -> -1074 <= e1 ->
  let x := binary_round_aux prec emax s mx ex lx in
  valid_binary x = true
  /\ (x = S754_infinity s \/ exists m e, x = S754_finite s m e).
Proof.
  intros Hshr Hm He1 x. subst x. unfold binary_round_aux. rewrite Hshr.
  pose proof (round_nearest_even_bounds (shr_m mrs) (loc_of_shr_record mrs)) as Hr.
  destruct (round_nearest_even (shr_m mrs) (loc_of_shr_record mrs)) as [|q|q];
    try lia.
  destruct (shr_fexp_rounded q e1) as (mrs2 & m & e2 & Hshr2 & Hm2 & Hd & He2);
    [lia|lia|].
  rewrite Hshr2, Hm2. change (emax - prec) with 971.
  destruct (Z.leb_spec e2 971).
  - split; [apply valid_normal; [assumption|lia]|]. right. eauto.
  - split; [reflexivity|]. left. reflexivity.
Qed.

Lemma binary_normalize_pos (p : positive) :
  let x := binary_normalize prec emax (Zpos p) 0 false in
  valid_binary x = true
  /\ (x = S754_infinity false \/ exists m e, x = S754_finite false m e).
Proof.
  cbn [binary_normalize]. unfold binary_round.
  pose proof (digits2_pos_bounds p) as [Blo Bhi].
  set (D := Zpos (digits2_pos p)) in *.
  assert (HD : 1 <= D) by (subst D; lia).
  destruct (Z.le_gt_cases D 53) as [Hsmall|Hbig].
  - (* at most 53 bits: the mantissa is shifted left, nothing is lost *)
    assert (Hf : fexp prec emax (D + 0) = D - 53).
    { unfold fexp, emin. change prec with 53. change emax with 1024. lia. }
    rewrite Hf.
    assert (Hal : exists mz, shl_align p 0 (D - 53) = (mz, D - 53)
                             /\ Zpos mz = Zpos p * 2 ^ (53 - D)).
    { unfold shl_align. rewrite Z.sub_0_r.
      destruct (D - 53) as [|k|k] eqn:E; try lia.
      - exists p. split; [reflexivity|]. replace (53 - D) with 0 by lia. lia.
      - exists (Pos.iter xO p k). split; [reflexivity|].
        rewrite iter_xO. replace (53 - D) with (Zpos k) by lia. reflexivity. }
    destruct Hal as (mz & -> & Hmz).
    assert (Hdz : Zpos (digits2_pos mz) = 53).
    { apply digits2_pos_unique. rewrite Hmz. change (53 - 1) with 52.
      assert (E52 : 2 ^ 52 = 2 ^ (D - 1) * 2 ^ (53 - D))
        by (rewrite <- Z.pow_add_r by lia; f_equal; lia).
      assert (E53 : 2 ^ 53 = 2 ^ D * 2 ^ (53 - D))
        by (rewrite <- Z.pow_add_r by lia; f_equal; lia).
      assert (0 < 2 ^ (53 - D)) by (apply Z.pow_pos_nonneg; lia).
      rewrite E52, E53.
      split; [apply Z.mul_le_mono_nonneg_r; lia
             |apply Z.mul_lt_mono_pos_r; lia]. }
    apply (binary_round_aux_normal false _ _ _
             (Build_shr_record (Zpos mz) false false) (D - 53)).
    + unfold shr_fexp, Zdigits2. rewrite Hdz, fexp_normal by lia.
      rewrite Z.sub_diag. reflexivity.
    + cbn [shr_m]. pose proof (digits2_pos_bounds mz) as Hb.
      rewrite Hdz in Hb. exact Hb.
    + lia.
  - (* more than 53 bits: the low bits are shifted out *)
    assert (Hf : fexp prec emax (D + 0) = D - 53).
    { unfold fexp, emin. change prec with 53. change emax with 1024. lia. }
    rewrite Hf.
    assert (Hal : shl_align p 0 (D - 53) = (p, 0)).
    { unfold shl_align. rewrite Z.sub_0_r. destruct (D - 53) eqn:E; try lia.
      reflexivity. }
    rewrite Hal.
    assert (Hn : exists n, D - 53 = Zpos n).
    { destruct (D - 53) as [|n|n] eqn:E; try lia. eauto. }
    destruct Hn as [n Hn].
    apply (binary_round_aux_normal false _ _ _
             (SpecFloat.iter_pos shr_1 n (Build_shr_record (Zpos p) false false))
             (0 + Zpos n)).
    + unfold shr_fexp. change (Zdigits2 (Zpos p)) with D.
      rewrite Hf, Z.sub_0_r, Hn. reflexivity.
    + rewrite iter_shr_1 by (cbn; lia). cbn [shr_m]. rewrite <- Hn.
      assert (Hp : 0 < 2 ^ (D - 53)) by (apply Z.pow_pos_nonneg; lia).
      split.
      * apply Z.div_le_lower_bound; [assumption|].
        rewrite <- Z.pow_add_r by lia.
        replace (D - 53 + 52) with (D - 1) by lia. assumption.
      * apply Z.div_lt_upper_bound; [assumption|].
        rewrite <- Z.pow_add_r by lia.
        replace (D - 53 + 53) with D by lia. assumption.
    + lia.
Qed.

Lemma Prim2SF_float_of_pos (p : positive) :
  Prim2SF (float_of_Z (Zpos p)) = S754_infinity false
  \/ exists m e, Prim2SF (float_of_Z (Zpos p)) = S754_finite false m e.
Proof.
  unfold float_of_Z. destruct (binary_normalize_pos p) as [Hv Hx].
  rewrite Prim2SF_SF2Prim by exact Hv. exact Hx.
Qed.

Lemma sub_diag_finite (x : float) :
  finite_float x = true -> (x - x)%float = 0%float.
Proof.
  unfold finite_float. intros Hfin. apply Prim2SF_inj.
  rewrite sub_spec. unfold SF64sub, SFsub.
  destruct (Prim2SF x) as [[|]|s| |s m e]; try discriminate; try reflexivity.
  rewrite Z.sub_diag. reflexivity.
Qed.

Lemma div_zero_by_pos (p : positive) :
  exists s, Prim2SF (0 / float_of_Z (Zpos p))%float = S754_zero s.
Proof.
  rewrite div_spec. change (Prim2SF 0) with (S754_zero false).
  destruct (Prim2SF_float_of_pos p) as [->|(m & e & ->)]; cbn; eauto.
Qed.

Lemma py_int_zero_times_1000 (x : float) (s : bool) :
  Prim2SF x = S754_zero s -> py_int (x * float_of_Z 1000)%float = Ret 0.
Proof.
  intros Hx. unfold py_int. rewrite mul_spec, Hx.
  change (Prim2SF (float_of_Z 1000)) with (S754_finite false 8796093022208000 (-43)).
  reflexivity.
Qed.

(** Below one: a smaller exponent, or the exponent of one and a smaller
    mantissa. *)
Lemma SFltb_below_one (m : positive) (e : Z) :
  SFltb (S754_finite false m e) (S754_finite false 4503599627370496 (-52))
  = true ->
  e < -52 \/ (e = -52 /\ Zpos m < 4503599627370496).
Proof.
  unfold SFltb, SFcompare.
  destruct (Z.compare_spec e (-52)) as [He|He|He].
  - intros Hlt. right. split; [exact He|].
    destruct (Pos.compare_cont Eq m 4503599627370496) eqn:Em; try discriminate Hlt.
    apply Pos2Z.pos_lt_pos. exact Em.
  - intros _. left. exact He.
  - discriminate.
Qed.

(** [int(x)] is 0 for every [x] of magnitude below 1. *)
Lemma py_int_small (x : float) :
  (abs x <? 1)%float = true -> py_int x = Ret 0.
Proof.
  rewrite ltb_spec, abs_spec. pose proof (Prim2SF_valid x) as Hv.
  unfold py_int.
  change (Prim2SF 1) with (S754_finite false 4503599627370496 (-52)).
  destruct (Prim2SF x) as [s|s| |s m e]; cbn [SFabs]; try discriminate;
    [reflexivity|].
  intros Hlt. apply SFltb_below_one in Hlt.
  assert (Hd : Zpos (digits2_pos m) <= 53).
  { unfold valid_binary, SpecFloat.valid_binary, SpecFloat.bounded,
      canonical_mantissa in Hv.
    apply andb_prop in Hv. destruct Hv as [Hc _]. apply Z.eqb_eq in Hc.
    unfold fexp, emin in Hc. change prec with 53 in Hc.
    change emax with 1024 in Hc. lia. }
  pose proof (digits2_pos_bounds m) as [_ Hhi].
  assert (Hm : Zpos m < 2 ^ (- e) /\ e < 0).
  { destruct Hlt as [He|[-> Hlt]].
    - split; [|lia].
      assert (2 ^ Zpos (digits2_pos m) <= 2 ^ (- e))
        by (apply Z.pow_le_mono_r; lia).
      lia.
    - split; [exact Hlt|reflexivity]. }
  clear Hv Hlt Hd Hhi. destruct Hm as [Hm He].
  rewrite Z.shiftl_div_pow2, Z.div_small by lia.
  destruct s; reflexivity.
Qed.

(** ** Binary64: the product with a homogeneous point *)

Lemma digits2_pos_shift (m : positive) :
  Zpos (digits2_pos (4503599627370496 * m)) = Zpos (digits2_pos m) + 52.
Proof.
  pose proof (digits2_pos_bounds m) as [Hlo Hhi].
  apply digits2_pos_unique.
  change (Zpos (4503599627370496 * m)) with (2 ^ 52 * Zpos m).
  replace (Zpos (digits2_pos m) + 52 - 1)
    with (52 + (Zpos (digits2_pos m) - 1)) by lia.
  replace (Zpos (digits2_pos m) + 52)
    with (52 + Zpos (digits2_pos m)) by lia.
  rewrite !Z.pow_add_r by lia.
  split; [apply Z.mul_le_mono_nonneg_l|apply Z.mul_lt_mono_pos_l]; lia.
Qed.

Lemma shr_52 (m : positive) (e : Z) :
  shr (Build_shr_record (Zpos (4503599627370496 * m)) false false) e 52
  = (Build_shr_record (Zpos m) false false, e + 52).
Proof. reflexivity. Qed.

(** The product of a binary64 number and 1 is not rounded. *)
Lemma SFmul_one (s : bool) (m : positive) (e : Z) :
  SpecFloat.bounded prec emax m e = true ->
  SFmul prec emax (S754_finite s m e)
    (S754_finite false 4503599627370496 (-52))
  = S754_finite s m e.
Proof.
  unfold SpecFloat.bounded, canonical_mantissa. intros Hb.
  apply andb_prop in Hb. destruct Hb as [Hc He].
  apply Z.eqb_eq in Hc.
  cbn [SFmul]. rewrite xorb_false_r, Pos.mul_comm.
  unfold binary_round_aux, shr_fexp at 1.
  unfold Zdigits2 at 1. rewrite digits2_pos_shift.
  replace (Zpos (digits2_pos m) + 52 + (e + -52))
    with (Zpos (digits2_pos m) + e) by lia.
  rewrite Hc. replace (e - (e + -52)) with 52 by lia.
  cbn [shr_record_of_loc]. rewrite shr_52.
  cbn [shr_m loc_of_shr_record round_nearest_even].
  unfold shr_fexp, Zdigits2.
  replace (e + -52 + 52) with e by lia.
  rewrite Hc, Z.sub_diag. cbn [shr shr_record_of_loc shr_m].
  rewrite He. reflexivity.
Qed.

Lemma float_mul_1_r (t : float) : (t * 1)%float = t.
Proof.
  apply Prim2SF_inj. rewrite mul_spec.
  change (Prim2SF 1) with (S754_finite false 4503599627370496 (-52)).
  pose proof (Prim2SF_valid t) as Hv.
  unfold SF64mul.
  destruct (Prim2SF t) as [s|s| |s m e];
    [cbn [SFmul]; rewrite xorb_false_r; reflexivity ..
    |reflexivity|apply SFmul_one; exact Hv].
Qed.

(** The product of a number and 0 is a zero. *)
Lemma float_mul_0_r (r : float) :
  finite_float r = true -> exists s, Prim2SF (r * 0)%float = S754_zero s.
Proof.
  unfold finite_float. intros Hfin. rewrite mul_spec.
  change (Prim2SF 0) with (S754_zero false).
  destruct (Prim2SF r) as [s|s| |s m e]; try discriminate; cbn; eauto.
Qed.

Lemma float_add_zeros (x y : float) (s : bool) :
  Prim2SF x = S754_zero false -> Prim2SF y = S754_zero s ->
  Prim2SF (x + y)%float = S754_zero false.
Proof.
  intros Hx Hy. rewrite add_spec, Hx, Hy. destruct s; reflexivity.
Qed.

(** The sum of 0 and [t] is [t], but for the sign of a zero. *)
Lemma float_add_0_l (x t : float) :
  Prim2SF x = S754_zero false -> same_number (x + t)%float t.
Proof.
  intros Hx. pose proof (add_spec x t) as Hadd. rewrite Hx in Hadd.
  destruct (Prim2SF t) as [[|]|s| |s m e] eqn:Et.
  - right. split; apply Prim2SF_inj; [rewrite Hadd|rewrite Et]; reflexivity.
  - left. apply Prim2SF_inj. rewrite Hadd, Et. reflexivity.
  - left. apply Prim2SF_inj. rewrite Hadd, Et. reflexivity.
  - left. apply Prim2SF_inj. rewrite Hadd, Et. reflexivity.
  - left. apply Prim2SF_inj. rewrite Hadd, Et. reflexivity.
Qed.

(** A row [r0, r1, r2, t] of numbers times the point [0, 0, 0, 1]. *)
Lemma homogeneous_row (r0 r1 r2 t : float) :
  finite_float r0 = true -> finite_float r1 = true ->
  finite_float r2 = true ->
  same_number
    (dot [r0; r1; r2; t] [of_int 0; of_int 0; of_int 0; of_int 1]) t.
Proof.
  intros H0 H1 H2. unfold dot. cbn [zip zip_with fold_left].
  change (@of_int float float_scalar 0) with 0%float.
  change (@of_int float float_scalar 1) with 1%float.
  change (@add float float_scalar) with PrimFloat.add.
  change (@mul float float_scalar) with PrimFloat.mul.
  destruct (float_mul_0_r r0 H0) as [s0 E0].
  destruct (float_mul_0_r r1 H1) as [s1 E1].
  destruct (float_mul_0_r r2 H2) as [s2 E2].
  rewrite float_mul_1_r.
  apply float_add_0_l.
  eapply float_add_zeros; [|exact E2].
  eapply float_add_zeros; [|exact E1].
  eapply float_add_zeros; [|exact E0].
  reflexivity.
Qed.

(** The two item assignments, on any 4x4 array. *)
Lemma write_translation_eq {F : Type} `{Scalar F} (M tvec : ndarray F)
    (t0 t1 t2 : F) :
  shape M = [4; 4] -> shape tvec = [3; 1] -> buf tvec = [t0; t1; t2] ->
  write_translation M tvec
  = Ret (mk_ndarray [4; 4]
           (<[15%nat := of_int 1]>
              (<[11%nat := t2]> (<[7%nat := t1]> (<[3%nat := t0]> (buf M)))))).
Proof.
  intros HM Hs Hb. unfold write_translation, getitem_col.
  rewrite Hs, Hb. cbn [mbind outcome_bind].
  unfold setitem_rows_col, setitem2. rewrite HM. reflexivity.
Qed.

(** In exact arithmetic, over the real numbers, the assembled matrix takes
    the homogeneous point [0, 0, 0, 1] to [t0, t1, t2, 1]. *)
Lemma projection_matrix_real_product {rodrigues : Rodrigues R}
    (rvec tvec : ndarray R) (Rm : mat3 R) (t0 t1 t2 : R) :
  cv2_Rodrigues rvec = Ret Rm ->
  shape tvec = [3; 1] -> buf tvec = [t0; t1; t2] ->
  exists P : ndarray R,
    assemble_projection_matrix rvec tvec = Ret P
    /\ matvec P [0; 0; 0; 1]%R = Ret [t0; t1; t2; 1%R].
Proof.
  intros HR Hs Hb.
  destruct Rm as [[[[r00 r01] r02] [[r10 r11] r12]] [[r20 r21] r22]].
  eexists. split;
    [exact (assemble_projection_matrix_eq rvec tvec _ _ _ _ _ _ _ _ _
              t0 t1 t2 HR Hs Hb)|].
  lazy -[Rplus Rmult IZR]. repeat f_equal; ring.
Qed.

(** C2.  Projection-matrix assembly, on the binary64 arrays of the script:
    for the rotation vector and the 3x1 translation vector of a detected
    board, the matrix assembled by [calibrate_extrinsic_parameters] is 4x4,
    has the rotation matrix of the rotation vector in rows 0-2, columns
    0-2, the translation vector in rows 0-2, column 3, and [0, 0, 0, 1] as
    its last row.  Of this, lines 87 and 88 of the source contribute the
    last column: on any 4x4 array they overwrite entries (0, 3), (1, 3),
    (2, 3) by the translation and entry (3, 3) by 1, and leave the others;
    the rotation block and the zeros of the last row are those of the
    result of [rodrigues_to_matrix].  Applied to the homogeneous point
    [0, 0, 0, 1], the matrix of a rotation matrix with finite entries gives
    [t0, t1, t2, 1], each [ti] as the same number: binary64 arithmetic
    loses nothing here but the sign of a zero. *)
Theorem projection_matrix_assembly {rodrigues : Rodrigues float}
    (rvec tvec : ndarray float) (Rm : mat3 float) :
  cv2_Rodrigues rvec = Ret Rm ->
  wf_ndarray tvec -> shape tvec = [3; 1] ->
  exists (P : ndarray float) (t0 t1 t2 : float),
    assemble_projection_matrix rvec tvec = Ret P
    /\ buf tvec = [t0; t1; t2]
    /\ shape P = [4; 4]
    /\ rotation_block P = Some Rm
    /\ (getitem2 P 0 3 = Ret t0 /\ getitem2 P 1 3 = Ret t1 /\
        getitem2 P 2 3 = Ret t2)
    /\ row_of P 4 3 = [0; 0; 0; 1]%float
    /\ assemble_projection_matrix rvec tvec
       = (M ← rodrigues_to_matrix rvec; write_translation M tvec)
    /\ (forall M : ndarray float, shape M = [4; 4] ->
        write_translation M tvec
        = Ret (mk_ndarray [4; 4]
                 (<[15%nat := 1%float]>
                    (<[11%nat := t2]>
                       (<[7%nat := t1]> (<[3%nat := t0]> (buf M)))))))
    /\ (mat3_finite Rm = true ->
        exists u0 u1 u2 : float,
          matvec P [0; 0; 0; 1]%float = Ret [u0; u1; u2; 1%float]
          /\ same_number u0 t0 /\ same_number u1 t1
          /\ same_number u2 t2).
Proof.
  intros HR Hwf Hs.
  destruct (column3_elements tvec Hwf Hs) as (t0 & t1 & t2 & Hb).
  destruct Rm as [[[[r00 r01] r02] [[r10 r11] r12]] [[r20 r21] r22]].
  eexists _, t0, t1, t2.
  split; [exact (assemble_projection_matrix_eq rvec tvec _ _ _ _ _ _ _ _ _
                   t0 t1 t2 HR Hs Hb)|].
  split; [exact Hb|]. split; [reflexivity|]. split; [reflexivity|].
  split; [repeat split|]. split; [reflexivity|]. split; [reflexivity|].
  split; [intros M HM; exact (write_translation_eq M tvec t0 t1 t2 HM Hs Hb)|].
  intros Hfin. cbn [mat3_finite] in Hfin.
  repeat (apply andb_prop in Hfin; destruct Hfin as [Hfin ?]).
  eexists _, _, _. split.
  - unfold matvec. cbn [shape]. cbn [length].
    change (4 =? Z.of_nat 4) with true. cbv iota.
    change (Z.to_nat 4) with 4%nat.
    cbn [seq fmap list_fmap]. unfold row_of. cbn [buf drop take Nat.mul Nat.add].
    reflexivity.
  - split; [|split]; apply homogeneous_row; assumption.
Qed.

(** ** The log viewer *)

Section Viewer.
Context {reader : LogReader}.

Lemma interval_ms_small (data : list TriCameraObservation) (x : float) :
  interval_seconds data = Ret x ->
  (abs (x * float_of_Z 1000) <? 1)%float = true ->
  interval_ms data = Ret 0.
Proof.
  intros Hx Hsmall. unfold interval_ms. rewrite Hx. cbn [mbind outcome_bind].
  apply py_int_small. exact Hsmall.
Qed.

Lemma reference_timestamp_nonempty (data : list TriCameraObservation)
    (i : Z) (t : float) :
  reference_timestamp data i = Ret t ->
  exists p, Z.of_nat (length data) = Zpos p.
Proof.
  destruct data as [|o data'].
  - unfold reference_timestamp, py_getitem. cbn.
    destruct (i <? 0); cbn;
      repeat match goal with |- context [if ?b then _ else _] =>
                               destruct b; cbn end;
      discriminate.
  - intros _. cbn [length]. rewrite Nat2Z.inj_succ.
    destruct (Z.of_nat (length data')) as [|q|q] eqn:E; try lia; cbn; eauto.
Qed.

(** Equal time stamps: the average interval is a zero. *)
Lemma interval_seconds_same_stamp (data : list TriCameraObservation)
    (t : float) :
  reference_timestamp data 0 = Ret t ->
  reference_timestamp data (-1) = Ret t ->
  finite_float t = true ->
  exists x s, interval_seconds data = Ret x /\ Prim2SF x = S754_zero s.
Proof.
  intros H0 H1 Hfin. unfold interval_seconds. rewrite H0, H1.
  cbn [mbind outcome_bind].
  destruct (reference_timestamp_nonempty data 0 t H0) as [p ->].
  unfold float_div_int. cbn [Z.eqb].
  rewrite sub_diag_finite by exact Hfin.
  destruct (div_zero_by_pos p) as [s Hs]. eauto.
Qed.

Lemma main_interval_zero (filename : string) (w : viewer_world)
    (data : list TriCameraObservation) :
  log_reader_data filename = Ret data ->
  interval_ms data = Ret 0 ->
  main filename w = (Raise ZeroDivisionError, w).
Proof.
  intros Hdata Hms. unfold main. rewrite Hdata, bind_lift_ret.
  rewrite Hms, bind_lift_ret. reflexivity.
Qed.

(** C10.  Degenerate interval: when the average interval that the viewer
    computes, in milliseconds, is of magnitude below one, the interval as
    an integer is 0 and [main] fails with [ZeroDivisionError] while it
    formats the frame rate; nothing has been printed or shown.  This is so
    in particular when the first and the last reference time stamp are the
    same finite number.  On a log without frame sets [main] fails with
    [IndexError] on the first time stamp.  The condition is on the number
    that the viewer computes in binary64, not on the time stamps as real
    numbers: time stamps that are less than a millisecond per frame set
    apart can give a product that rounds to 1.0, and then the interval is
    1 ms and the log is played. *)
Theorem degenerate_interval_crash (filename : string) (w : viewer_world) :
  (forall (data : list TriCameraObservation) (x : float),
      log_reader_data filename = Ret data ->
      interval_seconds data = Ret x ->
      (abs (x * float_of_Z 1000) <? 1)%float = true ->
      interval_ms data = Ret 0
      /\ main filename w = (Raise ZeroDivisionError, w))
  /\ (forall (data : list TriCameraObservation) (t : float),
        log_reader_data filename = Ret data ->
        reference_timestamp data 0 = Ret t ->
        reference_timestamp data (-1) = Ret t ->
        finite_float t = true ->
        interval_ms data = Ret 0
        /\ main filename w = (Raise ZeroDivisionError, w))
  /\ (log_reader_data filename = Ret [] ->
      main filename w = (Raise IndexError, w)).
Proof.
  split; [|split].
  - intros data x Hdata Hx Hsmall.
    pose proof (interval_ms_small data x Hx Hsmall) as Hms.
    split; [exact Hms|]. apply (main_interval_zero _ _ data); assumption.
  - intros data t Hdata H0 H1 Hfin.
    destruct (interval_seconds_same_stamp data t H0 H1 Hfin)
      as (x & s & Hx & Hs).
    assert (Hms : interval_ms data = Ret 0).
    { unfold interval_ms. rewrite Hx. cbn [mbind outcome_bind].
      apply (py_int_zero_times_1000 x s Hs). }
    split; [exact Hms|]. apply (main_interval_zero _ _ data); assumption.
  - intros Hdata. unfold main. rewrite Hdata, bind_lift_ret. reflexivity.
Qed.

(** A log with a single frame set: the first and the last frame set are
    the same, so the interval is 0 and [main] fails. *)
Lemma single_frame_log_crash (filename : string) (w : viewer_world)
    (observation : TriCameraObservation) (camera : CameraObservation) :
  log_reader_data filename = Ret [observation] ->
  py_getitem (cameras observation) 0 = Ret camera ->
  finite_float (timestamp camera) = true ->
  main filename w = (Raise ZeroDivisionError, w).
Proof.
  intros Hdata Hcam Hfin.
  assert (Hfirst : reference_timestamp [observation] 0
                   = Ret (timestamp camera)).
  { unfold reference_timestamp.
    change (py_getitem [observation] 0) with (Ret observation).
    cbn [mbind outcome_bind]. rewrite Hcam. reflexivity. }
  assert (Hlast : reference_timestamp [observation] (-1)
                  = Ret (timestamp camera)).
  { unfold reference_timestamp.
    change (py_getitem [observation] (-1)) with (Ret observation).
    cbn [mbind outcome_bind]. rewrite Hcam. reflexivity. }
  destruct (interval_seconds_same_stamp _ _ Hfirst Hlast Hfin)
    as (x & s & Hx & Hs).
  apply (main_interval_zero _ _ [observation] Hdata).
  unfold interval_ms. rewrite Hx. cbn [mbind outcome_bind].
  apply (py_int_zero_times_1000 x s Hs).
Qed.
End Viewer.

Section Playback.
Context {reader : LogReader}.

Lemma show_camera_shows (title : string) (observation : TriCameraObservation)
    (i : Z) (camera : CameraObservation) (w : viewer_world) :
  py_getitem (cameras observation) i = Ret camera ->
  show_camera title observation i w
  = (Ret tt, mk_viewer_world (viewer_keys w)
               (viewer_trace w ++ [Shown title (image camera)])).
Proof. intros Hc. unfold show_camera. rewrite Hc. reflexivity. Qed.

Lemma c_int_fits (z : Z) :
  -2147483648 <= z <= 2147483647 -> c_int z = true.
Proof.
  intros [Hlo Hhi]. unfold c_int.
  rewrite (proj2 (Z.leb_le _ _) Hlo), (proj2 (Z.leb_le _ _) Hhi). reflexivity.
Qed.

Lemma c_int_misfit (z : Z) :
  z < -2147483648 \/ 2147483647 < z -> c_int z = false.
Proof.
  intros Hz. unfold c_int.
  destruct (Z.leb_spec (-2147483648) z); [|reflexivity].
  destruct (Z.leb_spec z 2147483647); [lia|reflexivity].
Qed.

(** With a positive interval that fits a C [int] and no quit key, the loop
    shows every frame set, in the order of the log, and returns. *)
Lemma play_every_frame (interval : Z) (data : list TriCameraObservation) :
  0 < interval <= 2147483647 ->
  Forall (fun o => length (cameras o) = 3%nat) data ->
  forall w : viewer_world,
    Forall (fun k => k <> 113 /\ k <> 27) (viewer_keys w) ->
    play interval data w
    = (Ret tt,
       mk_viewer_world (drop (length data) (viewer_keys w))
         (viewer_trace w ++ concat (frame_events <$> data))).
Proof.
  intros [Hpos Hint] Hwf.
  induction Hwf as [|o data' Ho Hwf IH]; intros w Hkeys.
  - cbn. rewrite app_nil_r, drop_0. destruct w; reflexivity.
  - destruct o as [cams]. cbn in Ho.
    destruct cams as [|c0 [|c1 [|c2 [|c3 cams]]]]; try discriminate Ho.
    cbn [play].
    unfold mbind at 1, M_bind at 1, bind at 1.
    rewrite (show_camera_shows _ _ 0 c0) by reflexivity.
    unfold mbind at 1, M_bind at 1, bind at 1.
    rewrite (show_camera_shows _ _ 1 c1) by reflexivity.
    unfold mbind at 1, M_bind at 1, bind at 1.
    rewrite (show_camera_shows _ _ 2 c2) by reflexivity.
    unfold mbind at 1, M_bind at 1, bind at 1.
    unfold cv2_waitKey. rewrite c_int_fits by lia. cbn [negb].
    rewrite (proj2 (Z.ltb_lt 0 interval) Hpos).
    cbn [viewer_keys viewer_trace].
    destruct (viewer_keys w) as [|k ks] eqn:Ek.
    + rewrite bool_decide_eq_false_2
        by (rewrite !elem_of_cons, elem_of_nil; lia).
      rewrite IH by (cbn; constructor).
      cbn [viewer_keys viewer_trace length]. rewrite !drop_nil.
      unfold frame_events at 2. cbn [cameras fmap list_fmap concat].
      rewrite <- !app_assoc. reflexivity.
    + inversion Hkeys as [|? ? [Hq Hesc] Hks]; subst.
      rewrite bool_decide_eq_false_2
        by (rewrite !elem_of_cons, elem_of_nil; lia).
      rewrite IH by (cbn; assumption).
      cbn [viewer_keys viewer_trace length drop].
      unfold frame_events at 2. cbn [cameras fmap list_fmap concat].
      rewrite <- !app_assoc. reflexivity.
Qed.

(** The run of [main] on a log whose interval is positive and fits a C
    [int], when no quit key is pressed: the message with the frame count,
    the interval and the rate, then every frame set in order. *)
Lemma main_plays_every_frame (filename : string) (w : viewer_world)
    (data : list TriCameraObservation) (ms : Z) (fps : float) :
  log_reader_data filename = Ret data ->
  interval_ms data = Ret ms -> 0 < ms <= 2147483647 ->
  int_truediv 1000 ms = Ret fps ->
  Forall (fun o => length (cameras o) = 3%nat) data ->
  Forall (fun k => k <> 113 /\ k <> 27) (viewer_keys w) ->
  main filename w
  = (Ret tt,
     mk_viewer_world (drop (length data) (viewer_keys w))
       (viewer_trace w
        ++ Printed (Z.of_nat (length data)) ms fps
           :: concat (frame_events <$> data))).
Proof.
  intros Hdata Hms Hpos Hfps Hwf Hkeys. unfold main.
  rewrite Hdata, bind_lift_ret, Hms, bind_lift_ret, Hfps, bind_lift_ret.
  unfold mbind at 1, M_bind at 1, bind at 1, emit, modify.
  rewrite (play_every_frame ms data Hpos Hwf) by exact Hkeys.
  cbn [viewer_keys viewer_trace]. rewrite <- app_assoc. reflexivity.
Qed.
End Playback.

(** * The properties at concrete inputs *)


Lemma config_matrix_roundtrip_witness :
  config_matrix (matrix_block 2 3 example_matrix) = Ret example_matrix.
Proof.
  refine (proj1 (config_matrix_roundtrip example_matrix 2 3 _ _)).
  - split; [repeat constructor; discriminate|reflexivity].
  - reflexivity.
Defined.

Lemma config_matrix_shape_check_witness :
  config_matrix (YDict short_block) = Raise ValueError.
Proof.
  refine (proj1 (config_matrix_shape_check short_block 3 3
                   [1; 2; 3; 4; 5; 6; 7; 8]%float _ _ _ _ _) _);
    try reflexivity; discriminate.
Defined.

(** A negative dimension is not a shape mismatch for numpy: the block
    [{rows: -1, cols: 4, data: [1, ..., 8]}] decodes to a 2x4 matrix. *)
Example config_matrix_infers_dimension :
  config_matrix
    (YDict (<["data" := YList (YFloat <$> [1; 2; 3; 4; 5; 6; 7; 8]%float)]>
              (<["cols" := YInt 4]> (<["rows" := YInt (-1)]> ∅))))
  = Ret (mk_ndarray [2; 4] [1; 2; 3; 4; 5; 6; 7; 8]%float).
Proof. reflexivity. Qed.

Lemma projection_matrix_assembly_witness :
  exists (P : ndarray float) (t0 t1 t2 : float),
    assemble_projection_matrix (rodrigues := example_Rodrigues)
      example_rvec example_tvec = Ret P
    /\ buf example_tvec = [t0; t1; t2]
    /\ shape P = [4; 4]
    /\ rotation_block P = Some float_identity
    /\ (getitem2 P 0 3 = Ret t0 /\ getitem2 P 1 3 = Ret t1 /\
        getitem2 P 2 3 = Ret t2)
    /\ row_of P 4 3 = [0; 0; 0; 1]%float
    /\ assemble_projection_matrix (rodrigues := example_Rodrigues)
         example_rvec example_tvec
       = (M ← rodrigues_to_matrix (rodrigues := example_Rodrigues)
                example_rvec;
          write_translation M example_tvec)
    /\ (forall M : ndarray float, shape M = [4; 4] ->
        write_translation M example_tvec
        = Ret (mk_ndarray [4; 4]
                 (<[15%nat := 1%float]>
                    (<[11%nat := t2]>
                       (<[7%nat := t1]> (<[3%nat := t0]> (buf M)))))))
    /\ (mat3_finite float_identity = true ->
        exists u0 u1 u2 : float,
          matvec P [0; 0; 0; 1]%float = Ret [u0; u1; u2; 1%float]
          /\ same_number u0 t0 /\ same_number u1 t1
          /\ same_number u2 t2).
Proof.
  apply (projection_matrix_assembly (rodrigues := example_Rodrigues)
           example_rvec example_tvec float_identity).
  - reflexivity.
  - split; [repeat constructor; discriminate|reflexivity].
  - reflexivity.
Defined.

Lemma extrinsic_stage_frame_witness :
  let w' := (calibrate_extrinsic_parameters
               (handler := example_handler 0.5)
               (rodrigues := example_Rodrigues)
               (project := example_ProjectPoints)
               "intrinsic.yml" "board.png" "extrinsic.yml" true
               example_world).2 in
  exists (P : ndarray float) (d' : gmap string (yaml float)),
    assemble_projection_matrix (rodrigues := example_Rodrigues)
      example_rvec example_tvec = Ret P
    /\ files w' !! "extrinsic.yml" = Some (YDict d')
    /\ d' !! "camera_matrix" = Some (matrix_block 3 3 example_camera_matrix)
    /\ d' !! "distortion_coefficients"
       = Some (matrix_block 1 5 example_dist_coeffs)
    /\ d' !! "projection_matrix" = Some (matrix_block 4 4 P)
    /\ (forall k : string,
          k <> "projection_matrix" -> d' !! k = example_record !! k)
    /\ (forall p : string,
          p <> "extrinsic.yml" ->
          files w' !! p = files example_world !! p).
Proof.
  apply (extrinsic_stage_frame (handler := example_handler 0.5)
           (rodrigues := example_Rodrigues)
           (project := example_ProjectPoints)
           example_world "intrinsic.yml" "board.png" "extrinsic.yml" true
           example_record
           (matrix_block 3 3 example_camera_matrix)
           (matrix_block 1 5 example_dist_coeffs)
           example_camera_matrix example_dist_coeffs
           example_rvec example_tvec float_identity);
    try reflexivity.
  - split; [repeat constructor; discriminate|reflexivity].
  - apply not_elem_of_empty.
Defined.

(** C5, as stated, does not hold: two runs that differ only in the
    reprojection error which the board handler returns, 0.5 and 2, return the
    same and leave the same world. *)
Lemma reprojection_error_not_surfaced : ~ surfaces_reprojection_error float.
Proof.
  intros Hsurf.
  assert (Heq : 0.5%float = 2%float).
  { apply (Hsurf (example_handler 0.5) (example_handler 2)
             "views" "intrinsic.yml" (mk_world ∅ ∅ ∅ [] [] [])
             example_camera_matrix example_dist_coeffs);
      reflexivity. }
  apply (f_equal Prim2SF) in Heq. vm_compute in Heq. discriminate Heq.
Qed.

Lemma reprojection_error_discarded_witness :
  calibrate_intrinsic_parameters (handler := example_handler 0.5)
    "views" "intrinsic.yml" (mk_world ∅ ∅ ∅ [] [] [])
  = (Ret tt, mk_world (<["intrinsic.yml" := YDict example_record]> ∅)
               ∅ ∅ [] [] []).
Proof.
  apply (reprojection_error_discarded (handler := example_handler 0.5)
           "views" "intrinsic.yml" (mk_world ∅ ∅ ∅ [] [] [])
           example_camera_matrix example_dist_coeffs 0.5%float).
  - reflexivity.
  - apply not_elem_of_empty.
Defined.

Lemma insufficient_views_no_file_witness :
  calibrate_intrinsic_parameters (handler := blind_handler)
    "views" "intrinsic.yml" example_world
  = (Raise (External "InsufficientViews"), example_world).
Proof.
  apply (insufficient_views_no_file (handler := blind_handler)).
  reflexivity.
Defined.

Lemma rodrigues_rotation_valid_witness :
  exists (P : ndarray R) (Rm : mat3 R),
    rodrigues_to_matrix (rodrigues := real_Rodrigues 0) real_rvec = Ret P
    /\ rotation_block P = Some Rm
    /\ mat3_mul (mat3_transpose Rm) Rm = mat3_id
    /\ mat3_det Rm = 1%R
    /\ (sqrt (0 * 0 + 0 * 0 + 0 * 0) = 0%R -> Rm = mat3_id)
    /\ (0%R = 0%R -> 0%R = 0%R -> 0%R = 0%R -> Rm = mat3_id).
Proof.
  apply (rodrigues_rotation_valid 0 real_rvec 0 0 0).
  - apply Rle_refl.
  - reflexivity.
Defined.

(** C8 fails on a log with a single frame set: the first and the last
    time stamp are the same, the interval is 0 ms, and [main] raises
    [ZeroDivisionError] before anything is printed or shown. *)
Theorem single_frame_log_fails :
  main (reader := single_frame_log) "log.dat" fresh_viewer
  = (Raise ZeroDivisionError, fresh_viewer).
Proof. vm_compute. reflexivity. Qed.

(** On a log of three frame sets over one second the viewer reports 3 frames,
    333 ms and the rate, and shows the frame sets in order. *)
Example example_log_plays :
  exists fps : float,
    int_truediv 1000 333 = Ret fps
    /\ main (reader := example_log) "log.dat" fresh_viewer
       = (Ret tt,
          mk_viewer_world []
            (Printed 3 333 fps
             :: concat (frame_events <$> [example_frame 0; example_frame 0.5;
                                          example_frame 1]%float))).
Proof.
  eexists. split; [vm_compute; reflexivity|]. vm_compute. reflexivity.
Qed.

(** The interval is read on the numbers that the viewer computes: for nine
    frame sets over the binary64 number next to 0.009, which is below 0.009,
    the quotient and the product round up and the interval is 1 ms. *)
Example nine_frame_log_interval :
  (data ← log_reader_data (LogReader := nine_frame_log) "log.dat";
   interval_ms data) = Ret 1.
Proof. vm_compute. reflexivity. Qed.

(** C10, as stated, does not hold: the time stamps of the nine-frame log
    are less than one millisecond per frame set apart, since
    5188146770730811 * 2^-59 * 1000 < 9, and yet the interval that the viewer
    computes is 1 ms and [main] plays the log and returns. *)
Lemma sub_millisecond_log_plays :
  exists data : list TriCameraObservation,
    log_reader_data (LogReader := nine_frame_log) "log.dat" = Ret data
    /\ sub_millisecond data
    /\ interval_ms data = Ret 1
    /\ (main (reader := nine_frame_log) "log.dat" fresh_viewer).1 = Ret tt.
Proof.
  eexists. split; [reflexivity|]. split; [|split].
  - exists 0%float, 0x1.26e978d4fdf3bp-7%float.
    split; [reflexivity|]. split; [reflexivity|].
    split; [reflexivity|]. split; [reflexivity|].
    unfold float_to_R.
    change (Prim2SF 0x1.26e978d4fdf3bp-7)
      with (S754_finite false 5188146770730811 (-59)).
    change (Prim2SF 0) with (S754_zero false).
    cbn [cond_Zopp]. rewrite Rminus_0_r.
    rewrite Rabs_right.
    + simpl length. change (INR _) with (INR 9).
      unfold powerRZ. change (Pos.to_nat 59) with 59%nat.
      replace (2 ^ 59)%R with (IZR (2 ^ 59))
        by (exact (eq_sym (pow_IZR 2 59))).
      change (2 ^ 59) with 576460752303423488.
      replace (INR 9) with 9%R by (simpl; lra).
      lra.
    + apply Rle_ge. apply Rmult_le_pos; [apply IZR_le; lia|].
      apply powerRZ_le. lra.
  - vm_compute. reflexivity.
  - vm_compute. reflexivity.
Qed.

(** The sign of a zero is what the product with [0, 0, 0, 1] can lose: for
    the translation [-0, 2, 3] it gives [0, 2, 3, 1]. *)
Example signed_zero_translation :
  (P ← assemble_projection_matrix (rodrigues := example_Rodrigues)
         example_rvec signed_zero_tvec;
   matvec P [0; 0; 0; 1]%float)
  = Ret [0; 2; 3; 1]%float.
Proof. vm_compute. reflexivity. Qed.

Lemma reference_shape_witness : unordered (4, 0) ∈ unordered <$> point_pairs.
Proof.
  apply (proj2 (proj2 (proj2 (proj2 (proj2 (proj2 (proj2 (proj2
           reference_shape)))))))).
  - split; [discriminate|reflexivity].
  - split; [discriminate|reflexivity].
  - reflexivity.
Defined.

Lemma degenerate_interval_crash_witness :
  interval_ms [example_frame 5] = Ret 0
  /\ main (reader := single_frame_log) "log.dat" fresh_viewer
     = (Raise ZeroDivisionError, fresh_viewer).
Proof.
  apply (proj1 (proj2 (degenerate_interval_crash
                         (reader := single_frame_log) "log.dat"
                         fresh_viewer))
           [example_frame 5] 5%float); reflexivity.
Defined.

(** * Further properties of the two scripts *)

(** ** Binary64: rounding does not overflow *)

Lemma Zdigits2_upper (m : Z) : 0 <= m -> m < 2 ^ Zdigits2 m.
Proof.
  destruct m as [|p|p]; intros Hm; try lia.
  - cbn. lia.
  - apply (digits2_pos_bounds p).
Qed.

Lemma Zdigits2_le (m k : Z) : 0 <= m < 2 ^ k -> 0 <= k -> Zdigits2 m <= k.
Proof.
  destruct m as [|p|p]; intros [Hlo Hhi] Hk; try lia.
  - cbn. lia.
  - cbn [Zdigits2]. pose proof (digits2_pos_bounds p) as [Blo _].
    destruct (Z.le_gt_cases (Zpos (digits2_pos p)) k) as [|Hgt]; [assumption|].
    assert (2 ^ k <= 2 ^ (Zpos (digits2_pos p) - 1))
      by (apply Z.pow_le_mono_r; lia).
    lia.
Qed.

Lemma Zdigits2_nonneg (m : Z) : 0 <= Zdigits2 m.
Proof. destruct m; cbn; lia. Qed.

(** One shifting step keeps the mantissa non-negative and does not raise
    the position of its leading bit. *)
Lemma shr_fexp_bounds (m e : Z) (l : location) (mrs : shr_record) (e1 B : Z) :
  0 <= m -> shr_fexp prec emax m e l = (mrs, e1) ->
  Zdigits2 m + e <= B -> e <= 971 -> -1074 <= B <= 1024 ->
  0 <= shr_m mrs /\ e1 <= 971 /\ Zdigits2 (shr_m mrs) + e1 <= B.
Proof.
  intros Hm Hshr Hd He HB. unfold shr_fexp, shr in Hshr.
  assert (Hf : fexp prec emax (Zdigits2 m + e)
               = Z.max (Zdigits2 m + e - 53) (-1074)).
  { unfold fexp, emin. change prec with 53. change emax with 1024. lia. }
  assert (Hrec : shr_m (shr_record_of_loc m l) = m)
    by (destruct l as [|[| |]]; reflexivity).
  destruct (fexp prec emax (Zdigits2 m + e) - e) as [|n|n] eqn:En;
    inversion Hshr; subst mrs e1; clear Hshr; rewrite ?Hrec;
    try (split; [assumption|split; assumption]).
  rewrite iter_shr_1 by (rewrite Hrec; assumption). rewrite Hrec.
  assert (Hpow : 0 < 2 ^ Zpos n) by (apply Z.pow_pos_nonneg; lia).
  split; [apply Z.div_pos; lia|]. split; [lia|].
  pose proof (Zdigits2_upper m Hm) as Hup.
  pose proof (Zdigits2_nonneg m) as Hnn.
  destruct (Z.le_gt_cases (Zpos n) (Zdigits2 m)) as [Hle|Hgt].
  - assert (Zdigits2 (m / 2 ^ Zpos n) <= Zdigits2 m - Zpos n).
    { apply Zdigits2_le; [|lia]. split; [apply Z.div_pos; lia|].
      apply Z.div_lt_upper_bound; [assumption|].
      rewrite <- Z.pow_add_r by lia.
      replace (Zpos n + (Zdigits2 m - Zpos n)) with (Zdigits2 m) by lia.
      assumption. }
    lia.
  - assert (Hz : m / 2 ^ Zpos n = 0).
    { apply Z.div_small. split; [assumption|].
      assert (2 ^ Zdigits2 m <= 2 ^ Zpos n) by (apply Z.pow_le_mono_r; lia).
      lia. }
    rewrite Hz. cbn [Zdigits2]. lia.
Qed.

Lemma binary_round_aux_no_overflow (s : bool) (m e : Z) (l : location) :
  0 <= m -> Zdigits2 m + e <= 1023 -> e <= 971 ->
  forall s' : bool, binary_round_aux prec emax s m e l <> S754_infinity s'.
Proof.
  intros Hm Hd He s'. unfold binary_round_aux.
  destruct (shr_fexp prec emax m e l) as [mrs1 e1] eqn:H1.
  destruct (shr_fexp_bounds m e l mrs1 e1 1023 Hm H1 Hd He)
    as (Hm1 & He1 & Hd1); [lia|].
  pose proof (round_nearest_even_bounds (shr_m mrs1) (loc_of_shr_record mrs1))
    as Hr.
  set (m2 := round_nearest_even (shr_m mrs1) (loc_of_shr_record mrs1)) in *.
  assert (Hd2 : Zdigits2 m2 + e1 <= 1024).
  { assert (Zdigits2 m2 <= Zdigits2 (shr_m mrs1) + 1); [|lia].
    pose proof (Zdigits2_nonneg (shr_m mrs1)).
    apply Zdigits2_le; [|lia]. split; [lia|].
    pose proof (Zdigits2_upper (shr_m mrs1) Hm1).
    rewrite Z.pow_add_r by lia. change (2 ^ 1) with 2. lia. }
  destruct (shr_fexp prec emax m2 e1 loc_Exact) as [mrs2 e2] eqn:H2.
  destruct (shr_fexp_bounds m2 e1 loc_Exact mrs2 e2 1024 ltac:(lia) H2 Hd2 He1)
    as (Hm2 & He2 & _); [lia|].
  destruct (shr_m mrs2); try discriminate.
  change (emax - prec) with 971.
  destruct (Z.leb_spec e2 971); [discriminate|lia].
Qed.

Lemma SFdiv_core_1000 (p : positive) (q e' : Z) (l : location) :
  SFdiv_core_binary prec emax 1000 0 (Zpos p) 0 = (q, e', l) ->
  0 <= q /\ Zdigits2 q + e' <= 1023 /\ e' <= 971.
Proof.
  unfold SFdiv_core_binary.
  set (e0 := Z.min (fexp prec emax (Zdigits2 1000 + 0 - (Zdigits2 (Zpos p) + 0)))
               (0 - 0)).
  assert (He0 : e0 <= 0) by (subst e0; apply Z.le_min_r).
  set (m' := match 0 - 0 - e0 with
             | 0 => 1000
             | Zpos _ => Z.shiftl 1000 (0 - 0 - e0)
             | Zneg _ => 0
             end).
  assert (Hm' : 0 <= m' < 2 ^ (10 - e0)).
  { subst m'. destruct (0 - 0 - e0) as [|s|s] eqn:Es; try lia.
    - replace (10 - e0) with 10 by lia. cbn. lia.
    - rewrite Z.shiftl_mul_pow2 by lia.
      replace (10 - e0) with (10 + Zpos s) by lia.
      rewrite Z.pow_add_r by lia.
      assert (0 < 2 ^ Zpos s) by (apply Z.pow_pos_nonneg; lia).
      change (2 ^ 10) with 1024. nia. }
  destruct (Z.div_eucl m' (Zpos p)) as [q0 r0] eqn:Ediv.
  intros Heq. inversion Heq; subst q0 e'. clear Heq.
  assert (Hq : q = m' / Zpos p) by (unfold Z.div; rewrite Ediv; reflexivity).
  assert (Hq0 : 0 <= q) by (rewrite Hq; apply Z.div_pos; lia).
  assert (Hqm : q <= m').
  { rewrite Hq. apply Z.div_le_upper_bound; [lia|]. nia. }
  split; [assumption|]. split; [|lia].
  assert (Zdigits2 q <= 10 - e0) by (apply Zdigits2_le; lia).
  lia.
Qed.

(** The frame rate [1000 / interval] is computed whenever the interval is
    not 0. *)
Lemma int_truediv_1000 (b : Z) :
  b <> 0 -> exists fps : float, int_truediv 1000 b = Ret fps.
Proof.
  intros Hb. unfold int_truediv. rewrite (proj2 (Z.eqb_neq b 0) Hb).
  assert (Hno : forall s, SFdiv prec emax (Z2SF 1000) (Z2SF b)
                          <> S754_infinity s).
  { intros s. destruct b as [|p|p]; [lia| |]; cbn [Z2SF SFdiv];
      destruct (SFdiv_core_binary prec emax 1000 0 (Zpos p) 0)
        as [[q e'] l] eqn:Ecore;
      destruct (SFdiv_core_1000 p q e' l Ecore) as (Hq & Hd & He);
      apply binary_round_aux_no_overflow; assumption. }
  destruct (SFdiv prec emax (Z2SF 1000) (Z2SF b)) as [s|s| |s m e] eqn:E;
    eauto.
  exfalso. exact (Hno s eq_refl).
Qed.

(** ** Decoding, whatever the record *)

Section Decoding.
Context {F : Type} {scalar : Scalar F}.

Lemma wf_2d (r c : Z) (b : list F) :
  0 <= r -> 0 <= c -> r * c = Z.of_nat (length b) ->
  wf_ndarray (mk_ndarray [r; c] b).
Proof.
  intros Hr Hc Hn. split; cbn.
  - repeat constructor; assumption.
  - lia.
Qed.

Lemma reshape_result (a0 : ndarray F) (r c : Z) (a : ndarray F) :
  reshape a0 r c = Ret a ->
  wf_ndarray a /\ buf a = buf a0
  /\ exists r' c', shape a = [r'; c']
                   /\ (0 <= r -> r' = r) /\ (0 <= c -> c' = c).
Proof.
  unfold reshape. set (n := Z.of_nat (length (buf a0))).
  assert (Hn : 0 <= n) by (subst n; lia).
  destruct (Z.leb_spec 0 r) as [Hr|Hr]; destruct (Z.leb_spec 0 c) as [Hc|Hc];
    cbn [andb].
  - destruct (Z.eqb_spec (r * c) n) as [Heq|]; [|discriminate].
    intros [= <-]. split; [apply wf_2d; assumption|].
    split; [reflexivity|]. exists r, c. auto.
  - destruct (Z.ltb_spec r 0); [lia|]. cbn [andb].
    destruct (Z.eqb_spec r 0) as [|Hr0]; [discriminate|]. cbn [orb].
    destruct (Z.eqb_spec (n mod r) 0) as [Hmod|]; [|discriminate].
    cbn [negb]. intros [= <-].
    assert (Hdiv : n = r * (n / r)) by (apply Z_div_exact_full_2; lia).
    assert (0 <= n / r) by (apply Z.div_pos; lia).
    split; [apply wf_2d; lia|].
    split; [reflexivity|]. exists r, (n / r). repeat split; lia.
  - destruct (Z.ltb_spec r 0); [|lia]. destruct (Z.ltb_spec c 0); [lia|].
    cbn [andb].
    destruct (Z.eqb_spec c 0) as [|Hc0]; [discriminate|]. cbn [orb].
    destruct (Z.eqb_spec (n mod c) 0) as [Hmod|]; [|discriminate].
    cbn [negb]. intros [= <-].
    assert (Hdiv : n = c * (n / c)) by (apply Z_div_exact_full_2; lia).
    assert (0 <= n / c) by (apply Z.div_pos; lia).
    split; [apply wf_2d; lia|].
    split; [reflexivity|]. exists (n / c), c. repeat split; lia.
  - destruct (Z.ltb_spec r 0); [|lia]. destruct (Z.ltb_spec c 0); [|lia].
    discriminate.
Qed.

(** X1.  Whatever record it is given, [config_matrix] returns only
    well-formed two-dimensional arrays: the number of elements is the
    product of the two dimensions, also when a dimension was inferred, and a
    dimension that the record gives as a non-negative number is kept. *)
Theorem config_matrix_returns_matrix (data : yaml F) (a : ndarray F) :
  config_matrix data = Ret a ->
  wf_ndarray a
  /\ exists r c : Z,
       shape a = [r; c] /\ r * c = Z.of_nat (length (buf a))
       /\ (forall rows, dict_getitem data "rows" = Ret (YInt rows) ->
             0 <= rows -> r = rows)
       /\ (forall cols, dict_getitem data "cols" = Ret (YInt cols) ->
             0 <= cols -> c = cols).
Proof.
  unfold config_matrix. intros Hrun.
  destruct (dict_getitem data "data") as [d| |]; try discriminate.
  cbn [mbind outcome_bind] in Hrun.
  destruct (np_array d) as [a0| |]; try discriminate.
  cbn [mbind outcome_bind] in Hrun.
  destruct (dict_getitem data "rows") as [vr| |]; try discriminate.
  cbn [mbind outcome_bind] in Hrun.
  destruct (dict_getitem data "cols") as [vc| |]; try discriminate.
  cbn [mbind outcome_bind] in Hrun.
  destruct vr as [|rows| | | |]; try discriminate.
  destruct vc as [|cols| | | |]; try discriminate.
  cbn [as_dimension mbind outcome_bind] in Hrun.
  destruct (reshape_result a0 rows cols a Hrun)
    as (Hwf & Hbuf & r & c & Hs & Hr & Hc).
  split; [assumption|]. exists r, c. split; [assumption|].
  split.
  { destruct Hwf as [_ Hsize]. rewrite Hs in Hsize. cbn in Hsize. lia. }
  split; intros ? [= <-]; assumption.
Qed.

(** X2.  A record that lacks a field of a block makes [config_matrix] fail
    with the [KeyError] of that field, ["data"] first, then ["rows"], then
    ["cols"]; a dimension that is not an integer is a [TypeError], and so is
    a value that is not a dict. *)
Theorem config_matrix_field_errors (d : gmap string (yaml F))
    (xs : list F) :
  (d !! "data" = None -> config_matrix (YDict d) = Raise (KeyError "data"))
  /\ (d !! "data" = Some (YList (YFloat <$> xs)) -> d !! "rows" = None ->
      config_matrix (YDict d) = Raise (KeyError "rows"))
  /\ (forall rows : yaml F,
        d !! "data" = Some (YList (YFloat <$> xs)) ->
        d !! "rows" = Some rows -> d !! "cols" = None ->
        config_matrix (YDict d) = Raise (KeyError "cols"))
  /\ (forall (x : F) (cols : yaml F),
        d !! "data" = Some (YList (YFloat <$> xs)) ->
        d !! "rows" = Some (YFloat x) -> d !! "cols" = Some cols ->
        config_matrix (YDict d) = Raise TypeError)
  /\ (forall l : list (yaml F), config_matrix (YList l) = Raise TypeError)
  /\ config_matrix (@YNone F) = Raise TypeError.
Proof.
  unfold config_matrix, dict_getitem.
  split; [intros ->; reflexivity|].
  split; [intros -> ->; cbn; rewrite as_scalars_floats; reflexivity|].
  split; [intros rows -> -> ->; cbn; rewrite as_scalars_floats; reflexivity|].
  split; [intros x cols -> -> ->; cbn; rewrite as_scalars_floats;
          reflexivity|].
  split; reflexivity.
Qed.
End Decoding.

(** ** How the stages end *)

Section StageOutcomes.
Context {F : Type} {scalar : Scalar F} {handler : CharucoBoardHandler F}
        {rodrigues : Rodrigues F} {project : ProjectPoints F}.

(** The overlay changes nothing but the keys that are left and the windows
    that are shown. *)
Lemma impose_cube_on_image_frame (image_filename : string)
    (rvec tvec camera_matrix dist_coeffs : ndarray F) (w : world F) :
  let w' := (impose_cube_on_image image_filename rvec tvec camera_matrix
               dist_coeffs w).2 in
  files w' = files w /\ locked w' = locked w /\ pictures w' = pictures w
  /\ printed w' = printed w.
Proof.
  unfold impose_cube_on_image, mbind, M_bind, bind, cv2_imread, gets, lift.
  destruct (cv2_projectPoints _ _ _ _ _) as [pts| |]; try (cbn; tauto).
  destruct (draw_pairs _ pts point_pairs) as [img| |]; try (cbn; tauto).
  unfold cv2_imshow. destruct img as [pic|]; [|cbn; tauto].
  unfold modify, wait_for_key. cbn.
  destruct (until_key (keys w)); cbn; tauto.
Qed.

(** X3.  The extrinsic stage writes all or nothing: it never changes a file
    other than the output file, and the output file is either left as it was,
    in which case the stage has failed and the world is untouched, or holds
    the loaded record with the projection block added.  It never changes
    which files are writable or readable, and prints nothing. *)
Theorem extrinsic_stage_all_or_nothing (w : world F)
    (intrinsic_path image_path output_path : string) (impose_cube : bool)
    (o : outcome unit) (w' : world F) :
  calibrate_extrinsic_parameters intrinsic_path image_path output_path
    impose_cube w = (o, w') ->
  (w' = w /\ o <> Ret tt)
  \/ (exists (d : gmap string (yaml F)) (P : ndarray F),
        files w !! intrinsic_path = Some (YDict d)
        /\ (output_path ∉ locked w)
        /\ files w'
           = <[output_path :=
                 YDict (<["projection_matrix" := matrix_block 4 4 P]> d)]>
               (files w)
        /\ locked w' = locked w /\ pictures w' = pictures w
        /\ printed w' = printed w).
Proof.
  unfold calibrate_extrinsic_parameters.
  unfold mbind at 1, M_bind at 1, bind at 1, yaml_safe_load_file at 1.
  destruct (files w !! intrinsic_path) as [calibration_data|] eqn:Hfile;
    [|intros [= <- <-]; left; split; [reflexivity|discriminate]].
  unfold mbind at 1, M_bind at 1, bind at 1, lift at 1.
  destruct (dict_getitem calibration_data "camera_matrix") as [b1| |] eqn:Hb1;
    try (intros [= <- <-]; left; split; [reflexivity|discriminate]).
  unfold mbind at 1, M_bind at 1, bind at 1, lift at 1.
  destruct (config_matrix b1) as [cm| |] eqn:Hcm;
    try (intros [= <- <-]; left; split; [reflexivity|discriminate]).
  unfold mbind at 1, M_bind at 1, bind at 1, lift at 1.
  destruct (dict_getitem calibration_data "distortion_coefficients")
    as [b2| |] eqn:Hb2;
    try (intros [= <- <-]; left; split; [reflexivity|discriminate]).
  unfold mbind at 1, M_bind at 1, bind at 1, lift at 1.
  destruct (config_matrix b2) as [dc| |] eqn:Hdc;
    try (intros [= <- <-]; left; split; [reflexivity|discriminate]).
  unfold mbind at 1, M_bind at 1, bind at 1, lift at 1.
  destruct (handler_detect cm dc image_path false) as [[rvec tvec]| |] eqn:Hd;
    try (intros [= <- <-]; left; split; [reflexivity|discriminate]).
  unfold mbind at 1, M_bind at 1, bind at 1, lift at 1.
  destruct (assemble_projection_matrix rvec tvec) as [P| |] eqn:HP;
    try (intros [= <- <-]; left; split; [reflexivity|discriminate]).
  destruct calibration_data as [| | | | |d]; try discriminate Hb1.
  rewrite attach_projection_matrix_eq.
  unfold mbind at 1, M_bind at 1, bind at 1, lift at 1.
  unfold mbind at 1, M_bind at 1, bind at 1.
  destruct (decide (output_path ∈ locked w)) as [Hin|Hout].
  - rewrite yaml_dump_file_locked by assumption.
    intros [= <- <-]. left. split; [reflexivity|discriminate].
  - rewrite yaml_dump_file_writes by assumption.
    intros Hrun. right. exists d, P.
    split; [reflexivity|]. split; [assumption|].
    destruct impose_cube.
    + pose proof (impose_cube_on_image_frame image_path rvec tvec cm dc
                    (set_files
                       (<[output_path :=
                            YDict (<["projection_matrix" :=
                                       matrix_block 4 4 P]> d)]> (files w)) w))
        as Hframe.
      cbv zeta in Hframe. rewrite Hrun in Hframe. exact Hframe.
    + injection Hrun as <- <-. cbn. tauto.
Qed.

(** The first step of the extrinsic stage, on a known file. *)
Ltac load_record Hfile :=
  unfold calibrate_extrinsic_parameters;
  unfold mbind at 1, M_bind at 1, bind at 1, yaml_safe_load_file at 1;
  rewrite Hfile.

(** X4.  Loading: the extrinsic stage fails with [FileNotFoundError] when
    there is no file at the intrinsic path, with [TypeError] when the file
    does not hold a mapping, and with the [KeyError] of the block when the
    record lacks [camera_matrix] or, that block being fine,
    [distortion_coefficients]; the world is untouched and the board handler
    is not consulted. *)
Theorem extrinsic_stage_load_errors (w : world F)
    (intrinsic_path image_path output_path : string) (impose_cube : bool) :
  let run := calibrate_extrinsic_parameters intrinsic_path image_path
               output_path impose_cube w in
  (files w !! intrinsic_path = None ->
   run = (Raise (FileNotFoundError intrinsic_path), w))
  /\ (forall l : list (yaml F),
        files w !! intrinsic_path = Some (YList l) ->
        run = (Raise TypeError, w))
  /\ (files w !! intrinsic_path = Some YNone -> run = (Raise TypeError, w))
  /\ (forall d : gmap string (yaml F),
        files w !! intrinsic_path = Some (YDict d) ->
        d !! "camera_matrix" = None ->
        run = (Raise (KeyError "camera_matrix"), w))
  /\ (forall (d : gmap string (yaml F)) (block : yaml F) (cm : ndarray F),
        files w !! intrinsic_path = Some (YDict d) ->
        d !! "camera_matrix" = Some block -> config_matrix block = Ret cm ->
        d !! "distortion_coefficients" = None ->
        run = (Raise (KeyError "distortion_coefficients"), w)).
Proof.
  cbv zeta. repeat split.
  - intros Hfile. load_record Hfile. reflexivity.
  - intros l Hfile. load_record Hfile. reflexivity.
  - intros Hfile. load_record Hfile. reflexivity.
  - intros d Hfile Hcm. load_record Hfile. unfold dict_getitem.
    rewrite Hcm. reflexivity.
  - intros d block cm Hfile Hb Hcm Hdc. load_record Hfile.
    unfold dict_getitem.
    rewrite Hb, bind_lift_ret, Hcm, bind_lift_ret, Hdc. reflexivity.
Qed.

(** X5.  A block of the record that does not decode, and a board that is
    not detected, make the extrinsic stage fail with that error and leave
    the world untouched: no output file appears. *)
Theorem extrinsic_stage_decode_and_detect_errors (w : world F)
    (intrinsic_path image_path output_path : string) (impose_cube : bool)
    (d : gmap string (yaml F)) (bcm : yaml F) (e : exn) :
  files w !! intrinsic_path = Some (YDict d) ->
  d !! "camera_matrix" = Some bcm ->
  let run := calibrate_extrinsic_parameters intrinsic_path image_path
               output_path impose_cube w in
  (config_matrix bcm = Raise e -> run = (Raise e, w))
  /\ (forall (cm : ndarray F) (bdc : yaml F),
        config_matrix bcm = Ret cm ->
        d !! "distortion_coefficients" = Some bdc ->
        config_matrix bdc = Raise e -> run = (Raise e, w))
  /\ (forall (cm dc : ndarray F) (bdc : yaml F),
        config_matrix bcm = Ret cm ->
        d !! "distortion_coefficients" = Some bdc ->
        config_matrix bdc = Ret dc ->
        handler_detect cm dc image_path false = Raise e ->
        run = (Raise e, w)).
Proof.
  intros Hfile Hb. cbv zeta. repeat split.
  - intros Hcm. load_record Hfile. unfold dict_getitem.
    rewrite Hb, bind_lift_ret, Hcm. reflexivity.
  - intros cm bdc Hcm Hbdc Hdc. load_record Hfile. unfold dict_getitem.
    rewrite Hb, bind_lift_ret, Hcm, bind_lift_ret, Hbdc, bind_lift_ret, Hdc.
    reflexivity.
  - intros cm dc bdc Hcm Hbdc Hdc Hdet. load_record Hfile.
    unfold dict_getitem.
    rewrite Hb, bind_lift_ret, Hcm, bind_lift_ret, Hbdc, bind_lift_ret, Hdc,
      bind_lift_ret, Hdet.
    reflexivity.
Qed.

(** X6.  An output path that cannot be opened for writing: the extrinsic
    stage fails with [OSError] only after the record has been loaded and
    the board detected, and the world is untouched. *)
Theorem extrinsic_stage_output_locked (w : world F)
    (intrinsic_path image_path output_path : string) (impose_cube : bool)
    (d : gmap string (yaml F)) (bcm bdc : yaml F)
    (cm dc rvec tvec P : ndarray F) :
  files w !! intrinsic_path = Some (YDict d) ->
  d !! "camera_matrix" = Some bcm -> config_matrix bcm = Ret cm ->
  d !! "distortion_coefficients" = Some bdc -> config_matrix bdc = Ret dc ->
  handler_detect cm dc image_path false = Ret (rvec, tvec) ->
  assemble_projection_matrix rvec tvec = Ret P ->
  output_path ∈ locked w ->
  calibrate_extrinsic_parameters intrinsic_path image_path output_path
    impose_cube w = (Raise (OSError output_path), w).
Proof.
  intros Hfile Hbcm Hcm Hbdc Hdc Hdet HP Hlocked.
  unfold calibrate_extrinsic_parameters.
  unfold mbind at 1, M_bind at 1, bind at 1, yaml_safe_load_file at 1.
  rewrite Hfile.
  unfold dict_getitem. rewrite Hbcm, bind_lift_ret, Hcm, bind_lift_ret.
  rewrite Hbdc, bind_lift_ret, Hdc, bind_lift_ret.
  rewrite Hdet, bind_lift_ret, HP, bind_lift_ret.
  rewrite attach_projection_matrix_eq, bind_lift_ret.
  unfold mbind at 1, M_bind at 1, bind at 1.
  rewrite yaml_dump_file_locked by assumption. reflexivity.
Qed.

(** X7.  The intrinsic stage writes all or nothing as well: either it fails
    and the world is untouched, which is the case when the board handler
    fails or the output cannot be opened for writing, or it returns and
    the only change is the output file, which holds the two blocks and
    replaces what was there. *)
Theorem intrinsic_stage_all_or_nothing (w : world F)
    (calibration_data out : string) :
  let run := calibrate_intrinsic_parameters calibration_data out w in
  (exists e : exn, run = (Raise e, w)
     /\ (handler_calibrate calibration_data false = Raise e
         \/ (e = OSError out /\ out ∈ locked w)))
  \/ run = (Blocked, w)
  \/ (exists (cm dc : ndarray F) (error : F),
        handler_calibrate calibration_data false = Ret (cm, dc, error)
        /\ (out ∉ locked w)
        /\ run = (Ret tt,
                  set_files
                    (<[out := YDict (<["distortion_coefficients" :=
                                         matrix_block 1 5 dc]>
                                       (<["camera_matrix" :=
                                            matrix_block 3 3 cm]> ∅))]>
                       (files w)) w)).
Proof.
  cbv zeta.
  destruct (handler_calibrate calibration_data false)
    as [[[cm dc] error]|e|] eqn:Hcal.
  - rewrite (calibrate_intrinsic_parameters_run _ _ _ cm dc error Hcal).
    destruct (decide (out ∈ locked w)) as [Hin|Hout].
    + left. exists (OSError out). split; [|right; split; [reflexivity|assumption]].
      apply yaml_dump_file_locked. assumption.
    + right. right. exists cm, dc, error.
      split; [reflexivity|]. split; [assumption|].
      apply yaml_dump_file_writes. assumption.
  - left. exists e. split; [|left; reflexivity].
    unfold calibrate_intrinsic_parameters. rewrite Hcal. reflexivity.
  - right. left. unfold calibrate_intrinsic_parameters. rewrite Hcal.
    reflexivity.
Qed.
End StageOutcomes.

(** ** The overlay *)

Section Overlay.
Context {F : Type} {scalar : Scalar F} {handler : CharucoBoardHandler F}
        {rodrigues : Rodrigues F} {project : ProjectPoints F}.

(** The first line of the overlay: the end points are scalars of the array
    of projected points, which [cv2.line] does not take, when the array has
    the two points at all. *)
Lemma draw_pairs_first_line (img : option picture) (imgpoints : list (F * F)) :
  draw_pairs img imgpoints point_pairs
  = if bool_decide (5 <= length imgpoints)%nat
    then Raise (External "cv2.line") else Raise IndexError.
Proof.
  destruct imgpoints as [|p0 [|p1 [|p2 [|p3 [|p4 rest]]]]];
    try (rewrite bool_decide_eq_false_2 by (simpl; lia);
         unfold point_pairs; reflexivity).
  rewrite bool_decide_eq_true_2 by (simpl; lia).
  unfold point_pairs. cbn [draw_pairs]. unfold py_getitem.
  set (n := Z.of_nat (length (p0 :: p1 :: p2 :: p3 :: p4 :: rest))).
  assert (Hn : 5 <= n) by (subst n; simpl length; lia).
  change (0 <? 0) with false. change (4 <? 0) with false. cbv iota.
  change (0 <=? 0) with true. change (0 <=? 4) with true.
  rewrite (proj2 (Z.ltb_lt 0 n)), (proj2 (Z.ltb_lt 4 n)) by lia.
  reflexivity.
Qed.

Lemma impose_cube_on_image_fails (image_filename : string)
    (rvec tvec camera_matrix dist_coeffs : ndarray F) (w : world F) :
  impose_cube_on_image image_filename rvec tvec camera_matrix dist_coeffs w
  = (match cv2_projectPoints new_object_points rvec tvec camera_matrix
             dist_coeffs with
     | Ret imgpoints =>
         if bool_decide (5 <= length imgpoints)%nat
         then Raise (External "cv2.line") else Raise IndexError
     | Raise e => Raise e
     | Blocked => Blocked
     end, w).
Proof.
  unfold impose_cube_on_image, mbind, M_bind, bind, cv2_imread, gets, lift.
  destruct (cv2_projectPoints _ _ _ _ _) as [imgpoints|e|]; try reflexivity.
  rewrite draw_pairs_first_line.
  destruct (bool_decide (5 <= length imgpoints)%nat); reflexivity.
Qed.

(** X8.  The overlay never gets to its window.  The end points that the
    script hands to [cv2.line] are numpy float scalars, which the call does
    not take: when [cv2.projectPoints] has returned the points, the overlay
    fails in the first [cv2.line] (with [IndexError] before it, when there
    are fewer than the five points that the first pair needs), whether the
    image could be read or not.  Nothing is drawn or shown and no key is
    read.  So the extrinsic stage with the overlay, which is how [main] runs
    it, never returns normally, although it has written its output file
    when it gets as far as the overlay. *)
Theorem overlay_fails_at_first_line (w : world F)
    (intrinsic_path image_path output_path : string)
    (rvec tvec camera_matrix dist_coeffs : ndarray F) :
  let overlay := impose_cube_on_image image_path rvec tvec camera_matrix
                   dist_coeffs w in
  let run := calibrate_extrinsic_parameters intrinsic_path image_path
               output_path true w in
  overlay.2 = w
  /\ overlay.1 <> Ret tt
  /\ (forall imgpoints : list (F * F),
        cv2_projectPoints new_object_points rvec tvec camera_matrix
          dist_coeffs = Ret imgpoints ->
        overlay.1 = if bool_decide (5 <= length imgpoints)%nat
                    then Raise (External "cv2.line") else Raise IndexError)
  /\ run.1 <> Ret tt /\ shown run.2 = shown w /\ keys run.2 = keys w.
Proof.
  cbv zeta. rewrite impose_cube_on_image_fails. cbn [fst snd].
  split; [reflexivity|]. split.
  { destruct (cv2_projectPoints _ _ _ _ _) as [imgpoints|e|];
      try discriminate.
    destruct (bool_decide (5 <= length imgpoints)%nat); discriminate. }
  split; [intros imgpoints ->; reflexivity|].
  destruct (calibrate_extrinsic_parameters intrinsic_path image_path
              output_path true w) as [o w'] eqn:Hrun.
  cbn [fst snd]. revert Hrun.
  unfold calibrate_extrinsic_parameters.
  unfold mbind at 1, M_bind at 1, bind at 1, yaml_safe_load_file at 1.
  destruct (files w !! intrinsic_path) as [calibration_data|];
    [|intros [= <- <-]; split; [discriminate|split; reflexivity]].
  unfold mbind at 1, M_bind at 1, bind at 1, lift at 1.
  destruct (dict_getitem calibration_data "camera_matrix") as [b1| |];
    try (intros [= <- <-]; split; [discriminate|split; reflexivity]).
  unfold mbind at 1, M_bind at 1, bind at 1, lift at 1.
  destruct (config_matrix b1) as [cm| |];
    try (intros [= <- <-]; split; [discriminate|split; reflexivity]).
  unfold mbind at 1, M_bind at 1, bind at 1, lift at 1.
  destruct (dict_getitem calibration_data "distortion_coefficients")
    as [b2| |];
    try (intros [= <- <-]; split; [discriminate|split; reflexivity]).
  unfold mbind at 1, M_bind at 1, bind at 1, lift at 1.
  destruct (config_matrix b2) as [dc| |];
    try (intros [= <- <-]; split; [discriminate|split; reflexivity]).
  unfold mbind at 1, M_bind at 1, bind at 1, lift at 1.
  destruct (handler_detect cm dc image_path false) as [[rv tv]| |];
    try (intros [= <- <-]; split; [discriminate|split; reflexivity]).
  unfold mbind at 1, M_bind at 1, bind at 1, lift at 1.
  destruct (assemble_projection_matrix rv tv) as [P| |];
    try (intros [= <- <-]; split; [discriminate|split; reflexivity]).
  unfold mbind at 1, M_bind at 1, bind at 1, lift at 1.
  destruct (attach_projection_matrix calibration_data P) as [record| |];
    try (intros [= <- <-]; split; [discriminate|split; reflexivity]).
  unfold mbind at 1, M_bind at 1, bind at 1.
  unfold yaml_dump_file, mbind at 1, M_bind at 1, bind at 1, open_w, modify.
  destruct (decide (output_path ∈ locked w));
    [intros [= <- <-]; split; [discriminate|split; reflexivity]|].
  rewrite impose_cube_on_image_fails.
  intros [= <- <-]. split; [|split; reflexivity].
  destruct (cv2_projectPoints _ _ _ _ _) as [imgpoints|e|];
    try discriminate.
  destruct (bool_decide (5 <= length imgpoints)%nat); discriminate.
Qed.

(** X9.  An image that cannot be read: the stage has loaded the record,
    detected the board and written the output file when the overlay fails
    on its first line; the stage raises the error, the output file stays
    written, nothing is shown and no key is read. *)
Theorem extrinsic_stage_unreadable_image (w : world F)
    (intrinsic_path image_path output_path : string)
    (d : gmap string (yaml F)) (bcm bdc : yaml F)
    (cm dc rvec tvec P : ndarray F) (p0 p1 p2 p3 p4 p5 p6 p7 : F * F) :
  files w !! intrinsic_path = Some (YDict d) ->
  d !! "camera_matrix" = Some bcm -> config_matrix bcm = Ret cm ->
  d !! "distortion_coefficients" = Some bdc -> config_matrix bdc = Ret dc ->
  handler_detect cm dc image_path false = Ret (rvec, tvec) ->
  assemble_projection_matrix rvec tvec = Ret P ->
  output_path ∉ locked w ->
  image_path ∉ pictures w ->
  cv2_projectPoints new_object_points rvec tvec cm dc
  = Ret [p0; p1; p2; p3; p4; p5; p6; p7] ->
  calibrate_extrinsic_parameters intrinsic_path image_path output_path true w
  = (Raise (External "cv2.line"),
     set_files
       (<[output_path :=
            YDict (<["projection_matrix" := matrix_block 4 4 P]> d)]>
          (files w)) w).
Proof.
  intros Hfile Hbcm Hcm Hbdc Hdc Hdet HP Hfree Hpic Hpts.
  rewrite (calibrate_extrinsic_parameters_run w _ _ _ true d bcm bdc
             cm dc rvec tvec P Hfile Hbcm Hcm Hbdc Hdc Hdet HP Hfree).
  cbv zeta iota.
  unfold impose_cube_on_image, mbind, M_bind, bind, cv2_imread, gets, lift.
  rewrite Hpts. cbn [pictures set_files].
  destruct (decide (image_path ∈ pictures w)) as [Hin|_]; [contradiction|].
  reflexivity.
Qed.

(** X10.  Without the overlay the stage returns as soon as the record is
    written: no window is shown, the image is not read and no key is
    consumed. *)
Theorem extrinsic_stage_without_overlay (w : world F)
    (intrinsic_path image_path output_path : string)
    (d : gmap string (yaml F)) (bcm bdc : yaml F)
    (cm dc rvec tvec P : ndarray F) :
  files w !! intrinsic_path = Some (YDict d) ->
  d !! "camera_matrix" = Some bcm -> config_matrix bcm = Ret cm ->
  d !! "distortion_coefficients" = Some bdc -> config_matrix bdc = Ret dc ->
  handler_detect cm dc image_path false = Ret (rvec, tvec) ->
  assemble_projection_matrix rvec tvec = Ret P ->
  output_path ∉ locked w ->
  let run := calibrate_extrinsic_parameters intrinsic_path image_path
               output_path false w in
  run.1 = Ret tt /\ shown run.2 = shown w /\ keys run.2 = keys w
  /\ files run.2 !! output_path
     = Some (YDict (<["projection_matrix" := matrix_block 4 4 P]> d)).
Proof.
  intros Hfile Hbcm Hcm Hbdc Hdc Hdet HP Hfree. cbv zeta.
  rewrite (calibrate_extrinsic_parameters_run w _ _ _ false d bcm bdc
             cm dc rvec tvec P Hfile Hbcm Hcm Hbdc Hdc Hdet HP Hfree).
  cbn. rewrite lookup_insert_eq. auto.
Qed.
End Overlay.

(** ** The stages together, and the command line *)

Section Pipeline.
Context {F : Type} {scalar : Scalar F} {handler : CharucoBoardHandler F}
        {rodrigues : Rodrigues F} {project : ProjectPoints F}.

Lemma intrinsic_stage_writes (w : world F) (calibration_data out : string)
    (cm dc : ndarray F) (error : F) :
  handler_calibrate calibration_data false = Ret (cm, dc, error) ->
  out ∉ locked w ->
  calibrate_intrinsic_parameters calibration_data out w
  = (Ret tt, set_files (<[out := YDict (intrinsic_record cm dc)]> (files w)) w).
Proof.
  intros Hcal Hfree.
  rewrite (calibrate_intrinsic_parameters_run _ _ _ cm dc error Hcal).
  apply yaml_dump_file_writes. assumption.
Qed.

(** A block decodes whenever the data has as many elements as the two
    literals say; the result has the shape of the literals. *)
Lemma config_matrix_block_size (rows cols : Z) (m : ndarray F) :
  0 <= rows -> 0 <= cols ->
  (rows * cols = Z.of_nat (length (buf m)) ->
   config_matrix (matrix_block rows cols m)
   = Ret (mk_ndarray [rows; cols] (buf m)))
  /\ (rows * cols <> Z.of_nat (length (buf m)) ->
      config_matrix (matrix_block rows cols m) = Raise ValueError).
Proof.
  intros Hr Hc. rewrite config_matrix_matrix_block. split; intros Hn.
  - rewrite reshape_fits by (cbn; assumption). reflexivity.
  - apply reshape_misfit; cbn; assumption.
Qed.

(** X11.  The two stages compose: when the intrinsic stage has written its
    record for a 3x3 camera matrix and 1x5 distortion coefficients, the
    extrinsic stage run on that file hands exactly these two matrices to the
    board handler, and leaves a record of three blocks at the output path,
    each of which decodes to the matrix it was built from.  The output path
    may be the intrinsic file itself. *)
Theorem calibration_pipeline (w : world F)
    (views intrinsic_file image_path extrinsic_file : string)
    (impose_cube : bool) (cm dc rvec tvec : ndarray F) (error : F)
    (R : mat3 F) :
  handler_calibrate views false = Ret (cm, dc, error) ->
  wf_ndarray cm -> shape cm = [3; 3] ->
  wf_ndarray dc -> shape dc = [1; 5] ->
  handler_detect cm dc image_path false = Ret (rvec, tvec) ->
  cv2_Rodrigues rvec = Ret R ->
  wf_ndarray tvec -> shape tvec = [3; 1] ->
  intrinsic_file ∉ locked w -> extrinsic_file ∉ locked w ->
  let w1 := (calibrate_intrinsic_parameters views intrinsic_file w).2 in
  let w2 := (calibrate_extrinsic_parameters intrinsic_file image_path
               extrinsic_file impose_cube w1).2 in
  exists P : ndarray F,
    assemble_projection_matrix rvec tvec = Ret P
    /\ files w2 !! extrinsic_file
       = Some (YDict (<["projection_matrix" := matrix_block 4 4 P]>
                        (intrinsic_record cm dc)))
    /\ config_matrix (matrix_block 3 3 cm) = Ret cm
    /\ config_matrix (matrix_block 1 5 dc) = Ret dc
    /\ config_matrix (matrix_block 4 4 P) = Ret P
    /\ (intrinsic_file <> extrinsic_file ->
        files w2 !! intrinsic_file = Some (YDict (intrinsic_record cm dc))).
Proof.
  intros Hcal Hwcm Hscm Hwdc Hsdc Hdet HR Hwt Hst Hf1 Hf2 w1 w2.
  destruct (column3_elements tvec Hwt Hst) as (t0 & t1 & t2 & Hb).
  destruct R as [[[[r00 r01] r02] [[r10 r11] r12]] [[r20 r21] r22]].
  pose proof (assemble_projection_matrix_eq rvec tvec _ _ _ _ _ _ _ _ _
                t0 t1 t2 HR Hst Hb) as HP.
  set (P := mk_ndarray [4; 4] _) in HP.
  pose proof (config_matrix_decodes cm 3 3 Hwcm Hscm) as Hdcm.
  pose proof (config_matrix_decodes dc 1 5 Hwdc Hsdc) as Hddc.
  assert (HdP : config_matrix (matrix_block 4 4 P) = Ret P).
  { apply config_matrix_decodes; [|reflexivity].
    split; [repeat constructor; discriminate|reflexivity]. }
  assert (Hw1 : w1 = set_files
                       (<[intrinsic_file := YDict (intrinsic_record cm dc)]>
                          (files w)) w).
  { subst w1. rewrite (intrinsic_stage_writes w _ _ cm dc error Hcal Hf1).
    reflexivity. }
  assert (Hw2 : files w2
                = <[extrinsic_file :=
                      YDict (<["projection_matrix" := matrix_block 4 4 P]>
                               (intrinsic_record cm dc))]> (files w1)).
  { subst w2.
    rewrite (calibrate_extrinsic_parameters_run w1 _ _ _ impose_cube
               (intrinsic_record cm dc) (matrix_block 3 3 cm)
               (matrix_block 1 5 dc) cm dc rvec tvec P).
    - cbv zeta. destruct impose_cube; [|reflexivity].
      rewrite impose_cube_on_image_files. reflexivity.
    - rewrite Hw1. cbn. apply lookup_insert_eq.
    - reflexivity.
    - exact Hdcm.
    - reflexivity.
    - exact Hddc.
    - exact Hdet.
    - exact HP.
    - rewrite Hw1. exact Hf2. }
  exists P. split; [exact HP|]. rewrite Hw2.
  split; [apply lookup_insert_eq|]. split; [exact Hdcm|].
  split; [exact Hddc|]. split; [exact HdP|].
  intros Hne. rewrite lookup_insert_ne by congruence.
  rewrite Hw1. cbn. apply lookup_insert_eq.
Qed.

(** X12.  The shape of a block is written as two literals, whatever the
    matrix: when the board handler returns a camera matrix that has not 9
    elements, or distortion coefficients that have not 5, the intrinsic
    stage writes its file all the same, and the extrinsic stage then fails
    on that file with [ValueError], before the board handler is consulted,
    and writes nothing. *)
Theorem literal_shape_mismatch (w : world F)
    (views intrinsic_file image_path extrinsic_file : string)
    (impose_cube : bool) (cm dc : ndarray F) (error : F) :
  handler_calibrate views false = Ret (cm, dc, error) ->
  intrinsic_file ∉ locked w ->
  length (buf cm) <> 9%nat \/ length (buf dc) <> 5%nat ->
  let run1 := calibrate_intrinsic_parameters views intrinsic_file w in
  run1.1 = Ret tt
  /\ files run1.2 !! intrinsic_file = Some (YDict (intrinsic_record cm dc))
  /\ calibrate_extrinsic_parameters intrinsic_file image_path extrinsic_file
       impose_cube run1.2
     = (Raise ValueError, run1.2).
Proof.
  intros Hcal Hfree Hsize. cbv zeta.
  rewrite (intrinsic_stage_writes w _ _ cm dc error Hcal Hfree).
  cbn [fst snd]. split; [reflexivity|].
  split; [cbn; apply lookup_insert_eq|].
  unfold calibrate_extrinsic_parameters.
  unfold mbind at 1, M_bind at 1, bind at 1, yaml_safe_load_file at 1.
  cbn [files set_files]. rewrite lookup_insert_eq.
  change (dict_getitem (YDict (intrinsic_record cm dc)) "camera_matrix")
    with (Ret (matrix_block 3 3 cm)).
  rewrite bind_lift_ret.
  destruct (config_matrix_block_size 3 3 cm) as [Hok Hbad]; [lia|lia|].
  destruct (Nat.eq_dec (length (buf cm)) 9%nat) as [H9|H9].
  - rewrite Hok by lia. rewrite bind_lift_ret.
    change (dict_getitem (YDict (intrinsic_record cm dc))
              "distortion_coefficients")
      with (Ret (matrix_block 1 5 dc)).
    rewrite bind_lift_ret.
    destruct (config_matrix_block_size 1 5 dc) as [_ Hbad5]; [lia|lia|].
    rewrite Hbad5 by lia. reflexivity.
  - rewrite Hbad by lia. reflexivity.
Qed.
End Pipeline.

Section CommandLine.
Context {F : Type} {scalar : Scalar F} {handler : CharucoBoardHandler F}
        {rodrigues : Rodrigues F} {project : ProjectPoints F}.

(** X13.  An option that the action needs and that is missing, or given
    as the empty string, makes [main] raise [RuntimeError] with the message
    of the first such option, in the order of the source, before any stage
    runs: the world is untouched. *)
Theorem main_missing_options (args : Namespace) (w : world F) :
  (action args = "intrinsic_calibration" ->
   (given (intrinsic_calibration_filename args) = None ->
    calibrate_cameras_main args w
    = (RuntimeError "intrinsic_calibration_filename not specified.", w))
   /\ (given (intrinsic_calibration_filename args) <> None ->
       given (calibration_data args) = None ->
       calibrate_cameras_main args w
       = (RuntimeError "calibration_data not specified.", w)))
  /\ (action args = "extrinsic_calibration" ->
      (given (intrinsic_calibration_filename args) = None ->
       calibrate_cameras_main args w
       = (RuntimeError "intrinsic_calibration_filename not specified.", w))
      /\ (given (intrinsic_calibration_filename args) <> None ->
          given (extrinsic_calibration_filename args) = None ->
          calibrate_cameras_main args w
          = (RuntimeError "extrinsic_calibration_filename not specified.", w))
      /\ (given (intrinsic_calibration_filename args) <> None ->
          given (extrinsic_calibration_filename args) <> None ->
          given (image_view_filename args) = None ->
          calibrate_cameras_main args w
          = (RuntimeError "image_view_filename not specified.", w)))
  /\ given None = None /\ given (Some "") = None.
Proof.
  unfold calibrate_cameras_main. split; [|split; [|split; reflexivity]].
  - intros ->. cbn. split.
    + intros ->. reflexivity.
    + intros H1 ->. destruct (given (intrinsic_calibration_filename args));
        [reflexivity|contradiction].
  - intros ->. cbn. split; [|split].
    + intros ->. reflexivity.
    + intros H1 ->. destruct (given (intrinsic_calibration_filename args));
        [reflexivity|contradiction].
    + intros H1 H2 ->.
      destruct (given (intrinsic_calibration_filename args));
        [|contradiction].
      destruct (given (extrinsic_calibration_filename args));
        [reflexivity|contradiction].
Qed.

(** With its options given, an action runs its stage and nothing else: the
    intrinsic calibration is run on the data directory and the intrinsic
    file, whatever the other two options are; the extrinsic calibration is
    run on the intrinsic file, the image and the extrinsic file, always with
    the overlay, whatever the data directory. *)
Lemma main_runs_stage (args : Namespace) (w : world F)
    (results_file data extrinsic_file image : string) :
  (action args = "intrinsic_calibration" ->
   given (intrinsic_calibration_filename args) = Some results_file ->
   given (calibration_data args) = Some data ->
   calibrate_cameras_main args w
   = (Ran (calibrate_intrinsic_parameters data results_file w).1,
      (calibrate_intrinsic_parameters data results_file w).2))
  /\ (action args = "extrinsic_calibration" ->
      given (intrinsic_calibration_filename args) = Some results_file ->
      given (extrinsic_calibration_filename args) = Some extrinsic_file ->
      given (image_view_filename args) = Some image ->
      calibrate_cameras_main args w
      = (Ran (calibrate_extrinsic_parameters results_file image
                extrinsic_file true w).1,
         (calibrate_extrinsic_parameters results_file image
            extrinsic_file true w).2)).
Proof.
  unfold calibrate_cameras_main. split.
  - intros -> -> ->. cbn.
    destruct (calibrate_intrinsic_parameters data results_file w).
    reflexivity.
  - intros -> -> -> ->. cbn.
    destruct (calibrate_extrinsic_parameters results_file image
                extrinsic_file true w).
    reflexivity.
Qed.

(** *** What a run can touch *)

Lemma touches_only_bind {A B : Type} (out : string) (m : M (world F) A)
    (k : A -> M (world F) B) :
  touches_only out m -> (forall a, touches_only out (k a)) ->
  touches_only out (mbind k m).
Proof.
  intros Hm Hk w. unfold mbind, M_bind, bind.
  specialize (Hm w). destruct (m w) as [[a|e|] w1]; cbn in *;
    [|assumption|assumption].
  destruct Hm as (Hl & Hp & Hpr & Hf).
  destruct (Hk a w1) as (Hl' & Hp' & Hpr' & Hf').
  repeat split; try congruence.
  intros p Hne. rewrite Hf', Hf by assumption. reflexivity.
Qed.

Lemma touches_only_lift {A : Type} (out : string) (o : outcome A) :
  touches_only (F := F) out (lift o).
Proof. intros w. cbn. auto. Qed.

Lemma touches_only_load (out path : string) :
  touches_only (F := F) out (yaml_safe_load_file path).
Proof.
  intros w. unfold yaml_safe_load_file.
  destruct (files w !! path); cbn; auto.
Qed.

Lemma touches_only_dump (v : yaml F) (out : string) :
  touches_only out (yaml_dump_file v out).
Proof.
  intros w. unfold yaml_dump_file, mbind, M_bind, bind, open_w, modify.
  destruct (decide (out ∈ locked w)); cbn; [auto|].
  repeat split. intros p Hne.
  rewrite !lookup_insert_ne by congruence. reflexivity.
Qed.

Lemma touches_only_overlay (out image_filename : string)
    (rvec tvec camera_matrix dist_coeffs : ndarray F) :
  touches_only out (impose_cube_on_image image_filename rvec tvec
                      camera_matrix dist_coeffs).
Proof.
  intros w.
  destruct (impose_cube_on_image_frame image_filename rvec tvec camera_matrix
              dist_coeffs w) as (Hf & Hl & Hp & Hpr).
  repeat split; try assumption. intros p _. rewrite Hf. reflexivity.
Qed.

Lemma intrinsic_stage_touches_only (calibration_data out : string) :
  touches_only out (calibrate_intrinsic_parameters calibration_data out).
Proof.
  unfold calibrate_intrinsic_parameters.
  apply touches_only_bind; [apply touches_only_lift|intros [[cm dc] error]].
  apply touches_only_bind; [apply touches_only_lift|intros camera_info].
  apply touches_only_dump.
Qed.

Lemma extrinsic_stage_touches_only
    (intrinsic_path image_path out : string) (impose_cube : bool) :
  touches_only out (calibrate_extrinsic_parameters intrinsic_path image_path
                      out impose_cube).
Proof.
  unfold calibrate_extrinsic_parameters.
  apply touches_only_bind; [apply touches_only_load|intros calibration_data].
  do 4 (apply touches_only_bind; [apply touches_only_lift|intros ?]).
  apply touches_only_bind; [apply touches_only_lift|intros [rvec tvec]].
  do 2 (apply touches_only_bind; [apply touches_only_lift|intros ?]).
  apply touches_only_bind; [apply touches_only_dump|intros _].
  destruct impose_cube; [apply touches_only_overlay|].
  intros w. cbn. auto.
Qed.

(** X14.  What [main] can touch: whatever the arguments and the world, a
    run of [main] changes at most one file, the one that the option of its
    action names as the output, the intrinsic file for the intrinsic
    calibration and the extrinsic file for the extrinsic calibration, and
    then all the options of the action were given; it never changes which
    files are writable or readable, and prints nothing. *)
Theorem main_touches_only_output (args : Namespace) (w : world F) :
  let w' := (calibrate_cameras_main args w).2 in
  locked w' = locked w /\ pictures w' = pictures w
  /\ printed w' = printed w
  /\ forall p : string,
       files w' !! p <> files w !! p ->
       (action args = "intrinsic_calibration"
        /\ given (intrinsic_calibration_filename args) = Some p
        /\ given (calibration_data args) <> None)
       \/ (action args = "extrinsic_calibration"
           /\ given (extrinsic_calibration_filename args) = Some p
           /\ given (intrinsic_calibration_filename args) <> None
           /\ given (image_view_filename args) <> None).
Proof.
  cbv zeta. unfold calibrate_cameras_main.
  destruct (bool_decide (action args = "intrinsic_calibration")) eqn:Hi.
  - apply bool_decide_eq_true in Hi.
    destruct (given (intrinsic_calibration_filename args))
      as [results_file|]; [|cbn; repeat split; intros p []; reflexivity].
    destruct (given (calibration_data args)) as [data|];
      [|cbn; repeat split; intros p []; reflexivity].
    destruct (intrinsic_stage_touches_only data results_file w)
      as (Hl & Hp & Hpr & Hf).
    destruct (calibrate_intrinsic_parameters data results_file w) as [o w'].
    cbn in *. repeat split; try assumption.
    intros p Hdiff. left. split; [assumption|]. split; [|discriminate].
    destruct (decide (p = results_file)) as [->|Hne]; [reflexivity|].
    destruct Hdiff. apply Hf. assumption.
  - destruct (bool_decide (action args = "extrinsic_calibration")) eqn:He;
      [|cbn; repeat split; intros p []; reflexivity].
    apply bool_decide_eq_true in He.
    destruct (given (intrinsic_calibration_filename args))
      as [results_file|]; [|cbn; repeat split; intros p []; reflexivity].
    destruct (given (extrinsic_calibration_filename args))
      as [extrinsic_file|]; [|cbn; repeat split; intros p []; reflexivity].
    destruct (given (image_view_filename args)) as [image|];
      [|cbn; repeat split; intros p []; reflexivity].
    destruct (extrinsic_stage_touches_only results_file image
                extrinsic_file true w) as (Hl & Hp & Hpr & Hf).
    destruct (calibrate_extrinsic_parameters results_file image
                extrinsic_file true w) as [o w'].
    cbn in *. repeat split; try assumption.
    intros p Hdiff. right. split; [assumption|].
    split; [|split; discriminate].
    destruct (decide (p = extrinsic_file)) as [->|Hne]; [reflexivity|].
    destruct Hdiff. apply Hf. assumption.
Qed.
End CommandLine.

(** ** Runs of the log viewer *)

Section ViewerRuns.
Context {reader : LogReader}.

(** X15.  Playback: on a log whose interval in milliseconds is positive and
    fits the C [int] that [cv2.waitKey] takes, with no quit key among the
    keys that are pressed, [main] first reports
    the number of frame sets, the interval and the rate [1000 / interval],
    then shows every frame set of the log, in order, each as the images of
    cameras 0, 1 and 2 in the windows of camera 180, 300 and 60, polling the
    keyboard once per frame set, and returns. *)
Theorem viewer_plays_every_frame (filename : string) (w : viewer_world)
    (data : list TriCameraObservation) (ms : Z) :
  log_reader_data filename = Ret data ->
  interval_ms data = Ret ms -> 0 < ms <= 2147483647 ->
  Forall (fun o => length (cameras o) = 3%nat) data ->
  Forall (fun k => k <> 113 /\ k <> 27) (viewer_keys w) ->
  exists fps : float,
    int_truediv 1000 ms = Ret fps
    /\ main filename w
       = (Ret tt,
          mk_viewer_world (drop (length data) (viewer_keys w))
            (viewer_trace w
             ++ Printed (Z.of_nat (length data)) ms fps
                :: concat (frame_events <$> data))).
Proof.
  intros Hdata Hms Hpos Hwf Hkeys.
  destruct (int_truediv_1000 ms) as [fps Hfps]; [lia|].
  exists fps. split; [exact Hfps|].
  apply main_plays_every_frame; assumption.
Qed.

(** The loop, when the key after frame set [j] is a quit key. *)
Lemma play_until_quit (interval : Z) (data : list TriCameraObservation) :
  0 < interval <= 2147483647 ->
  Forall (fun o => length (cameras o) = 3%nat) data ->
  forall (w : viewer_world) (before : list Z) (k : Z) (after : list Z),
    viewer_keys w = before ++ k :: after ->
    Forall (fun k => k <> 113 /\ k <> 27) before ->
    k = 113 \/ k = 27 ->
    (length before < length data)%nat ->
    play interval data w
    = (Ret tt,
       mk_viewer_world after
         (viewer_trace w
          ++ concat (frame_events <$> take (S (length before)) data))).
Proof.
  intros [Hpos Hint] Hwf. induction Hwf as [|o data' Ho Hwf IH];
    intros w before k after Hkeys Hbefore Hk Hlen; [cbn in Hlen; lia|].
  destruct o as [cams]. cbn in Ho.
  destruct cams as [|c0 [|c1 [|c2 [|c3 cams]]]]; try discriminate Ho.
  cbn [play].
  unfold mbind at 1, M_bind at 1, bind at 1.
  rewrite (show_camera_shows _ _ 0 c0) by reflexivity.
  unfold mbind at 1, M_bind at 1, bind at 1.
  rewrite (show_camera_shows _ _ 1 c1) by reflexivity.
  unfold mbind at 1, M_bind at 1, bind at 1.
  rewrite (show_camera_shows _ _ 2 c2) by reflexivity.
  unfold mbind at 1, M_bind at 1, bind at 1.
  unfold cv2_waitKey. rewrite c_int_fits by lia. cbn [negb].
  rewrite (proj2 (Z.ltb_lt 0 interval) Hpos).
  cbn [viewer_keys viewer_trace]. rewrite Hkeys.
  destruct before as [|b before'].
  - cbn [app length take].
    rewrite bool_decide_eq_true_2
      by (rewrite !elem_of_cons; destruct Hk; auto).
    unfold mret, M_ret, ret. cbn [fmap list_fmap concat].
    unfold frame_events. cbn [cameras]. rewrite app_nil_r, <- !app_assoc.
    reflexivity.
  - inversion Hbefore as [|? ? [Hq Hesc] Hbefore']; subst.
    cbn [app].
    rewrite bool_decide_eq_false_2
      by (rewrite !elem_of_cons, elem_of_nil; lia).
    rewrite (IH _ before' k after) by (cbn in *; first [reflexivity|assumption|lia]).
    cbn [viewer_trace length take fmap list_fmap concat].
    unfold frame_events at 2. cbn [cameras].
    rewrite <- !app_assoc. reflexivity.
Qed.

(** X16.  Quitting, on a log whose interval is positive and fits a C
    [int]: when [q] or ESC is the key polled after frame set [j], no quit
    key having been polled before, [main] shows the frame sets up to and
    including [j], none after it, and returns; the keys that follow are
    left unread. *)
Theorem viewer_stops_at_quit_key (filename : string) (w : viewer_world)
    (data : list TriCameraObservation) (ms : Z)
    (before : list Z) (k : Z) (after : list Z) :
  log_reader_data filename = Ret data ->
  interval_ms data = Ret ms -> 0 < ms <= 2147483647 ->
  Forall (fun o => length (cameras o) = 3%nat) data ->
  viewer_keys w = before ++ k :: after ->
  Forall (fun k => k <> 113 /\ k <> 27) before ->
  k = 113 \/ k = 27 ->
  (length before < length data)%nat ->
  exists fps : float,
    int_truediv 1000 ms = Ret fps
    /\ main filename w
       = (Ret tt,
          mk_viewer_world after
            (viewer_trace w
             ++ Printed (Z.of_nat (length data)) ms fps
                :: concat (frame_events
                             <$> take (S (length before)) data))).
Proof.
  intros Hdata Hms Hpos Hwf Hkeys Hbefore Hk Hlen.
  destruct (int_truediv_1000 ms) as [fps Hfps]; [lia|].
  exists fps. split; [exact Hfps|]. unfold main.
  rewrite Hdata, bind_lift_ret, Hms, bind_lift_ret, Hfps, bind_lift_ret.
  unfold mbind at 1, M_bind at 1, bind at 1, emit, modify.
  rewrite (play_until_quit ms data Hpos Hwf _ before k after)
    by (cbn; assumption).
  cbn [viewer_trace]. rewrite <- app_assoc. reflexivity.
Qed.

Lemma next_key_never (ks : list Z) :
  Forall (fun k => k = -1) ks -> next_key ks = Blocked.
Proof.
  induction 1 as [|k ks -> _ IH]; [reflexivity|]. cbn. exact IH.
Qed.

(** X17.  A log whose last reference time stamp lies before the first
    gives a negative interval.  When it fits a C [int], [cv2.waitKey] takes
    it as a request to wait for a key after each frame set: when no key is
    pressed the viewer shows the first frame set and never gets to the
    second. *)
Theorem viewer_waits_on_negative_interval (filename : string)
    (w : viewer_world) (first : TriCameraObservation)
    (others : list TriCameraObservation) (ms : Z) :
  log_reader_data filename = Ret (first :: others) ->
  interval_ms (first :: others) = Ret ms -> -2147483648 <= ms < 0 ->
  length (cameras first) = 3%nat ->
  Forall (fun k => k = -1) (viewer_keys w) ->
  exists fps : float,
    int_truediv 1000 ms = Ret fps
    /\ main filename w
       = (Blocked,
          mk_viewer_world []
            (viewer_trace w
             ++ Printed (Z.of_nat (length (first :: others))) ms fps
                :: frame_events first)).
Proof.
  intros Hdata Hms Hneg Hcams Hkeys.
  destruct (int_truediv_1000 ms) as [fps Hfps]; [lia|].
  exists fps. split; [exact Hfps|]. unfold main.
  rewrite Hdata, bind_lift_ret, Hms, bind_lift_ret, Hfps, bind_lift_ret.
  unfold mbind at 1, M_bind at 1, bind at 1, emit, modify.
  destruct first as [cams]. cbn in Hcams.
  destruct cams as [|c0 [|c1 [|c2 [|c3 cams]]]]; try discriminate Hcams.
  cbn [play].
  unfold mbind at 1, M_bind at 1, bind at 1.
  rewrite (show_camera_shows _ _ 0 c0) by reflexivity.
  unfold mbind at 1, M_bind at 1, bind at 1.
  rewrite (show_camera_shows _ _ 1 c1) by reflexivity.
  unfold mbind at 1, M_bind at 1, bind at 1.
  rewrite (show_camera_shows _ _ 2 c2) by reflexivity.
  unfold mbind at 1, M_bind at 1, bind at 1.
  unfold cv2_waitKey. rewrite c_int_fits by lia. cbn [negb].
  destruct (Z.ltb_spec 0 ms) as [|_]; [lia|].
  cbn [viewer_keys viewer_trace]. rewrite next_key_never by assumption.
  unfold frame_events. cbn [cameras]. rewrite <- !app_assoc. reflexivity.
Qed.

(** X20.  An interval that does not fit the C [int] that [cv2.waitKey]
    takes, which needs time stamps some 25 days apart per frame set: [main]
    prints its message, shows the first frame set, and fails in the first
    [cv2.waitKey]; no key is read and no other frame set is shown. *)
Theorem viewer_interval_out_of_range (filename : string)
    (w : viewer_world) (first : TriCameraObservation)
    (others : list TriCameraObservation) (ms : Z) :
  log_reader_data filename = Ret (first :: others) ->
  interval_ms (first :: others) = Ret ms ->
  ms < -2147483648 \/ 2147483647 < ms ->
  length (cameras first) = 3%nat ->
  exists fps : float,
    int_truediv 1000 ms = Ret fps
    /\ main filename w
       = (Raise (External "cv2.waitKey"),
          mk_viewer_world (viewer_keys w)
            (viewer_trace w
             ++ Printed (Z.of_nat (length (first :: others))) ms fps
                :: frame_events first)).
Proof.
  intros Hdata Hms Hrange Hcams.
  destruct (int_truediv_1000 ms) as [fps Hfps]; [lia|].
  exists fps. split; [exact Hfps|]. unfold main.
  rewrite Hdata, bind_lift_ret, Hms, bind_lift_ret, Hfps, bind_lift_ret.
  unfold mbind at 1, M_bind at 1, bind at 1, emit, modify.
  destruct first as [cams]. cbn in Hcams.
  destruct cams as [|c0 [|c1 [|c2 [|c3 cams]]]]; try discriminate Hcams.
  cbn [play].
  unfold mbind at 1, M_bind at 1, bind at 1.
  rewrite (show_camera_shows _ _ 0 c0) by reflexivity.
  unfold mbind at 1, M_bind at 1, bind at 1.
  rewrite (show_camera_shows _ _ 1 c1) by reflexivity.
  unfold mbind at 1, M_bind at 1, bind at 1.
  rewrite (show_camera_shows _ _ 2 c2) by reflexivity.
  unfold mbind at 1, M_bind at 1, bind at 1.
  unfold cv2_waitKey. rewrite c_int_misfit by assumption. cbn [negb].
  cbn [viewer_keys viewer_trace].
  unfold frame_events. cbn [cameras]. rewrite <- !app_assoc. reflexivity.
Qed.

Lemma reference_timestamp_length (data : list TriCameraObservation) (i : Z)
    (t : float) :
  reference_timestamp data i = Ret t -> Z.of_nat (length data) <> 0.
Proof.
  intros Ht. destruct (reference_timestamp_nonempty data i t Ht) as [p ->].
  discriminate.
Qed.

(** X18.  A NaN among the two reference time stamps: the interval is NaN,
    its conversion to an integer raises [ValueError], and [main] fails
    with it before anything is printed or shown. *)
Theorem viewer_nan_timestamp (filename : string) (w : viewer_world)
    (data : list TriCameraObservation) (t0 tN : float) :
  log_reader_data filename = Ret data ->
  reference_timestamp data 0 = Ret t0 ->
  reference_timestamp data (-1) = Ret tN ->
  Prim2SF t0 = S754_nan \/ Prim2SF tN = S754_nan ->
  interval_ms data = Raise ValueError
  /\ main filename w = (Raise ValueError, w).
Proof.
  intros Hdata H0 HN Hnan.
  assert (Hms : interval_ms data = Raise ValueError).
  { unfold interval_ms, interval_seconds. rewrite H0, HN.
    cbn [mbind outcome_bind]. unfold float_div_int.
    rewrite (proj2 (Z.eqb_neq _ 0) (reference_timestamp_length data 0 t0 H0)).
    cbn [mbind outcome_bind]. unfold py_int.
    rewrite mul_spec, div_spec, sub_spec.
    assert (Hsub : SF64sub (Prim2SF tN) (Prim2SF t0) = S754_nan).
    { destruct Hnan as [-> | ->]; [|reflexivity].
      destruct (Prim2SF tN); reflexivity. }
    rewrite Hsub. reflexivity. }
  split; [exact Hms|]. unfold main.
  rewrite Hdata, bind_lift_ret, Hms. reflexivity.
Qed.
End ViewerRuns.

(** ** Running a stage again *)

Section Rerun.
Context {F : Type} {scalar : Scalar F} {handler : CharucoBoardHandler F}
        {rodrigues : Rodrigues F} {project : ProjectPoints F}.

(** X19.  Running the extrinsic stage again, on the file that it wrote,
    replaces the projection block: the record keeps one [projection_matrix]
    block, and with the same pose the file is the same as after the first
    run. *)
Theorem extrinsic_stage_rerun (w : world F)
    (intrinsic_path image_path output_path : string)
    (impose_cube again : bool)
    (d : gmap string (yaml F)) (bcm bdc : yaml F)
    (cm dc rvec tvec P : ndarray F) :
  files w !! intrinsic_path = Some (YDict d) ->
  d !! "camera_matrix" = Some bcm -> config_matrix bcm = Ret cm ->
  d !! "distortion_coefficients" = Some bdc -> config_matrix bdc = Ret dc ->
  handler_detect cm dc image_path false = Ret (rvec, tvec) ->
  assemble_projection_matrix rvec tvec = Ret P ->
  output_path ∉ locked w ->
  let w1 := (calibrate_extrinsic_parameters intrinsic_path image_path
               output_path impose_cube w).2 in
  let w2 := (calibrate_extrinsic_parameters output_path image_path
               output_path again w1).2 in
  files w2 = files w1
  /\ files w2 !! output_path
     = Some (YDict (<["projection_matrix" := matrix_block 4 4 P]> d)).
Proof.
  intros Hfile Hbcm Hcm Hbdc Hdc Hdet HP Hfree w1 w2.
  set (d1 := <["projection_matrix" := matrix_block 4 4 P]> d).
  assert (Hw1 : files w1 = <[output_path := YDict d1]> (files w)
                /\ locked w1 = locked w).
  { subst w1.
    rewrite (calibrate_extrinsic_parameters_run w _ _ _ impose_cube d bcm bdc
               cm dc rvec tvec P Hfile Hbcm Hcm Hbdc Hdc Hdet HP Hfree).
    cbv zeta. destruct impose_cube; [|split; reflexivity].
    destruct (impose_cube_on_image_frame image_path rvec tvec cm dc
                (set_files (<[output_path := YDict d1]> (files w)) w))
      as (Hf & Hl & _).
    split; assumption. }
  destruct Hw1 as [Hf1 Hl1].
  assert (Hw2 : files w2 = <[output_path :=
                               YDict (<["projection_matrix" :=
                                          matrix_block 4 4 P]> d1)]>
                             (files w1)).
  { subst w2.
    rewrite (calibrate_extrinsic_parameters_run w1 _ _ _ again d1 bcm bdc
               cm dc rvec tvec P).
    - cbv zeta. destruct again; [|reflexivity].
      rewrite impose_cube_on_image_files. reflexivity.
    - rewrite Hf1. apply lookup_insert_eq.
    - subst d1. rewrite lookup_insert_ne by discriminate. exact Hbcm.
    - exact Hcm.
    - subst d1. rewrite lookup_insert_ne by discriminate. exact Hbdc.
    - exact Hdc.
    - exact Hdet.
    - exact HP.
    - rewrite Hl1. exact Hfree. }
  assert (Hsame : files w2 = files w1).
  { rewrite Hw2, Hf1. subst d1. rewrite !insert_insert_eq. reflexivity. }
  split; [exact Hsame|]. rewrite Hsame, Hf1. apply lookup_insert_eq.
Qed.
End Rerun.

(** * The further properties at concrete inputs *)

Lemma config_matrix_returns_matrix_witness :
  wf_ndarray (mk_ndarray [2; 4] [1; 2; 3; 4; 5; 6; 7; 8]%float).
Proof.
  exact (proj1 (config_matrix_returns_matrix (YDict inferred_block)
                  (mk_ndarray [2; 4] [1; 2; 3; 4; 5; 6; 7; 8]%float)
                  eq_refl)).
Defined.

Lemma extrinsic_stage_all_or_nothing_witness :
  let run := calibrate_extrinsic_parameters
               (handler := example_handler 0.5)
               (rodrigues := example_Rodrigues)
               (project := example_ProjectPoints)
               "intrinsic.yml" "board.png" "extrinsic.yml" true
               example_world in
  (run.2 = example_world /\ run.1 <> Ret tt)
  \/ (exists (d : gmap string (yaml float)) (P : ndarray float),
        files example_world !! "intrinsic.yml" = Some (YDict d)
        /\ ("extrinsic.yml" ∉ locked example_world)
        /\ files run.2
           = <["extrinsic.yml" :=
                 YDict (<["projection_matrix" := matrix_block 4 4 P]> d)]>
               (files example_world)
        /\ locked run.2 = locked example_world
        /\ pictures run.2 = pictures example_world
        /\ printed run.2 = printed example_world).
Proof.
  cbv zeta.
  apply (extrinsic_stage_all_or_nothing (handler := example_handler 0.5)
           (rodrigues := example_Rodrigues)
           (project := example_ProjectPoints)
           example_world "intrinsic.yml" "board.png" "extrinsic.yml" true).
  apply surjective_pairing.
Defined.

Lemma extrinsic_stage_decode_and_detect_errors_witness :
  calibrate_extrinsic_parameters (handler := blind_handler)
    (rodrigues := example_Rodrigues) (project := example_ProjectPoints)
    "intrinsic.yml" "board.png" "extrinsic.yml" true example_world
  = (Raise (External "BoardNotDetected"), example_world).
Proof.
  refine (proj2 (proj2 (extrinsic_stage_decode_and_detect_errors
                          (handler := blind_handler)
                          (rodrigues := example_Rodrigues)
                          (project := example_ProjectPoints)
                          example_world "intrinsic.yml" "board.png"
                          "extrinsic.yml" true example_record
                          (matrix_block 3 3 example_camera_matrix)
                          (External "BoardNotDetected") eq_refl eq_refl))
            example_camera_matrix example_dist_coeffs
            (matrix_block 1 5 example_dist_coeffs) _ _ _ _);
    reflexivity.
Defined.

Lemma extrinsic_stage_output_locked_witness :
  calibrate_extrinsic_parameters (handler := example_handler 0.5)
    (rodrigues := example_Rodrigues) (project := example_ProjectPoints)
    "intrinsic.yml" "board.png" "extrinsic.yml" true locked_world
  = (Raise (OSError "extrinsic.yml"), locked_world).
Proof.
  eapply (extrinsic_stage_output_locked (handler := example_handler 0.5)
            (rodrigues := example_Rodrigues)
            (project := example_ProjectPoints)
            locked_world "intrinsic.yml" "board.png" "extrinsic.yml" true
            example_record
            (matrix_block 3 3 example_camera_matrix)
            (matrix_block 1 5 example_dist_coeffs)
            example_camera_matrix example_dist_coeffs
            example_rvec example_tvec);
    try reflexivity; apply elem_of_singleton; reflexivity.
Defined.

Lemma extrinsic_stage_unreadable_image_witness :
  (calibrate_extrinsic_parameters (handler := example_handler 0.5)
     (rodrigues := example_Rodrigues) (project := example_ProjectPoints)
     "intrinsic.yml" "board.png" "extrinsic.yml" true dark_world).1
  = Raise (External "cv2.line").
Proof.
  erewrite (extrinsic_stage_unreadable_image (handler := example_handler 0.5)
              (rodrigues := example_Rodrigues)
              (project := example_ProjectPoints)
              dark_world "intrinsic.yml" "board.png" "extrinsic.yml"
              example_record
              (matrix_block 3 3 example_camera_matrix)
              (matrix_block 1 5 example_dist_coeffs)
              example_camera_matrix example_dist_coeffs
              example_rvec example_tvec _
              example_point example_point example_point example_point
              example_point example_point example_point example_point);
    try reflexivity; apply not_elem_of_empty.
Defined.

Lemma extrinsic_stage_without_overlay_witness :
  (calibrate_extrinsic_parameters (handler := example_handler 0.5)
     (rodrigues := example_Rodrigues) (project := example_ProjectPoints)
     "intrinsic.yml" "board.png" "extrinsic.yml" false example_world).1
  = Ret tt.
Proof.
  eapply (extrinsic_stage_without_overlay (handler := example_handler 0.5)
            (rodrigues := example_Rodrigues)
            (project := example_ProjectPoints)
            example_world "intrinsic.yml" "board.png" "extrinsic.yml"
            example_record
            (matrix_block 3 3 example_camera_matrix)
            (matrix_block 1 5 example_dist_coeffs)
            example_camera_matrix example_dist_coeffs
            example_rvec example_tvec);
    try reflexivity; apply not_elem_of_empty.
Defined.

Lemma calibration_pipeline_witness :
  let w1 := (calibrate_intrinsic_parameters (handler := example_handler 0.5)
               "views" "intrinsic.yml" example_world).2 in
  let w2 := (calibrate_extrinsic_parameters (handler := example_handler 0.5)
               (rodrigues := example_Rodrigues)
               (project := example_ProjectPoints)
               "intrinsic.yml" "board.png" "extrinsic.yml" true w1).2 in
  exists P : ndarray float,
    assemble_projection_matrix (rodrigues := example_Rodrigues)
      example_rvec example_tvec = Ret P
    /\ files w2 !! "extrinsic.yml"
       = Some (YDict (<["projection_matrix" := matrix_block 4 4 P]>
                        (intrinsic_record example_camera_matrix
                           example_dist_coeffs)))
    /\ config_matrix (matrix_block 3 3 example_camera_matrix)
       = Ret example_camera_matrix
    /\ config_matrix (matrix_block 1 5 example_dist_coeffs)
       = Ret example_dist_coeffs
    /\ config_matrix (matrix_block 4 4 P) = Ret P
    /\ ("intrinsic.yml" <> "extrinsic.yml" ->
        files w2 !! "intrinsic.yml"
        = Some (YDict (intrinsic_record example_camera_matrix
                         example_dist_coeffs))).
Proof.
  apply (calibration_pipeline (handler := example_handler 0.5)
           (rodrigues := example_Rodrigues)
           (project := example_ProjectPoints)
           example_world "views" "intrinsic.yml" "board.png" "extrinsic.yml"
           true example_camera_matrix example_dist_coeffs
           example_rvec example_tvec 0.5%float float_identity);
    first [reflexivity | apply not_elem_of_empty
          | split; [repeat constructor; discriminate | reflexivity]].
Defined.

Lemma literal_shape_mismatch_witness :
  let run1 := calibrate_intrinsic_parameters (handler := wide_handler)
                "views" "intrinsic.yml" example_world in
  run1.1 = Ret tt
  /\ files run1.2 !! "intrinsic.yml"
     = Some (YDict (intrinsic_record example_camera_matrix
                      (mk_ndarray [1; 8]
                         [0.5; 0.25; 0; 0; 0.125; 0; 0; 0]%float)))
  /\ calibrate_extrinsic_parameters (handler := wide_handler)
       (rodrigues := example_Rodrigues) (project := example_ProjectPoints)
       "intrinsic.yml" "board.png" "extrinsic.yml" true run1.2
     = (Raise ValueError, run1.2).
Proof.
  apply (literal_shape_mismatch (handler := wide_handler)
           (rodrigues := example_Rodrigues)
           (project := example_ProjectPoints)
           example_world "views" "intrinsic.yml" "board.png" "extrinsic.yml"
           true example_camera_matrix
           (mk_ndarray [1; 8] [0.5; 0.25; 0; 0; 0.125; 0; 0; 0]%float)
           0.5%float).
  - reflexivity.
  - apply not_elem_of_empty.
  - right. cbn. discriminate.
Defined.

Lemma viewer_plays_every_frame_witness :
  exists fps : float,
    int_truediv 1000 333 = Ret fps
    /\ main (reader := example_log) "log.dat"
         (mk_viewer_world [-1; 97; -1; 5] [])
       = (Ret tt,
          mk_viewer_world [5]
            (Printed 3 333 fps
             :: concat (frame_events <$> [example_frame 0; example_frame 0.5;
                                          example_frame 1]%float))).
Proof.
  apply (viewer_plays_every_frame (reader := example_log) "log.dat"
           (mk_viewer_world [-1; 97; -1; 5] [])
           [example_frame 0; example_frame 0.5; example_frame 1]%float 333).
  - reflexivity.
  - vm_compute. reflexivity.
  - lia.
  - repeat constructor.
  - repeat (constructor; [split; discriminate|]). constructor.
Defined.

Lemma viewer_stops_at_quit_key_witness :
  exists fps : float,
    int_truediv 1000 333 = Ret fps
    /\ main (reader := example_log) "log.dat"
         (mk_viewer_world [-1; 113; 5] [])
       = (Ret tt,
          mk_viewer_world [5]
            (Printed 3 333 fps
             :: concat (frame_events <$> [example_frame 0;
                                          example_frame 0.5]%float))).
Proof.
  apply (viewer_stops_at_quit_key (reader := example_log) "log.dat"
           (mk_viewer_world [-1; 113; 5] [])
           [example_frame 0; example_frame 0.5; example_frame 1]%float 333
           [-1] 113 [5]).
  - reflexivity.
  - vm_compute. reflexivity.
  - lia.
  - repeat constructor.
  - reflexivity.
  - repeat (constructor; [split; discriminate|]). constructor.
  - left. reflexivity.
  - cbn. lia.
Defined.

Lemma viewer_waits_on_negative_interval_witness :
  exists fps : float,
    int_truediv 1000 (-333) = Ret fps
    /\ main (reader := reversed_log) "log.dat" (mk_viewer_world [-1; -1] [])
       = (Blocked,
          mk_viewer_world []
            (Printed 3 (-333) fps :: frame_events (example_frame 1))).
Proof.
  apply (viewer_waits_on_negative_interval (reader := reversed_log) "log.dat"
           (mk_viewer_world [-1; -1] [])
           (example_frame 1) [example_frame 0.5; example_frame 0]%float
           (-333)).
  - reflexivity.
  - vm_compute. reflexivity.
  - lia.
  - reflexivity.
  - repeat constructor.
Defined.

Lemma viewer_nan_timestamp_witness :
  main (reader := nan_log) "log.dat" fresh_viewer
  = (Raise ValueError, fresh_viewer).
Proof.
  apply (viewer_nan_timestamp (reader := nan_log) "log.dat" fresh_viewer
           [example_frame nan; example_frame 1]%float nan 1%float).
  - reflexivity.
  - reflexivity.
  - reflexivity.
  - left. reflexivity.
Defined.

Lemma extrinsic_stage_rerun_witness :
  let w1 := (calibrate_extrinsic_parameters (handler := example_handler 0.5)
               (rodrigues := example_Rodrigues)
               (project := example_ProjectPoints)
               "intrinsic.yml" "board.png" "extrinsic.yml" true
               example_world).2 in
  let w2 := (calibrate_extrinsic_parameters (handler := example_handler 0.5)
               (rodrigues := example_Rodrigues)
               (project := example_ProjectPoints)
               "extrinsic.yml" "board.png" "extrinsic.yml" false w1).2 in
  files w2 = files w1.
Proof.
  refine (proj1 (extrinsic_stage_rerun (handler := example_handler 0.5)
                   (rodrigues := example_Rodrigues)
                   (project := example_ProjectPoints)
                   example_world "intrinsic.yml" "board.png" "extrinsic.yml"
                   true false example_record
                   (matrix_block 3 3 example_camera_matrix)
                   (matrix_block 1 5 example_dist_coeffs)
                   example_camera_matrix example_dist_coeffs
                   example_rvec example_tvec _ _ _ _ _ _ _ _ _));
    first [reflexivity | apply not_elem_of_empty].
Defined.

Lemma viewer_interval_out_of_range_witness :
  exists fps : float,
    int_truediv 1000 5000000000000 = Ret fps
    /\ main (reader := far_apart_log) "log.dat"
         (mk_viewer_world [113] [])
       = (Raise (External "cv2.waitKey"),
          mk_viewer_world [113]
            (Printed 2 5000000000000 fps :: frame_events (example_frame 0))).
Proof.
  apply (viewer_interval_out_of_range (reader := far_apart_log) "log.dat"
           (mk_viewer_world [113] [])
           (example_frame 0) [example_frame 10000000000]%float
           5000000000000).
  - reflexivity.
  - vm_compute. reflexivity.
  - right. lia.
  - reflexivity.
Defined.
